(** * Restaurant manager backend: a shallow embedding of [main.py]

    The FastAPI application of [main.py] is embedded as pure functions over
    an explicit database value.  Every handler takes the database (and, where
    the source reads the clock, the current UTC time in seconds since the
    epoch) and returns a [Result]; handlers that write return the database
    after the request as well.

    Modelling conventions.
    - A table is the list of its rows in scan order; [.first()] is the head of
      the filtered list and [.all()] the filtered list itself.  An INSERT
      adds its row at the end.  An UPDATE writes a new version of its row,
      and where a scan without ORDER BY meets it is the engine's business:
      the model puts it at the end, as PostgreSQL (the default
      DATABASE_URL) does on a table without reclaimed space, and the
      properties of updates are stated up to the order of the rows.
    - Columns declared [nullable=True] and fields typed [Optional[...]] are
      [option]s; the remaining columns are read through non-optional Pydantic
      fields and are modelled as plain values.
    - Exceptions are the constructors of [Exception]; [raise] is [Raise] and
      [try ... except Exception] is [try_except].
    - A request is taken after routing and parsing: path, query and form
      parameters have their declared types, and a JSON body is an object
      whose values have the types of the schema's fields; which fields the
      body carries is left open.
    - Libraries the source calls (PyJWT, the SQL engine, Pydantic) are
      modelled only as far as the handlers observe them; what cannot be read
      off the source (the MAC, the engine's parsing of date literals, the
      enforcement of foreign keys) is a section variable. *)

From Stdlib Require Import ZArith List String Ascii Bool Lia.
From Stdlib Require Import DecimalString DecimalZ DecimalPos.
From Stdlib Require Import Sorting.Sorted Sorting.Permutation.
Import ListNotations.

Open Scope string_scope.
Open Scope list_scope.
Open Scope Z_scope.

Set Implicit Arguments.

(** ** Exceptions and results *)

Inductive Exception : Type :=
| HTTPException (status_code : Z) (detail : string)
| DecodeError                 (* jwt: not a well-formed token *)
| InvalidAlgorithmError       (* jwt: header algorithm not allowed *)
| InvalidSignatureError       (* jwt: signature mismatch *)
| ExpiredSignatureError       (* jwt: exp has passed *)
| ValueError                  (* int() on a non-numeric string *)
| IntegrityError              (* database: constraint violated at commit *)
| DataError                   (* database: a literal could not be converted *)
| RequestValidationError      (* fastapi: the body does not fit the schema *)
| ConfigError.                (* pydantic: from_orm on a class without orm_mode *)

Inductive Result (A : Type) : Type :=
| Ok (a : A)
| Raise (e : Exception).

Arguments Ok {A} a.
Arguments Raise {A} e.

Definition bind {A B : Type} (r : Result A) (k : A -> Result B) : Result B :=
  match r with
  | Ok a => k a
  | Raise e => Raise e
  end.

Notation "x <- r ;; k" := (bind r (fun x => k))
  (at level 61, r at next level, right associativity).

Definition fmap {A B : Type} (f : A -> B) (r : Result A) : Result B :=
  match r with
  | Ok a => Ok (f a)
  | Raise e => Raise e
  end.

(** [try: body except Exception: handler] *)
Definition try_except {A : Type} (body : Result A) (handler : Exception -> Result A)
  : Result A :=
  match body with
  | Ok a => Ok a
  | Raise e => handler e
  end.

(** [[f(x) for x in xs]]: the first exception ends the comprehension. *)
Fixpoint comprehension {A B : Type} (f : A -> Result B) (xs : list A) : Result (list B) :=
  match xs with
  | [] => Ok []
  | x :: rest =>
      y <- f x ;;
      ys <- comprehension f rest ;;
      Ok (y :: ys)
  end.

(** ** Python built-ins used by the handlers *)

(** [str(n)] for an integer [n]: the decimal numeral, with a leading minus
    sign for negative numbers. *)
Definition py_str (n : Z) : string := NilZero.string_of_int (Z.to_int n).

(** [int(s)] for a string [s], in base 10: blanks around the numeral (space,
    tab, line feed, vertical tab, form feed, carriage return) are dropped,
    then comes an optional sign, then digits, which single underscores may
    separate; anything else raises [ValueError].  This is [int] on ASCII
    text; the digits and blanks of other scripts, which [int] reads as
    well, are outside the 8-bit characters of [string]. *)
Definition is_space (c : ascii) : bool :=
  let n := nat_of_ascii c in
  (Nat.leb 9 n && Nat.leb n 13) || Nat.eqb n 32.

Definition is_digit (c : ascii) : bool :=
  let n := nat_of_ascii c in
  Nat.leb 48 n && Nat.leb n 57.

Fixpoint lstrip (s : string) : string :=
  match s with
  | EmptyString => EmptyString
  | String c rest => if is_space c then lstrip rest else s
  end.

Fixpoint rstrip (s : string) : string :=
  match s with
  | EmptyString => EmptyString
  | String c rest =>
      match rstrip rest with
      | EmptyString => if is_space c then EmptyString else String c EmptyString
      | rest' => String c rest'
      end
  end.

Definition strip (s : string) : string := rstrip (lstrip s).

(** The digits of a numeral without its underscores; [None] when the
    numeral is empty, has another character, or has an underscore that is
    not between two digits. *)
Fixpoint digits_of (after_digit : bool) (s : string) : option string :=
  match s with
  | EmptyString => if after_digit then Some EmptyString else None
  | String c rest =>
      if is_digit c then option_map (String c) (digits_of true rest)
      else if Ascii.eqb c "_" then
             (if after_digit then digits_of false rest else None)
           else None
  end.

Definition py_int (s : string) : Result Z :=
  let numeral := strip s in
  let signed :=
    match numeral with
    | String c rest =>
        if Ascii.eqb c "-" then (true, rest)
        else if Ascii.eqb c "+" then (false, rest)
        else (false, numeral)
    | EmptyString => (false, numeral)
    end in
  match digits_of false (snd signed) with
  | Some digits =>
      match NilZero.uint_of_string digits with
      | Some d => Ok (if fst signed then - Z.of_uint d else Z.of_uint d)
      | None => Raise ValueError
      end
  | None => Raise ValueError
  end.

(** Truthiness of an [Optional[str]] in [if x:] and [x or y]: [None] and the
    empty string are false. *)
Definition truthy (x : option string) : bool :=
  match x with
  | None => false
  | Some s => negb (String.eqb s "")
  end.

(** [query.first()] *)
Definition first {A : Type} (rows : list A) : option A :=
  match rows with
  | [] => None
  | r :: _ => Some r
  end.

(** ** SQLAlchemy models *)

Module ManagerUser.
Record t : Type := mk
  { id : Z; username : string; password_hash : string; role : string }.
End ManagerUser.

(** [MenuCategory] and [MenuItem] are the two classes the application
    instantiates itself.  An instance in a session may have [id = None] (a new
    object before the flush, or after [setattr(obj, "id", None)]); a stored
    row always has its key.  The record is therefore parametric in the type
    of [id]: [t] is a stored row, [obj] an instance in a session. *)
Module MenuCategory.
Record instance (I : Type) : Type := mk
  { id : I; name_pl : string; name_en : string; image_url : option string }.
Definition t : Type := instance Z.
Definition obj : Type := instance (option Z).
End MenuCategory.

Module MenuItem.
Record instance (I : Type) : Type := mk
  { id : I;
    category_id : Z;
    name_pl : string;
    name_en : string;
    price_cents : Z;
    image_url : option string;
    is_available : option bool }.
Definition t : Type := instance Z.
Definition obj : Type := instance (option Z).
End MenuItem.

Module Order.
Record t : Type := mk
  { id : Z;
    order_number : Z;
    status : string;
    type : string;
    created_at : Z;
    ready_at : option Z;
    language : string }.
End Order.

Module OrderItem.
Record t : Type := mk
  { id : Z; order_id : Z; menu_item_id : Z; quantity : Z }.
End OrderItem.

Module OrderEventLog.
Record t : Type := mk
  { id : Z;
    order_id : Z;
    event_type : string;
    terminal_name : string;
    timestamp : Z;
    new_status : string }.
End OrderEventLog.

(** The database: one list of rows per [__tablename__], and the two
    sequences that feed the primary keys of the tables this application
    inserts into. *)
Record Database : Type := mkDatabase
  { manager_user : list ManagerUser.t;
    menu_category : list MenuCategory.t;
    menu_item : list MenuItem.t;
    orders : list Order.t;
    order_item : list OrderItem.t;
    order_event_log : list OrderEventLog.t;
    menu_category_id_seq : Z;
    menu_item_id_seq : Z }.

(** ** JSON Web Tokens *)

(** The claims the application puts in a token.  A token presented by a
    client may lack any of them. *)
Record Claims : Type := mkClaims
  { sub : option string; role : option string; exp : option Z }.

(** A bearer string either is not a token at all or carries a header
    algorithm, the claims and a signature. *)
Inductive JWT : Type :=
| Malformed (raw : string)
| Signed (alg : string) (payload : Claims) (signature : Z).

Definition JWT_ALGORITHM : string := "HS256".

(** Default [expires_delta]: [timedelta(hours=12)], in seconds. *)
Definition expires_delta_default : Z := 12 * 3600.

(** ** Pydantic schemas

    A field typed [Optional[...]] may be left out of a request body, be
    [null], or carry a value; [exclude_unset=True] keeps only the fields the
    body carried, so the three cases are kept apart: [None] is "unset",
    [Some None] is an explicit [null]. *)

Module Token.
Record t : Type := mk { access_token : JWT }.
End Token.

Module UserMe.
Record t : Type := mk { id : Z; username : string; roles : list string }.
End UserMe.

Module MenuCategorySchema.
Record t : Type := mk
  { id : option (option Z);
    name_pl : string;
    name_en : string;
    image_url : option (option string) }.
End MenuCategorySchema.

Module MenuItemSchema.
Record t : Type := mk
  { id : option (option Z);
    category_id : Z;
    name_pl : string;
    name_en : string;
    price_cents : Z;
    image_url : option (option string);
    is_available : option (option bool) }.
End MenuItemSchema.

Module OrderItemSchema.
Record t : Type := mk
  { id : Z; menu_item_id : Z; name : string; quantity : Z }.
End OrderItemSchema.

Module OrderEventSchema.
Record t : Type := mk
  { id : Z;
    event_type : string;
    terminal_name : string;
    timestamp : Z;
    new_status : string }.

(** The class declares no [Config] (its three sibling schemas set
    [orm_mode = True]), so [orm_mode] has its default. *)
Definition orm_mode : bool := false.

(** [OrderEventSchema.from_orm(e)]: the fields read off the attributes of
    [e] when the class is in orm_mode, a [ConfigError] otherwise. *)
Definition from_orm (e : OrderEventLog.t) : Result t :=
  if orm_mode
  then Ok {| id := OrderEventLog.id e;
             event_type := OrderEventLog.event_type e;
             terminal_name := OrderEventLog.terminal_name e;
             timestamp := OrderEventLog.timestamp e;
             new_status := OrderEventLog.new_status e |}
  else Raise ConfigError.
End OrderEventSchema.

Module OrderDetailsSchema.
Record t : Type := mk
  { order : Order.t;
    items : list OrderItemSchema.t;
    events : list OrderEventSchema.t }.
End OrderDetailsSchema.

(** A JSON request body for a schema: every key may be absent ([None]),
    [null] ([Some None]) or present with a value of the field's type. *)
Module MenuCategoryBody.
Record t : Type := mk
  { id : option (option Z);
    name_pl : option (option string);
    name_en : option (option string);
    image_url : option (option string) }.
End MenuCategoryBody.

Module MenuItemBody.
Record t : Type := mk
  { id : option (option Z);
    category_id : option (option Z);
    name_pl : option (option string);
    name_en : option (option string);
    price_cents : option (option Z);
    image_url : option (option string);
    is_available : option (option bool) }.
End MenuItemBody.

(** Validation of a body against the schema class: a field without
    [Optional] must be present and not [null]. *)
Definition required {A : Type} (field : option (option A)) : option A :=
  match field with
  | Some (Some v) => Some v
  | _ => None
  end.

Definition validate_MenuCategorySchema (b : MenuCategoryBody.t)
  : option MenuCategorySchema.t :=
  match required (MenuCategoryBody.name_pl b), required (MenuCategoryBody.name_en b) with
  | Some pl, Some en =>
      Some {| MenuCategorySchema.id := MenuCategoryBody.id b;
              MenuCategorySchema.name_pl := pl;
              MenuCategorySchema.name_en := en;
              MenuCategorySchema.image_url := MenuCategoryBody.image_url b |}
  | _, _ => None
  end.

Definition validate_MenuItemSchema (b : MenuItemBody.t) : option MenuItemSchema.t :=
  match required (MenuItemBody.category_id b),
        required (MenuItemBody.name_pl b),
        required (MenuItemBody.name_en b),
        required (MenuItemBody.price_cents b) with
  | Some c, Some pl, Some en, Some p =>
      Some {| MenuItemSchema.id := MenuItemBody.id b;
              MenuItemSchema.category_id := c;
              MenuItemSchema.name_pl := pl;
              MenuItemSchema.name_en := en;
              MenuItemSchema.price_cents := p;
              MenuItemSchema.image_url := MenuItemBody.image_url b;
              MenuItemSchema.is_available := MenuItemBody.is_available b |}
  | _, _, _, _ => None
  end.

(** The routes of the application, each under the name of its handler. *)
Module Endpoint.
Inductive t : Type :=
| login
| get_me
| get_categories
| add_category
| update_category
| delete_category
| get_menu_items
| add_menu_item
| update_menu_item
| delete_menu_item
| block_menu_item
| get_orders
| get_order_details
| orders_daily
| top_menu_items
| test_db_connection
| hello_debug
| debug_secret.
End Endpoint.

Section App.

(** The HS256 message authentication code of the claims under a key. *)
Variable HS256 : string -> Claims -> Z.

(** [os.getenv("JWT_SECRET")] *)
Variable env_JWT_SECRET : option string.

(** Whether the engine enforces the declared FOREIGN KEY constraints
    (PostgreSQL, the default [DATABASE_URL], does). *)
Variable foreign_keys : bool.

(** The engine's conversion of a string literal compared with a DateTime
    column, and with [func.date(...)]: [None] when the engine rejects it. *)
Variable timestamp_in : string -> option Z.
Variable date_in : string -> option Z.

(** The outcome of [SELECT 1] on a fresh connection: [None] on success,
    the text of the exception otherwise. *)
Variable select_1 : option string.

Definition JWT_SECRET : string :=
  match env_JWT_SECRET with
  | Some s => s
  | None => "supersecretjwt"
  end.

(** *** PyJWT *)

Definition jwt_encode (payload : Claims) (key : string) : JWT :=
  Signed JWT_ALGORITHM payload (HS256 key payload).

(** [jwt.decode(token, key, algorithms=[JWT_ALGORITHM])] at time [now]:
    the algorithm and the signature are checked first, then [exp] when the
    claims carry one.  As in RFC 7519 and PyJWT 2, a token is valid strictly
    before [exp] and expired from that second on. *)
Definition jwt_decode (token : JWT) (key : string) (now : Z) : Result Claims :=
  match token with
  | Malformed _ => Raise DecodeError
  | Signed alg payload signature =>
      if negb (String.eqb alg JWT_ALGORITHM) then Raise InvalidAlgorithmError
      else if negb (signature =? HS256 key payload) then Raise InvalidSignatureError
      else match exp payload with
           | Some e => if e <=? now then Raise ExpiredSignatureError else Ok payload
           | None => Ok payload
           end
  end.

(** *** Authentication *)

Definition create_access_token (data : Claims) (expires_delta : Z) (now : Z) : JWT :=
  let to_encode :=
    {| sub := sub data; role := role data; exp := Some (now + expires_delta) |} in
  jwt_encode to_encode JWT_SECRET.

(** [OAuth2PasswordBearer]: the bearer token of the Authorization header,
    or 401 when the header is absent or not a bearer credential. *)
Definition oauth2_scheme (authorization : option JWT) : Result JWT :=
  match authorization with
  | Some token => Ok token
  | None => Raise (HTTPException 401 "Not authenticated")
  end.

Definition get_current_user (token : JWT) (db : Database) (now : Z)
  : Result ManagerUser.t :=
  try_except
    (payload <- jwt_decode token JWT_SECRET now ;;
     match sub payload with
     | None => Raise (HTTPException 401 "Invalid token")
     | Some user_id =>
         uid <- py_int user_id ;;
         match first (filter (fun u => ManagerUser.id u =? uid) (manager_user db)) with
         | None => Raise (HTTPException 401 "User not found")
         | Some user => Ok user
         end
     end)
    (fun _ => Raise (HTTPException 401 "Invalid token")).

Definition login (username password : string) (db : Database) (now : Z)
  : Result Token.t :=
  match first (filter (fun u => String.eqb (ManagerUser.username u) username)
                      (manager_user db)) with
  | None => Raise (HTTPException 400 "Invalid credentials")
  | Some user =>
      if negb (String.eqb (ManagerUser.password_hash user) password)
      then Raise (HTTPException 400 "Invalid credentials")
      else
        let token :=
          create_access_token
            {| sub := Some (py_str (ManagerUser.id user));
               role := Some (ManagerUser.role user);
               exp := None |}
            expires_delta_default now in
        Ok {| Token.access_token := token |}
  end.

Definition get_me (current_user : ManagerUser.t) : UserMe.t :=
  {| UserMe.id := ManagerUser.id current_user;
     UserMe.username := ManagerUser.username current_user;
     UserMe.roles := [ManagerUser.role current_user] |}.

(** *** The session: loading, flushing and committing *)

(** The instance the session hands out for a stored row. *)
Definition load_category (r : MenuCategory.t) : MenuCategory.obj :=
  {| MenuCategory.id := Some (MenuCategory.id r);
     MenuCategory.name_pl := MenuCategory.name_pl r;
     MenuCategory.name_en := MenuCategory.name_en r;
     MenuCategory.image_url := MenuCategory.image_url r |}.

Definition load_item (r : MenuItem.t) : MenuItem.obj :=
  {| MenuItem.id := Some (MenuItem.id r);
     MenuItem.category_id := MenuItem.category_id r;
     MenuItem.name_pl := MenuItem.name_pl r;
     MenuItem.name_en := MenuItem.name_en r;
     MenuItem.price_cents := MenuItem.price_cents r;
     MenuItem.image_url := MenuItem.image_url r;
     MenuItem.is_available := MenuItem.is_available r |}.

(** The row an instance is written as, once its key is known. *)
Definition store_category (o : MenuCategory.obj) (key : Z) : MenuCategory.t :=
  {| MenuCategory.id := key;
     MenuCategory.name_pl := MenuCategory.name_pl o;
     MenuCategory.name_en := MenuCategory.name_en o;
     MenuCategory.image_url := MenuCategory.image_url o |}.

Definition store_item (o : MenuItem.obj) (key : Z) : MenuItem.t :=
  {| MenuItem.id := key;
     MenuItem.category_id := MenuItem.category_id o;
     MenuItem.name_pl := MenuItem.name_pl o;
     MenuItem.name_en := MenuItem.name_en o;
     MenuItem.price_cents := MenuItem.price_cents o;
     MenuItem.image_url := MenuItem.image_url o;
     MenuItem.is_available := MenuItem.is_available o |}.

Definition with_menu_category (rows : list MenuCategory.t) (seq : Z) (db : Database)
  : Database :=
  {| manager_user := manager_user db;
     menu_category := rows;
     menu_item := menu_item db;
     orders := orders db;
     order_item := order_item db;
     order_event_log := order_event_log db;
     menu_category_id_seq := seq;
     menu_item_id_seq := menu_item_id_seq db |}.

Definition with_menu_item (rows : list MenuItem.t) (seq : Z) (db : Database)
  : Database :=
  {| manager_user := manager_user db;
     menu_category := menu_category db;
     menu_item := rows;
     orders := orders db;
     order_item := order_item db;
     order_event_log := order_event_log db;
     menu_category_id_seq := menu_category_id_seq db;
     menu_item_id_seq := seq |}.

(** DELETE ... WHERE id = key, on the row the instance was loaded from (the
    first with that key). *)
Fixpoint delete_row {A : Type} (is_row : A -> bool) (rows : list A) : list A :=
  match rows with
  | [] => []
  | r :: rest => if is_row r then rest else r :: delete_row is_row rest
  end.

(** UPDATE ... WHERE id = key, on the row the instance was loaded from.  The
    engine writes the new version of the row as a new row, which a scan
    without ORDER BY returns after the rows that were not touched; no row is
    written when none has the key. *)
Definition update_row {A : Type} (is_row : A -> bool) (new : A) (rows : list A) : list A :=
  if existsb is_row rows then delete_row is_row rows ++ [new] else rows.

(** The declared constraints: [primary_key=True] on [id], and the
    [ForeignKey] columns of [menu_item] and [order_item] that point into the
    tables this application writes. *)
Fixpoint unique (keys : list Z) : bool :=
  match keys with
  | [] => true
  | k :: rest => negb (existsb (Z.eqb k) rest) && unique rest
  end.

Definition references (foreign parent : list Z) : bool :=
  forallb (fun k => existsb (Z.eqb k) parent) foreign.

Definition constraints_hold (db : Database) : bool :=
  unique (map (@MenuCategory.id Z) (menu_category db))
  && unique (map (@MenuItem.id Z) (menu_item db))
  && (negb foreign_keys
      || (references (map (@MenuItem.category_id Z) (menu_item db))
                     (map (@MenuCategory.id Z) (menu_category db))
          && references (map OrderItem.menu_item_id (order_item db))
                        (map (@MenuItem.id Z) (menu_item db)))).

(** [db.commit()]: the pending writes are kept when the constraints hold and
    fail with an [IntegrityError] otherwise. *)
Definition commit (pending : Database) : Result Database :=
  if constraints_hold pending then Ok pending else Raise IntegrityError.

(** INSERT of a new instance: a key left [None] is drawn from the table's
    sequence, which stays advanced even when the insert is refused. *)
Definition insert_category (o : MenuCategory.obj) (db : Database)
  : Result MenuCategory.t * Database :=
  let seq := match MenuCategory.id o with
             | Some _ => menu_category_id_seq db
             | None => menu_category_id_seq db + 1
             end in
  let key := match MenuCategory.id o with Some k => k | None => seq end in
  let row := store_category o key in
  match commit (with_menu_category (menu_category db ++ [row]) seq db) with
  | Ok db' => (Ok row, db')
  | Raise e => (Raise e, with_menu_category (menu_category db) seq db)
  end.

(** An attribute that is None is left out of the INSERT when its column
    declares a default, which the engine then stores:
    [is_available = Column(Boolean, default=True)]. *)
Definition insert_defaults (o : MenuItem.obj) : MenuItem.obj :=
  MenuItem.mk (MenuItem.id o) (MenuItem.category_id o) (MenuItem.name_pl o)
              (MenuItem.name_en o) (MenuItem.price_cents o) (MenuItem.image_url o)
              (match MenuItem.is_available o with
               | Some b => Some b
               | None => Some true
               end).

Definition insert_item (o : MenuItem.obj) (db : Database)
  : Result MenuItem.t * Database :=
  let seq := match MenuItem.id o with
             | Some _ => menu_item_id_seq db
             | None => menu_item_id_seq db + 1
             end in
  let key := match MenuItem.id o with Some k => k | None => seq end in
  let row := store_item (insert_defaults o) key in
  match commit (with_menu_item (menu_item db ++ [row]) seq db) with
  | Ok db' => (Ok row, db')
  | Raise e => (Raise e, with_menu_item (menu_item db) seq db)
  end.

(** UPDATE of the row with key [old] from a modified instance; a key set to
    [None] violates NOT NULL. *)
Definition flush_category (old : Z) (o : MenuCategory.obj) (db : Database)
  : Result MenuCategory.t * Database :=
  match MenuCategory.id o with
  | None => (Raise IntegrityError, db)
  | Some key =>
      let row := store_category o key in
      let rows := update_row (fun r => MenuCategory.id r =? old) row (menu_category db) in
      match commit (with_menu_category rows (menu_category_id_seq db) db) with
      | Ok db' => (Ok row, db')
      | Raise e => (Raise e, db)
      end
  end.

Definition flush_item (old : Z) (o : MenuItem.obj) (db : Database)
  : Result MenuItem.t * Database :=
  match MenuItem.id o with
  | None => (Raise IntegrityError, db)
  | Some key =>
      let row := store_item o key in
      let rows := update_row (fun r => MenuItem.id r =? old) row (menu_item db) in
      match commit (with_menu_item rows (menu_item_id_seq db) db) with
      | Ok db' => (Ok row, db')
      | Raise e => (Raise e, db)
      end
  end.

(** *** Menu management *)

(** One [key, value] pair of [schema.dict(exclude_unset=True)]. *)
Inductive CategoryAttr : Type :=
| Cat_id (v : option Z)
| Cat_name_pl (v : string)
| Cat_name_en (v : string)
| Cat_image_url (v : option string).

Inductive ItemAttr : Type :=
| Item_id (v : option Z)
| Item_category_id (v : Z)
| Item_name_pl (v : string)
| Item_name_en (v : string)
| Item_price_cents (v : Z)
| Item_image_url (v : option string)
| Item_is_available (v : option bool).

Definition unset_or {A B : Type} (f : A -> B) (field : option A) : list B :=
  match field with
  | Some v => [f v]
  | None => []
  end.

(** [cat.dict(exclude_unset=True).items()], in field order. *)
Definition category_dict (cat : MenuCategorySchema.t) : list CategoryAttr :=
  unset_or Cat_id (MenuCategorySchema.id cat)
  ++ [Cat_name_pl (MenuCategorySchema.name_pl cat);
      Cat_name_en (MenuCategorySchema.name_en cat)]
  ++ unset_or Cat_image_url (MenuCategorySchema.image_url cat).

Definition item_dict (item : MenuItemSchema.t) : list ItemAttr :=
  unset_or Item_id (MenuItemSchema.id item)
  ++ [Item_category_id (MenuItemSchema.category_id item);
      Item_name_pl (MenuItemSchema.name_pl item);
      Item_name_en (MenuItemSchema.name_en item);
      Item_price_cents (MenuItemSchema.price_cents item)]
  ++ unset_or Item_image_url (MenuItemSchema.image_url item)
  ++ unset_or Item_is_available (MenuItemSchema.is_available item).

(** [setattr(obj, k, v)] *)
Definition setattr_category (o : MenuCategory.obj) (kv : CategoryAttr) : MenuCategory.obj :=
  match kv with
  | Cat_id v =>
      MenuCategory.mk v (MenuCategory.name_pl o) (MenuCategory.name_en o)
                      (MenuCategory.image_url o)
  | Cat_name_pl v =>
      MenuCategory.mk (MenuCategory.id o) v (MenuCategory.name_en o)
                      (MenuCategory.image_url o)
  | Cat_name_en v =>
      MenuCategory.mk (MenuCategory.id o) (MenuCategory.name_pl o) v
                      (MenuCategory.image_url o)
  | Cat_image_url v =>
      MenuCategory.mk (MenuCategory.id o) (MenuCategory.name_pl o)
                      (MenuCategory.name_en o) v
  end.

Definition setattr_item (o : MenuItem.obj) (kv : ItemAttr) : MenuItem.obj :=
  match kv with
  | Item_id v =>
      MenuItem.mk v (MenuItem.category_id o) (MenuItem.name_pl o) (MenuItem.name_en o)
                  (MenuItem.price_cents o) (MenuItem.image_url o) (MenuItem.is_available o)
  | Item_category_id v =>
      MenuItem.mk (MenuItem.id o) v (MenuItem.name_pl o) (MenuItem.name_en o)
                  (MenuItem.price_cents o) (MenuItem.image_url o) (MenuItem.is_available o)
  | Item_name_pl v =>
      MenuItem.mk (MenuItem.id o) (MenuItem.category_id o) v (MenuItem.name_en o)
                  (MenuItem.price_cents o) (MenuItem.image_url o) (MenuItem.is_available o)
  | Item_name_en v =>
      MenuItem.mk (MenuItem.id o) (MenuItem.category_id o) (MenuItem.name_pl o) v
                  (MenuItem.price_cents o) (MenuItem.image_url o) (MenuItem.is_available o)
  | Item_price_cents v =>
      MenuItem.mk (MenuItem.id o) (MenuItem.category_id o) (MenuItem.name_pl o)
                  (MenuItem.name_en o) v (MenuItem.image_url o) (MenuItem.is_available o)
  | Item_image_url v =>
      MenuItem.mk (MenuItem.id o) (MenuItem.category_id o) (MenuItem.name_pl o)
                  (MenuItem.name_en o) (MenuItem.price_cents o) v (MenuItem.is_available o)
  | Item_is_available v =>
      MenuItem.mk (MenuItem.id o) (MenuItem.category_id o) (MenuItem.name_pl o)
                  (MenuItem.name_en o) (MenuItem.price_cents o) (MenuItem.image_url o) v
  end.

(** The constructors [MenuCategory] and [MenuItem] applied to the unpacked
    dictionary: its entries are set on a fresh instance.  The schemas always supply the fields that are
    not [Optional], so the placeholders below for them are never observed; an
    attribute that is never set is None. *)
Definition new_category (kwargs : list CategoryAttr) : MenuCategory.obj :=
  fold_left setattr_category kwargs (MenuCategory.mk None "" "" None).

Definition new_item (kwargs : list ItemAttr) : MenuItem.obj :=
  fold_left setattr_item kwargs (MenuItem.mk None 0 "" "" 0 None None).

Definition Not_Found : Exception := HTTPException 404 "Not Found".

Definition get_categories (db : Database) : list MenuCategory.t :=
  menu_category db.

Definition add_category (cat : MenuCategorySchema.t) (db : Database)
  : Result MenuCategory.t * Database :=
  let obj := new_category (category_dict cat) in
  insert_category obj db.

Definition update_category (id : Z) (upd : MenuCategorySchema.t) (db : Database)
  : Result MenuCategory.t * Database :=
  match first (filter (fun c => MenuCategory.id c =? id) (menu_category db)) with
  | None => (Raise Not_Found, db)
  | Some row =>
      let obj := fold_left setattr_category (category_dict upd) (load_category row) in
      flush_category (MenuCategory.id row) obj db
  end.

Definition delete_category (id : Z) (db : Database) : Result unit * Database :=
  match first (filter (fun c => MenuCategory.id c =? id) (menu_category db)) with
  | None => (Raise Not_Found, db)
  | Some row =>
      let rows := delete_row (fun r => MenuCategory.id r =? MenuCategory.id row)
                             (menu_category db) in
      match commit (with_menu_category rows (menu_category_id_seq db) db) with
      | Ok db' => (Ok tt, db')
      | Raise e => (Raise e, db)
      end
  end.

Definition get_menu_items (db : Database) : list MenuItem.t :=
  menu_item db.

Definition add_menu_item (item : MenuItemSchema.t) (db : Database)
  : Result MenuItem.t * Database :=
  let obj := new_item (item_dict item) in
  insert_item obj db.

Definition update_menu_item (id : Z) (upd : MenuItemSchema.t) (db : Database)
  : Result MenuItem.t * Database :=
  match first (filter (fun i => MenuItem.id i =? id) (menu_item db)) with
  | None => (Raise Not_Found, db)
  | Some row =>
      let obj := fold_left setattr_item (item_dict upd) (load_item row) in
      flush_item (MenuItem.id row) obj db
  end.

Definition delete_menu_item (id : Z) (db : Database) : Result unit * Database :=
  match first (filter (fun i => MenuItem.id i =? id) (menu_item db)) with
  | None => (Raise Not_Found, db)
  | Some row =>
      let rows := delete_row (fun r => MenuItem.id r =? MenuItem.id row) (menu_item db) in
      match commit (with_menu_item rows (menu_item_id_seq db) db) with
      | Ok db' => (Ok tt, db')
      | Raise e => (Raise e, db)
      end
  end.

Definition block_menu_item (id : Z) (is_available : bool) (db : Database)
  : Result (option bool) * Database :=
  match first (filter (fun i => MenuItem.id i =? id) (menu_item db)) with
  | None => (Raise Not_Found, db)
  | Some row =>
      let obj := setattr_item (load_item row) (Item_is_available (Some is_available)) in
      match flush_item (MenuItem.id row) obj db with
      | (Ok row', db') => (Ok (MenuItem.is_available row'), db')
      | (Raise e, db') => (Raise e, db')
      end
  end.

(** *** Query building blocks *)

(** [query(A, B).join(B, on)]: the pairs of a row of each table that satisfy
    the join condition. *)
Definition join {A B : Type} (left : list A) (right : list B) (on : A -> B -> bool)
  : list (A * B) :=
  flat_map (fun a => map (pair a) (filter (on a) right)) left.

(** The value of a query parameter that has passed [if x:]. *)
Definition value (x : option string) : string :=
  match x with
  | Some s => s
  | None => ""
  end.

(** A string compared with a DateTime column is converted by the engine. *)
Definition timestamp_literal (s : string) : Result Z :=
  match timestamp_in s with
  | Some t => Ok t
  | None => Raise DataError
  end.

Definition date_literal (s : string) : Result Z :=
  match date_in s with
  | Some d => Ok d
  | None => Raise DataError
  end.

(** [func.date(ts)] and [datetime.date()]: the day of a time given in
    seconds since the epoch. *)
Definition func_date (ts : Z) : Z := ts / 86400.

(** GROUP BY with SUM: the groups in order of first appearance. *)
Fixpoint add_to_group {K : Type} (eqb : K -> K -> bool) (k : K) (v : Z)
  (groups : list (K * Z)) : list (K * Z) :=
  match groups with
  | [] => [(k, v)]
  | (k', s) :: rest =>
      if eqb k' k then (k', s + v) :: rest
      else (k', s) :: add_to_group eqb k v rest
  end.

Definition group_by_sum {K : Type} (eqb : K -> K -> bool) (rows : list (K * Z))
  : list (K * Z) :=
  fold_left (fun groups kv => add_to_group eqb (fst kv) (snd kv) groups) rows [].

(** ORDER BY sum DESC, by insertion. *)
Fixpoint insert_desc {K : Type} (x : K * Z) (sorted : list (K * Z)) : list (K * Z) :=
  match sorted with
  | [] => [x]
  | y :: rest => if snd x <? snd y then y :: insert_desc x rest else x :: y :: rest
  end.

Fixpoint order_by_desc {K : Type} (groups : list (K * Z)) : list (K * Z) :=
  match groups with
  | [] => []
  | g :: rest => insert_desc g (order_by_desc rest)
  end.

Definition limit {A : Type} (n : nat) (rows : list A) : list A := firstn n rows.

(** *** Order reporting *)

Definition get_orders (status date_from date_to : option string) (db : Database)
  : Result (list Order.t) :=
  let q := orders db in
  let q := if truthy status
           then filter (fun o => String.eqb (Order.status o) (value status)) q
           else q in
  q <- (if truthy date_from
        then lo <- timestamp_literal (value date_from) ;;
             Ok (filter (fun o => lo <=? Order.created_at o) q)
        else Ok q) ;;
  q <- (if truthy date_to
        then hi <- timestamp_literal (value date_to) ;;
             Ok (filter (fun o => Order.created_at o <=? hi) q)
        else Ok q) ;;
  Ok q.

Definition get_order_details (order_id : Z) (db : Database)
  : Result OrderDetailsSchema.t :=
  match first (filter (fun o => Order.id o =? order_id) (orders db)) with
  | None => Raise Not_Found
  | Some order =>
      let items :=
        filter (fun row => OrderItem.order_id (fst row) =? order_id)
               (join (order_item db) (menu_item db)
                     (fun oi mi => OrderItem.menu_item_id oi =? MenuItem.id mi)) in
      let items_schema :=
        map (fun row =>
               let oi := fst row in
               let mi := snd row in
               {| OrderItemSchema.id := OrderItem.id oi;
                  OrderItemSchema.menu_item_id := OrderItem.menu_item_id oi;
                  OrderItemSchema.name := MenuItem.name_pl mi;
                  OrderItemSchema.quantity := OrderItem.quantity oi |})
            items in
      let events :=
        filter (fun e => OrderEventLog.order_id e =? order_id) (order_event_log db) in
      events_schema <- comprehension OrderEventSchema.from_orm events ;;
      Ok {| OrderDetailsSchema.order := order;
            OrderDetailsSchema.items := items_schema;
            OrderDetailsSchema.events := events_schema |}
  end.

(** *** Statistics *)

Definition orders_daily (date : option string) (db : Database) (now : Z)
  : Result (list (string * Z)) :=
  day <- (if truthy date then date_literal (value date) else Ok (func_date now)) ;;
  let results :=
    group_by_sum String.eqb
      (map (fun e => (OrderEventLog.terminal_name e, 1))
           (filter (fun e => func_date (OrderEventLog.timestamp e) =? day)
                   (filter (fun e => String.eqb (OrderEventLog.event_type e) "ready")
                           (order_event_log db)))) in
  Ok results.

(** The GROUP BY key of [top_menu_items]: [(MenuItem.id, MenuItem.name_pl)]. *)
Definition key_eqb (a b : Z * string) : bool :=
  (fst a =? fst b) && String.eqb (snd a) (snd b).

(** The rows of MenuItem JOIN OrderItem JOIN Order. *)
Definition sold_rows (db : Database) : list ((MenuItem.t * OrderItem.t) * Order.t) :=
  join (join (menu_item db) (order_item db)
             (fun mi oi => MenuItem.id mi =? OrderItem.menu_item_id oi))
       (orders db)
       (fun row o => OrderItem.order_id (snd row) =? Order.id o).

Definition top_menu_items (date_from date_to : option string) (db : Database)
  : Result (list ((Z * string) * Z)) :=
  let q := sold_rows db in
  q <- (if truthy date_from
        then lo <- timestamp_literal (value date_from) ;;
             Ok (filter (fun row => lo <=? Order.created_at (snd row)) q)
        else Ok q) ;;
  q <- (if truthy date_to
        then hi <- timestamp_literal (value date_to) ;;
             Ok (filter (fun row => Order.created_at (snd row) <=? hi) q)
        else Ok q) ;;
  let groups :=
    group_by_sum key_eqb
      (map (fun row =>
              let mi := fst (fst row) in
              let oi := snd (fst row) in
              ((MenuItem.id mi, MenuItem.name_pl mi), OrderItem.quantity oi))
           q) in
  Ok (limit 10 (order_by_desc groups)).

(** *** Diagnostics *)

Definition test_db_connection : string * option string :=
  match select_1 with
  | None => ("ok", None)
  | Some e => ("error", Some e)
  end.

Definition hello_debug : string := "hello from new code".

Definition debug_secret : option string := env_JWT_SECRET.

(** *** The API surface *)

(** A request: the route with its path and query parameters and, for the
    four routes that take one, the JSON body as sent. *)
Inductive Request : Type :=
| POST_auth_login (username password : string)
| GET_auth_me
| GET_menu_categories
| POST_menu_categories (body : MenuCategoryBody.t)
| PUT_menu_categories (id : Z) (body : MenuCategoryBody.t)
| DELETE_menu_categories (id : Z)
| GET_menu_items
| POST_menu_items (body : MenuItemBody.t)
| PUT_menu_items (id : Z) (body : MenuItemBody.t)
| DELETE_menu_items (id : Z)
| POST_menu_items_block (id : Z) (is_available : bool)
| GET_orders (status date_from date_to : option string)
| GET_orders_id (order_id : Z)
| GET_stats_orders_daily (date : option string)
| GET_stats_menu_items_top (date_from date_to : option string)
| GET_test_db
| GET_hello_debug
| GET_debug_secret.

(** The content of a response. *)
Inductive Content : Type :=
| JToken (token : Token.t)
| JUserMe (me : UserMe.t)
| JCategories (rows : list MenuCategory.t)
| JCategory (row : MenuCategory.t)
| JItems (rows : list MenuItem.t)
| JItem (row : MenuItem.t)
| JEmpty
| JIsAvailable (is_available : option bool)
| JOrders (rows : list Order.t)
| JOrderDetails (details : OrderDetailsSchema.t)
| JTerminalStats (terminal_stats : list (string * Z))
| JTopItems (rows : list ((Z * string) * Z))
| JDb (db : string) (details : option string)
| JMsg (msg : string)
| JSecret (secret : option string)
| JDetail (detail : string)
| JValidationErrors
| Internal_Server_Error.

Record Response : Type := mkResponse { status_code : Z; content : Content }.

(** What the framework sends for a handler's outcome: 200 with the returned
    value, the status and detail of an [HTTPException], 422 for a body that
    does not validate, 500 for any other exception. *)
Definition respond (r : Result Content) : Response :=
  match r with
  | Ok c => mkResponse 200 c
  | Raise (HTTPException code detail) => mkResponse code (JDetail detail)
  | Raise RequestValidationError => mkResponse 422 JValidationErrors
  | Raise _ => mkResponse 500 Internal_Server_Error
  end.

(** [Depends(get_current_user)], itself depending on [oauth2_scheme]: the
    endpoint runs only with the user the dependency returned. *)
Definition Depends_get_current_user (authorization : option JWT) (db : Database)
  (now : Z) (endpoint : ManagerUser.t -> Result Content * Database)
  : Result Content * Database :=
  match (token <- oauth2_scheme authorization ;; get_current_user token db now) with
  | Ok current_user => endpoint current_user
  | Raise e => (Raise e, db)
  end.

(** A body parameter: validated after the dependencies are solved. *)
Definition Body {S : Type} (validated : option S) (db : Database)
  (endpoint : S -> Result Content * Database) : Result Content * Database :=
  match validated with
  | Some model => endpoint model
  | None => (Raise RequestValidationError, db)
  end.

Definition returns {A : Type} (f : A -> Content) (outcome : Result A * Database)
  : Result Content * Database :=
  (fmap f (fst outcome), snd outcome).

Definition route (req : Request) (authorization : option JWT) (db : Database) (now : Z)
  : Result Content * Database :=
  match req with
  | POST_auth_login username password =>
      (fmap JToken (login username password db now), db)
  | GET_auth_me =>
      Depends_get_current_user authorization db now (fun current_user =>
        (Ok (JUserMe (get_me current_user)), db))
  | GET_menu_categories =>
      Depends_get_current_user authorization db now (fun _ =>
        (Ok (JCategories (get_categories db)), db))
  | POST_menu_categories body =>
      Depends_get_current_user authorization db now (fun _ =>
        Body (validate_MenuCategorySchema body) db (fun cat =>
          returns JCategory (add_category cat db)))
  | PUT_menu_categories id body =>
      Depends_get_current_user authorization db now (fun _ =>
        Body (validate_MenuCategorySchema body) db (fun upd =>
          returns JCategory (update_category id upd db)))
  | DELETE_menu_categories id =>
      Depends_get_current_user authorization db now (fun _ =>
        returns (fun _ => JEmpty) (delete_category id db))
  | GET_menu_items =>
      Depends_get_current_user authorization db now (fun _ =>
        (Ok (JItems (get_menu_items db)), db))
  | POST_menu_items body =>
      Depends_get_current_user authorization db now (fun _ =>
        Body (validate_MenuItemSchema body) db (fun item =>
          returns JItem (add_menu_item item db)))
  | PUT_menu_items id body =>
      Depends_get_current_user authorization db now (fun _ =>
        Body (validate_MenuItemSchema body) db (fun upd =>
          returns JItem (update_menu_item id upd db)))
  | DELETE_menu_items id =>
      Depends_get_current_user authorization db now (fun _ =>
        returns (fun _ => JEmpty) (delete_menu_item id db))
  | POST_menu_items_block id is_available =>
      Depends_get_current_user authorization db now (fun _ =>
        returns JIsAvailable (block_menu_item id is_available db))
  | GET_orders status date_from date_to =>
      Depends_get_current_user authorization db now (fun _ =>
        (fmap JOrders (get_orders status date_from date_to db), db))
  | GET_orders_id order_id =>
      Depends_get_current_user authorization db now (fun _ =>
        (fmap JOrderDetails (get_order_details order_id db), db))
  | GET_stats_orders_daily date =>
      Depends_get_current_user authorization db now (fun _ =>
        (fmap JTerminalStats (orders_daily date db now), db))
  | GET_stats_menu_items_top date_from date_to =>
      Depends_get_current_user authorization db now (fun _ =>
        (fmap JTopItems (top_menu_items date_from date_to db), db))
  | GET_test_db =>
      (Ok (JDb (fst test_db_connection) (snd test_db_connection)), db)
  | GET_hello_debug =>
      (Ok (JMsg hello_debug), db)
  | GET_debug_secret =>
      (Ok (JSecret debug_secret), db)
  end.

(** One request against the application: the response and the database
    afterwards. *)
Definition app (req : Request) (authorization : option JWT) (db : Database) (now : Z)
  : Response * Database :=
  (respond (fst (route req authorization db now)), snd (route req authorization db now)).

(** The value a partial update leaves in a field: the supplied one, or the
    prior one when the body left the field out. *)
Definition supplied_or_prior {A : Type} (field : option A) (prior : A) : A :=
  match field with
  | Some v => v
  | None => prior
  end.

(** "sorted by sum, descending": no entry is followed by a larger one. *)
Definition descending {K : Type} (rows : list (K * Z)) : Prop :=
  StronglySorted (fun a b => snd b <= snd a) rows.

Definition sumZ (xs : list Z) : Z := fold_right Z.add 0 xs.

(** The sum a GROUP BY reports for a key: the values of the rows with it. *)
Definition total {K : Type} (eqb : K -> K -> bool) (k : K) (rows : list (K * Z)) : Z :=
  sumZ (map snd (filter (fun kv => eqb (fst kv) k) rows)).

(** The value a GROUP BY result holds for a key, if any. *)
Fixpoint lookup {K : Type} (eqb : K -> K -> bool) (k : K) (groups : list (K * Z))
  : option Z :=
  match groups with
  | [] => None
  | (k', s) :: rest => if eqb k' k then Some s else lookup eqb k rest
  end.

(** Following the specification of topMenuItems: the quantity of a menu item
    sold, that is the sum of [OrderItem.quantity] over the line items that
    name the menu item and belong to an order whose created_at is in range. *)
Definition quantity_sold (in_range : Order.t -> bool) (db : Database) (menu_item_id : Z)
  : Z :=
  sumZ (map OrderItem.quantity
            (filter (fun oi =>
                       (OrderItem.menu_item_id oi =? menu_item_id)
                       && existsb (fun o => (Order.id o =? OrderItem.order_id oi)
                                            && in_range o)
                                  (orders db))
                    (order_item db))).

(** The route a request is dispatched to. *)
Definition endpoint (req : Request) : Endpoint.t :=
  match req with
  | POST_auth_login _ _ => Endpoint.login
  | GET_auth_me => Endpoint.get_me
  | GET_menu_categories => Endpoint.get_categories
  | POST_menu_categories _ => Endpoint.add_category
  | PUT_menu_categories _ _ => Endpoint.update_category
  | DELETE_menu_categories _ => Endpoint.delete_category
  | GET_menu_items => Endpoint.get_menu_items
  | POST_menu_items _ => Endpoint.add_menu_item
  | PUT_menu_items _ _ => Endpoint.update_menu_item
  | DELETE_menu_items _ => Endpoint.delete_menu_item
  | POST_menu_items_block _ _ => Endpoint.block_menu_item
  | GET_orders _ _ _ => Endpoint.get_orders
  | GET_orders_id _ => Endpoint.get_order_details
  | GET_stats_orders_daily _ => Endpoint.orders_daily
  | GET_stats_menu_items_top _ _ => Endpoint.top_menu_items
  | GET_test_db => Endpoint.test_db_connection
  | GET_hello_debug => Endpoint.hello_debug
  | GET_debug_secret => Endpoint.debug_secret
  end.

(** The number of log rows that dailyOrderStats counts for a terminal on a
    day: those whose event_type is "ready", whose timestamp falls on the
    day, and that the terminal wrote. *)
Definition ready_count (day : Z) (terminal : string) (db : Database) : Z :=
  Z.of_nat
    (List.length
       (filter (fun e =>
                  (String.eqb (OrderEventLog.event_type e) "ready"
                   && (func_date (OrderEventLog.timestamp e) =? day))
                  && String.eqb (OrderEventLog.terminal_name e) terminal)
               (order_event_log db))).

(** The tables the application only reads are the same in two databases. *)
Definition reads_kept (db db' : Database) : Prop :=
  manager_user db' = manager_user db
  /\ orders db' = orders db
  /\ order_item db' = order_item db
  /\ order_event_log db' = order_event_log db.

(** The routes declared without [Depends(get_current_user)]. *)
Definition open_route (req : Request) : bool :=
  match req with
  | POST_auth_login _ _ | GET_test_db | GET_hello_debug | GET_debug_secret => true
  | _ => false
  end.

(** ** Sample data

    A small restaurant used by the examples below: one manager, one
    category, three dishes, two orders (the first with two line items and
    three events), and stand-ins for the section variables. *)

Definition sample_HS256 (key : string) (payload : Claims) : Z :=
  Z.of_nat (String.length key)
  + match sub payload with Some s => Z.of_nat (String.length s) | None => 0 end
  + match exp payload with Some e => e | None => 0 end.

Definition sample_timestamp_in (s : string) : option Z :=
  match py_int s with
  | Ok t => Some t
  | Raise _ => None
  end.

Definition anna : ManagerUser.t := ManagerUser.mk 1 "anna" "tajne" "manager".

Definition zupy : MenuCategory.t := MenuCategory.mk 1 "Zupy" "Soups" None.

Definition dish_A : MenuItem.t := MenuItem.mk 1 1 "Zurek" "Sour rye soup" 1800 None (Some true).
Definition dish_B : MenuItem.t := MenuItem.mk 2 1 "Rosol" "Chicken broth" 1500 None (Some true).
Definition dish_C : MenuItem.t := MenuItem.mk 3 1 "Barszcz" "Beetroot soup" 1600 None (Some false).

Definition order_1 : Order.t := Order.mk 1 101 "ready" "dine-in" 1000 (Some 1900) "pl".
Definition order_2 : Order.t := Order.mk 2 102 "new" "takeaway" 2000 None "en".

Definition sample_db : Database :=
  {| manager_user := [anna];
     menu_category := [zupy];
     menu_item := [dish_A; dish_B; dish_C];
     orders := [order_1; order_2];
     order_item :=
       [OrderItem.mk 1 1 1 2; OrderItem.mk 2 1 2 9;
        OrderItem.mk 3 2 1 3; OrderItem.mk 4 2 3 2];
     order_event_log :=
       [OrderEventLog.mk 1 1 "created" "kiosk-1" 1000 "new";
        OrderEventLog.mk 2 1 "accepted" "kitchen" 1200 "in_progress";
        OrderEventLog.mk 3 2 "created" "kiosk-2" 2000 "new";
        OrderEventLog.mk 4 1 "ready" "kitchen" 1900 "ready"];
     menu_category_id_seq := 1;
     menu_item_id_seq := 3 |}.

(** The same restaurant before any event was logged. *)
Definition unlogged_db : Database :=
  {| manager_user := manager_user sample_db;
     menu_category := menu_category sample_db;
     menu_item := menu_item sample_db;
     orders := orders sample_db;
     order_item := order_item sample_db;
     order_event_log := [];
     menu_category_id_seq := menu_category_id_seq sample_db;
     menu_item_id_seq := menu_item_id_seq sample_db |}.

(** A create body naming a category that does not exist. *)
Definition pierogi_body : MenuItemBody.t :=
  {| MenuItemBody.id := None;
     MenuItemBody.category_id := Some (Some 99);
     MenuItemBody.name_pl := Some (Some "Pierogi");
     MenuItemBody.name_en := Some (Some "Dumplings");
     MenuItemBody.price_cents := Some (Some 2400);
     MenuItemBody.image_url := None;
     MenuItemBody.is_available := None |}.

(** An update body that carries one field only. *)
Definition rename_body : MenuCategoryBody.t :=
  {| MenuCategoryBody.id := None;
     MenuCategoryBody.name_pl := Some (Some "Zupy dnia");
     MenuCategoryBody.name_en := None;
     MenuCategoryBody.image_url := None |}.

(** An update of a menu item that supplies an image and leaves out id and
    is_available. *)
Definition barszcz_upd : MenuItemSchema.t :=
  {| MenuItemSchema.id := None;
     MenuItemSchema.category_id := 1;
     MenuItemSchema.name_pl := "Barszcz czerwony";
     MenuItemSchema.name_en := "Red borscht";
     MenuItemSchema.price_cents := 1700;
     MenuItemSchema.image_url := Some (Some "barszcz.png");
     MenuItemSchema.is_available := None |}.

(** An update body that leaves out the optional fields. *)
Definition rename_upd : MenuCategorySchema.t :=
  {| MenuCategorySchema.id := None;
     MenuCategorySchema.name_pl := "Zupy dnia";
     MenuCategorySchema.name_en := "Soups of the day";
     MenuCategorySchema.image_url := None |}.

(** The token [anna] gets when she logs in at time 0 and no JWT_SECRET is
    set in the environment. *)
Definition sample_token : JWT :=
  let payload := {| sub := Some "1"; role := Some "manager"; exp := Some 43200 |} in
  Signed JWT_ALGORITHM payload (sample_HS256 "supersecretjwt" payload).

(** * Properties *)

(** ** Built-ins and queries *)

Lemma rstrip_digits (d : Decimal.uint) :
  rstrip (NilEmpty.string_of_uint d) = NilEmpty.string_of_uint d.
Proof.
  induction d; simpl; try reflexivity;
    rewrite IHd; now destruct (NilEmpty.string_of_uint d).
Qed.

Lemma digits_of_digits (d : Decimal.uint) :
  digits_of true (NilEmpty.string_of_uint d) = Some (NilEmpty.string_of_uint d).
Proof.
  induction d; simpl; try reflexivity; now rewrite IHd.
Qed.

Lemma digits_of_numeral (d : Decimal.uint) :
  d <> Decimal.Nil ->
  digits_of false (NilEmpty.string_of_uint d) = Some (NilEmpty.string_of_uint d).
Proof.
  destruct d; intros H; try congruence; simpl;
    now rewrite digits_of_digits.
Qed.

Lemma py_int_numeral (d : Decimal.uint) :
  d <> Decimal.Nil ->
  py_int (NilEmpty.string_of_uint d) = Ok (Z.of_uint d) /\
  py_int (String "-" (NilEmpty.string_of_uint d)) = Ok (- Z.of_uint d).
Proof.
  intros H.
  assert (U : NilZero.uint_of_string (NilEmpty.string_of_uint d) = Some d).
  { pose proof (NilZero.usu d H) as E. now destruct d. }
  unfold py_int, strip. split.
  - replace (lstrip (NilEmpty.string_of_uint d)) with (NilEmpty.string_of_uint d)
      by (now destruct d).
    rewrite rstrip_digits.
    replace (snd _) with (NilEmpty.string_of_uint d) by (now destruct d).
    replace (fst _) with false by (now destruct d).
    now rewrite (@digits_of_numeral d H), U.
  - change (lstrip (String "-" (NilEmpty.string_of_uint d)))
      with (String "-" (NilEmpty.string_of_uint d)).
    replace (rstrip (String "-" (NilEmpty.string_of_uint d)))
      with (String "-" (NilEmpty.string_of_uint d)).
    + change (Ascii.eqb "-" "-") with true. cbv iota. cbn [fst snd].
      now rewrite (@digits_of_numeral d H), U.
    + cbn [rstrip]. rewrite rstrip_digits. now destruct (NilEmpty.string_of_uint d).
Qed.

Lemma py_int_py_str (n : Z) : py_int (py_str n) = Ok n.
Proof.
  unfold py_str. destruct n as [|p|p]; cbn [Z.to_int NilZero.string_of_int].
  - reflexivity.
  - pose proof (Unsigned.to_uint_nonnil p) as H.
    replace (NilZero.string_of_uint (Pos.to_uint p))
      with (NilEmpty.string_of_uint (Pos.to_uint p))
      by (now destruct (Pos.to_uint p)).
    rewrite (proj1 (@py_int_numeral _ H)).
    unfold Z.of_uint. now rewrite Unsigned.of_to.
  - pose proof (Unsigned.to_uint_nonnil p) as H.
    replace (NilZero.string_of_uint (Pos.to_uint p))
      with (NilEmpty.string_of_uint (Pos.to_uint p))
      by (now destruct (Pos.to_uint p)).
    rewrite (proj2 (@py_int_numeral _ H)).
    unfold Z.of_uint. now rewrite Unsigned.of_to.
Qed.

Lemma truthy_spec (x : option string) :
  truthy x = true <-> exists s, x = Some s /\ s <> "".
Proof.
  destruct x as [s|]; simpl.
  - rewrite negb_true_iff. split.
    + intros H. exists s. split; [reflexivity|]. now apply String.eqb_neq.
    + intros [s' [[= <-] H]]. now apply String.eqb_neq.
  - split; [discriminate | intros [s [H _]]; discriminate].
Qed.

Section Queries.

Context {A : Type}.

Lemma first_filter_none (p : A -> bool) (rows : list A) :
  first (filter p rows) = None <-> forall r, In r rows -> p r = false.
Proof.
  induction rows as [|a rows IH]; simpl.
  - split; [intros _ r [] | reflexivity].
  - destruct (p a) eqn:Ha; simpl.
    + split; [discriminate|]. intros H. specialize (H a (or_introl eq_refl)). congruence.
    + rewrite IH. split.
      * intros H r [<-|Hr]; auto.
      * intros H r Hr. apply H. now right.
Qed.

Lemma first_filter_some (p : A -> bool) (rows : list A) (r : A) :
  first (filter p rows) = Some r -> In r rows /\ p r = true.
Proof.
  induction rows as [|a rows IH]; simpl; [discriminate|].
  destruct (p a) eqn:Ha; simpl.
  - intros [= <-]. auto.
  - intros H. destruct (IH H). auto.
Qed.

Lemma first_filter_exists (p : A -> bool) (rows : list A) (r : A) :
  In r rows -> p r = true -> exists r', first (filter p rows) = Some r'.
Proof.
  intros Hin Hp. destruct (first (filter p rows)) as [r'|] eqn:E; [eauto|].
  rewrite first_filter_none in E. rewrite (E r Hin) in Hp. discriminate.
Qed.

(** A key that occurs once selects its row. *)
Lemma first_filter_unique {K : Type} (key : A -> K) (eqb : K -> K -> bool)
  (eqb_eq : forall a b, eqb a b = true <-> a = b) (rows : list A) (r : A) :
  NoDup (map key rows) -> In r rows ->
  first (filter (fun x => eqb (key x) (key r)) rows) = Some r.
Proof.
  induction rows as [|a rows IH]; simpl; [intros _ []|].
  intros Hnd [<-|Hin].
  - now rewrite (proj2 (eqb_eq (key a) (key a)) eq_refl).
  - inversion Hnd as [|? ? Hnotin Hnd']; subst.
    destruct (eqb (key a) (key r)) eqn:E.
    + apply eqb_eq in E. exfalso. apply Hnotin. rewrite E. now apply in_map.
    + now apply IH.
Qed.

End Queries.

(** ** Authentication *)

Lemma jwt_decode_encode (payload : Claims) (key : string) (now : Z) :
  (forall e, exp payload = Some e -> now < e) ->
  jwt_decode (jwt_encode payload key) key now = Ok payload.
Proof.
  intros Hexp. unfold jwt_decode, jwt_encode.
  rewrite String.eqb_refl, Z.eqb_refl. simpl.
  destruct (exp payload) as [e|] eqn:E; [|reflexivity].
  specialize (Hexp e eq_refl).
  destruct (e <=? now) eqn:L; [|reflexivity].
  apply Z.leb_le in L. lia.
Qed.

(** Whatever goes wrong while resolving a token, the caller sees the same
    401. *)
Lemma get_current_user_raises (token : JWT) (db : Database) (now : Z) (e : Exception) :
  get_current_user token db now = Raise e -> e = HTTPException 401 "Invalid token".
Proof.
  unfold get_current_user, try_except.
  destruct (bind _ _); [discriminate|]. now intros [= <-].
Qed.

(** C1: for every manager in the store (usernames being unique), logging in
    with her username and stored credential returns a token, and resolving
    that token at any time before its expiry, twelve hours after the login,
    returns a user with the id of the manager who logged in. *)
Theorem login_then_resolve_same_id (db : Database) (user : ManagerUser.t) (now later : Z) :
  In user (manager_user db) ->
  NoDup (map ManagerUser.username (manager_user db)) ->
  later < now + expires_delta_default ->
  exists token resolved,
    login (ManagerUser.username user) (ManagerUser.password_hash user) db now
      = Ok {| Token.access_token := token |}
    /\ get_current_user token db later = Ok resolved
    /\ In resolved (manager_user db)
    /\ ManagerUser.id resolved = ManagerUser.id user.
Proof.
  intros Hin Hnd Hlater.
  unfold login.
  rewrite (first_filter_unique ManagerUser.username String.eqb String.eqb_eq _ _ Hnd Hin).
  rewrite String.eqb_refl. simpl.
  destruct (first_filter_exists (fun u => ManagerUser.id u =? ManagerUser.id user)
              (manager_user db) user Hin (Z.eqb_refl _)) as [resolved Hres].
  eexists. exists resolved. split; [reflexivity|].
  destruct (first_filter_some _ _ Hres) as [Hin' Hid]. apply Z.eqb_eq in Hid.
  split; [|now split].
  unfold get_current_user, create_access_token.
  rewrite jwt_decode_encode by (simpl; intros e [= <-]; exact Hlater).
  simpl. rewrite py_int_py_str. simpl. now rewrite Hres.
Qed.

(** C3: when no user has the supplied username, or the user found stores a
    credential different from the supplied one, login raises the same
    [HTTPException(400, "Invalid credentials")] in both cases, and the
    response is 400 with that detail and the database unchanged. *)
Theorem login_failure_is_uniform (db : Database) (username password : string) (now : Z) :
  (forall u, In u (manager_user db) -> ManagerUser.username u <> username)
  \/ (exists u,
        first (filter (fun u => String.eqb (ManagerUser.username u) username)
                      (manager_user db)) = Some u
        /\ ManagerUser.password_hash u <> password) ->
  login username password db now = Raise (HTTPException 400 "Invalid credentials")
  /\ forall authorization,
       app (POST_auth_login username password) authorization db now
       = (mkResponse 400 (JDetail "Invalid credentials"), db).
Proof.
  intros H.
  assert (L : login username password db now
              = Raise (HTTPException 400 "Invalid credentials")).
  { unfold login. destruct H as [Hno | [u [Hu Hpw]]].
    - replace (first _) with (@None ManagerUser.t); [reflexivity|].
      symmetry. apply first_filter_none. intros r Hr.
      apply String.eqb_neq. now apply Hno.
    - rewrite Hu. apply String.eqb_neq in Hpw. now rewrite Hpw. }
  split; [exact L|].
  intros authorization. unfold app, route. now rewrite L.
Qed.

(** C4: a token whose [exp] is not after the time of the call fails to
    resolve with 401, whatever its algorithm, signature and other claims;
    no user is returned. *)
Theorem expired_token_is_unauthorized (alg : string) (payload : Claims) (signature : Z)
  (e : Z) (db : Database) (now : Z) :
  exp payload = Some e ->
  e <= now ->
  get_current_user (Signed alg payload signature) db now
  = Raise (HTTPException 401 "Invalid token").
Proof.
  intros Hexp Hle. unfold get_current_user, jwt_decode.
  destruct (negb (String.eqb alg JWT_ALGORITHM)); [reflexivity|].
  destruct (negb (signature =? HS256 JWT_SECRET payload)); [reflexivity|].
  rewrite Hexp. apply Z.leb_le in Hle. now rewrite Hle.
Qed.

(** ** The API surface *)

Lemma resolve_raises (authorization : option JWT) (db : Database) (now : Z) (e : Exception) :
  (token <- oauth2_scheme authorization ;; get_current_user token db now) = Raise e ->
  exists detail, e = HTTPException 401 detail.
Proof.
  destruct authorization as [token|]; simpl.
  - intros H. apply get_current_user_raises in H. eauto.
  - intros [= <-]. eauto.
Qed.

(** C2 (amended): every route other than login and the three open
    diagnostic routes (/test-db, /hello-debug, /debug-secret) runs its
    handler only after the bearer token has resolved to a user; when the
    token is missing or does not resolve, the response is 401 and the
    database is left as it was. *)
Theorem protected_routes_require_user (req : Request) (authorization : option JWT)
  (db : Database) (now : Z) (e : Exception) :
  open_route req = false ->
  (token <- oauth2_scheme authorization ;; get_current_user token db now) = Raise e ->
  exists detail,
    app req authorization db now = (mkResponse 401 (JDetail detail), db).
Proof.
  intros Hopen Hres.
  destruct (resolve_raises _ _ _ Hres) as [detail ->].
  exists detail.
  destruct req; try discriminate Hopen;
    unfold app, route, Depends_get_current_user; now rewrite Hres.
Qed.

(** ** Order reporting: empty parameters *)

(** C10: a status, date_from or date_to given as the empty string is
    treated by listOrders exactly as an absent one (with an empty status and
    no dates every order is returned), and dailyOrderStats with an empty
    date does what it does with no date: it counts the "ready" events of the
    current day. *)
Theorem empty_string_parameters_are_ignored (db : Database) (now : Z) :
  (forall date_from date_to,
      get_orders (Some "") date_from date_to db = get_orders None date_from date_to db)
  /\ (forall status date_to,
         get_orders status (Some "") date_to db = get_orders status None date_to db)
  /\ (forall status date_from,
         get_orders status date_from (Some "") db = get_orders status date_from None db)
  /\ get_orders (Some "") None None db = Ok (orders db)
  /\ orders_daily (Some "") db now = orders_daily None db now
  /\ orders_daily None db now
     = Ok (group_by_sum String.eqb
             (map (fun e => (OrderEventLog.terminal_name e, 1))
                  (filter (fun e => func_date (OrderEventLog.timestamp e) =? func_date now)
                          (filter (fun e => String.eqb (OrderEventLog.event_type e) "ready")
                                  (order_event_log db))))).
Proof.
  repeat split; reflexivity.
Qed.

(** ** Menu management *)

Lemma new_item_dict (item : MenuItemSchema.t) :
  new_item (item_dict item)
  = MenuItem.mk (supplied_or_prior (MenuItemSchema.id item) None)
                (MenuItemSchema.category_id item)
                (MenuItemSchema.name_pl item)
                (MenuItemSchema.name_en item)
                (MenuItemSchema.price_cents item)
                (supplied_or_prior (MenuItemSchema.image_url item) None)
                (supplied_or_prior (MenuItemSchema.is_available item) None).
Proof.
  destruct item as [[i|] c pl en p [u|] [a|]]; reflexivity.
Qed.

Lemma setattr_category_dict (upd : MenuCategorySchema.t) (row : MenuCategory.t) :
  fold_left setattr_category (category_dict upd) (load_category row)
  = MenuCategory.mk (supplied_or_prior (MenuCategorySchema.id upd) (Some (MenuCategory.id row)))
                    (MenuCategorySchema.name_pl upd)
                    (MenuCategorySchema.name_en upd)
                    (supplied_or_prior (MenuCategorySchema.image_url upd)
                                       (MenuCategory.image_url row)).
Proof.
  destruct upd as [[i|] pl en [u|]]; reflexivity.
Qed.

Lemma setattr_item_dict (upd : MenuItemSchema.t) (row : MenuItem.t) :
  fold_left setattr_item (item_dict upd) (load_item row)
  = MenuItem.mk (supplied_or_prior (MenuItemSchema.id upd) (Some (MenuItem.id row)))
                (MenuItemSchema.category_id upd)
                (MenuItemSchema.name_pl upd)
                (MenuItemSchema.name_en upd)
                (MenuItemSchema.price_cents upd)
                (supplied_or_prior (MenuItemSchema.image_url upd) (MenuItem.image_url row))
                (supplied_or_prior (MenuItemSchema.is_available upd)
                                   (MenuItem.is_available row)).
Proof.
  destruct upd as [[i|] c pl en p [u|] [a|]]; reflexivity.
Qed.

(** The row [first] finds is the one [delete_row] removes, and no other. *)
Lemma delete_row_first {A : Type} (p : A -> bool) (rows : list A) (row : A) :
  first (filter p rows) = Some row ->
  exists before after,
    rows = before ++ row :: after
    /\ delete_row p rows = before ++ after.
Proof.
  induction rows as [|a rows IH]; simpl; [discriminate|].
  destruct (p a) eqn:Ha; simpl.
  - intros [= <-]. exists [], rows. auto.
  - intros H. destruct (IH H) as [before [after [-> ->]]].
    exists (a :: before), after. auto.
Qed.

(** The row [first] finds is the one [update_row] rewrites, and no other;
    its new version comes last. *)
Lemma update_row_first {A : Type} (p : A -> bool) (new : A) (rows : list A) (row : A) :
  first (filter p rows) = Some row ->
  exists before after,
    rows = before ++ row :: after
    /\ update_row p new rows = before ++ after ++ [new].
Proof.
  intros E. unfold update_row.
  destruct (first_filter_some _ _ E) as [Hin Hp].
  replace (existsb p rows) with true
    by (symmetry; apply existsb_exists; eauto).
  destruct (delete_row_first _ _ E) as [before [after [Hrows Hdel]]].
  exists before, after. split; [exact Hrows|].
  now rewrite Hdel, app_assoc.
Qed.

(** Where the new version of a row is met does not matter to a reader who
    does not depend on the order of the rows. *)
Lemma moved_row_perm {A : Type} (before after : list A) (row : A) :
  Permutation (before ++ after ++ [row]) (before ++ row :: after).
Proof.
  apply Permutation_app_head. rewrite <- Permutation_cons_append. reflexivity.
Qed.

Lemma references_app (foreign foreign' parent : list Z) :
  references (foreign ++ foreign') parent
  = references foreign parent && references foreign' parent.
Proof.
  unfold references. apply forallb_app.
Qed.

Lemma existsb_eqb_false (k : Z) (keys : list Z) :
  (forall k', In k' keys -> k' <> k) -> existsb (Z.eqb k) keys = false.
Proof.
  intros H. induction keys as [|a keys IH]; simpl; [reflexivity|].
  rewrite IH by (intros; apply H; now right).
  rewrite orb_false_r. apply Z.eqb_neq. intros ->. now apply (H a (or_introl eq_refl)).
Qed.

Lemma commit_unknown_category (o : MenuItem.obj) (key seq : Z) (db : Database) :
  foreign_keys = true ->
  (forall c, In c (menu_category db) -> MenuCategory.id c <> MenuItem.category_id o) ->
  commit (with_menu_item (menu_item db ++ [store_item o key]) seq db)
  = Raise IntegrityError.
Proof.
  intros Hfk Hnone. unfold commit, constraints_hold, with_menu_item. rewrite Hfk.
  cbn [menu_item menu_category order_item negb orb].
  rewrite (map_app (@MenuItem.category_id Z)), references_app.
  cbn [map references forallb store_item MenuItem.category_id].
  rewrite existsb_eqb_false.
  - now rewrite !andb_false_r.
  - intros k' Hk'. apply in_map_iff in Hk'. destruct Hk' as [c [<- Hc]]. now apply Hnone.
Qed.

(** C5 (amended): the create handler does not look the category up itself.
    On an engine that enforces the declared foreign key, a create whose
    category_id matches no MenuCategory fails at commit with an
    IntegrityError, which the framework answers with 500 (not with a
    validation error); no MenuItem row is inserted and no other table
    changes. *)
Theorem add_menu_item_unknown_category (item : MenuItemSchema.t) (db : Database) :
  foreign_keys = true ->
  (forall c, In c (menu_category db) ->
             MenuCategory.id c <> MenuItemSchema.category_id item) ->
  fst (add_menu_item item db) = Raise IntegrityError
  /\ respond (fmap JItem (fst (add_menu_item item db)))
     = mkResponse 500 Internal_Server_Error
  /\ menu_item (snd (add_menu_item item db)) = menu_item db
  /\ menu_category (snd (add_menu_item item db)) = menu_category db
  /\ manager_user (snd (add_menu_item item db)) = manager_user db
  /\ orders (snd (add_menu_item item db)) = orders db
  /\ order_item (snd (add_menu_item item db)) = order_item db
  /\ order_event_log (snd (add_menu_item item db)) = order_event_log db.
Proof.
  intros Hfk Hnone.
  unfold add_menu_item, insert_item.
  rewrite commit_unknown_category; auto.
  - simpl. repeat split; reflexivity.
  - now rewrite new_item_dict.
Qed.

Lemma commit_cases (pending : Database) :
  commit pending = Ok pending \/ commit pending = Raise IntegrityError.
Proof.
  unfold commit. destruct (constraints_hold pending); auto.
Qed.

Lemma unique_NoDup (keys : list Z) : unique keys = true <-> NoDup keys.
Proof.
  induction keys as [|k keys IH]; simpl.
  - split; [constructor | reflexivity].
  - rewrite andb_true_iff, negb_true_iff, IH. split.
    + intros [Hk Hnd]. constructor; [|exact Hnd].
      intros Hin. assert (X : existsb (Z.eqb k) keys = true)
        by (apply existsb_exists; exists k; split; [exact Hin | apply Z.eqb_refl]).
      congruence.
    + intros Hnd. inversion Hnd as [|? ? Hnotin Hnd']; subst. split; [|exact Hnd'].
      apply existsb_eqb_false. intros k' Hk' ->. contradiction.
Qed.

Lemma unique_perm (keys keys' : list Z) :
  Permutation keys keys' -> unique keys = unique keys'.
Proof.
  intros P. apply eq_true_iff_eq. rewrite !unique_NoDup.
  split; apply Permutation_NoDup; [exact P | now symmetry].
Qed.

Lemma references_spec (foreign parent : list Z) :
  references foreign parent = true <-> (forall k, In k foreign -> In k parent).
Proof.
  unfold references. rewrite forallb_forall. split; intros H k Hk.
  - specialize (H k Hk). apply existsb_exists in H. destruct H as [k' [Hk' E]].
    apply Z.eqb_eq in E. now subst k'.
  - apply existsb_exists. exists k. split; [now apply H | apply Z.eqb_refl].
Qed.

Lemma references_perm (foreign foreign' parent parent' : list Z) :
  Permutation foreign foreign' -> Permutation parent parent' ->
  references foreign parent = references foreign' parent'.
Proof.
  intros Pf Pp. apply eq_true_iff_eq. rewrite !references_spec.
  split; intros H k Hk.
  - apply (Permutation_in _ Pp), H. apply (Permutation_in _ (Permutation_sym Pf) Hk).
  - apply (Permutation_in _ (Permutation_sym Pp)), H. apply (Permutation_in _ Pf Hk).
Qed.

(** An update that keeps the key of a category keeps the constraints. *)
Lemma update_category_keeps_constraints (db : Database)
  (before after : list MenuCategory.t) (row row' : MenuCategory.t) :
  constraints_hold db = true ->
  menu_category db = before ++ row :: after ->
  MenuCategory.id row' = MenuCategory.id row ->
  constraints_hold
    (with_menu_category (before ++ after ++ [row']) (menu_category_id_seq db) db) = true.
Proof.
  intros Hc Hrows Hid. rewrite <- Hc. unfold constraints_hold.
  cbn [with_menu_category menu_category menu_item order_item].
  assert (P : Permutation (map (@MenuCategory.id Z) (before ++ after ++ [row']))
                          (map (@MenuCategory.id Z) (menu_category db))).
  { rewrite Hrows, (Permutation_map _ (moved_row_perm before after row')), !map_app.
    cbn [map]. now rewrite Hid. }
  rewrite (unique_perm P).
  now rewrite (references_perm (Permutation_refl _) P).
Qed.

(** An update that keeps the key of a menu item and names a category that
    exists keeps the constraints. *)
Lemma update_item_keeps_constraints (db : Database)
  (before after : list MenuItem.t) (row row' : MenuItem.t) :
  constraints_hold db = true ->
  menu_item db = before ++ row :: after ->
  MenuItem.id row' = MenuItem.id row ->
  (foreign_keys = true ->
   In (MenuItem.category_id row') (map (@MenuCategory.id Z) (menu_category db))) ->
  constraints_hold
    (with_menu_item (before ++ after ++ [row']) (menu_item_id_seq db) db) = true.
Proof.
  intros Hc Hrows Hid Hcat. unfold constraints_hold in *.
  cbn [with_menu_item menu_category menu_item order_item].
  assert (P : Permutation (map (@MenuItem.id Z) (before ++ after ++ [row']))
                          (map (@MenuItem.id Z) (menu_item db))).
  { rewrite Hrows, (Permutation_map _ (moved_row_perm before after row')), !map_app.
    cbn [map]. now rewrite Hid. }
  rewrite (unique_perm P), (references_perm (Permutation_refl _) P).
  rewrite !andb_true_iff in Hc. destruct Hc as [[H1 H2] H3].
  rewrite H1, H2. cbn [andb].
  destruct (Bool.bool_dec foreign_keys true) as [F|F].
  - rewrite F in H3 |- *. cbn [negb orb] in H3 |- *.
    apply andb_true_iff in H3. destruct H3 as [H3 H4]. rewrite H4, andb_true_r.
    apply references_spec. rewrite references_spec in H3.
    intros k Hk. rewrite !map_app in Hk. cbn [map] in Hk.
    rewrite Hrows, map_app in H3. cbn [map] in H3.
    apply in_app_or in Hk. destruct Hk as [Hk|Hk].
    + apply H3, in_or_app. now left.
    + apply in_app_or in Hk. destruct Hk as [Hk|[<-|[]]].
      * apply H3, in_or_app. right. now right.
      * now apply Hcat.
  - apply not_true_is_false in F. now rewrite F.
Qed.

(** C6 (amended): an update whose body validates against the schema (which
    requires name_pl and name_en, and for items also category_id and
    price_cents) fails with 404 and changes nothing when no row has the id.
    When a row has it, the update either fails at commit with an
    IntegrityError and changes nothing, or rewrites that row and leaves
    every other row and table as it was (up to the order in which the table
    is scanned): in the new row each supplied field has the supplied value
    and each omitted field (id, image_url, is_available) its prior value.
    On a database whose constraints hold the update does succeed when the
    body omits the id or repeats it and, for an item on an engine that
    enforces foreign keys, names a category that exists.  A body that omits
    a required field, or gives it as null, is answered with 422 and changes
    nothing. *)
Theorem partial_update_changes_supplied_fields_only :
  (forall (id : Z) (upd : MenuCategorySchema.t) (db : Database),
      match first (filter (fun c => MenuCategory.id c =? id) (menu_category db)) with
      | None => update_category id upd db = (Raise Not_Found, db)
      | Some row =>
          let updated key :=
            MenuCategory.mk key
              (MenuCategorySchema.name_pl upd)
              (MenuCategorySchema.name_en upd)
              (supplied_or_prior (MenuCategorySchema.image_url upd)
                                 (MenuCategory.image_url row)) in
          (update_category id upd db = (Raise IntegrityError, db)
           \/ exists key before after rows,
                supplied_or_prior (MenuCategorySchema.id upd) (Some (MenuCategory.id row))
                = Some key
                /\ menu_category db = before ++ row :: after
                /\ Permutation rows (before ++ updated key :: after)
                /\ update_category id upd db
                   = (Ok (updated key),
                      with_menu_category rows (menu_category_id_seq db) db))
          /\ (constraints_hold db = true ->
              supplied_or_prior (MenuCategorySchema.id upd) (Some (MenuCategory.id row))
              = Some (MenuCategory.id row) ->
              fst (update_category id upd db) = Ok (updated (MenuCategory.id row)))
      end)
  /\ (forall (id : Z) (upd : MenuItemSchema.t) (db : Database),
         match first (filter (fun i => MenuItem.id i =? id) (menu_item db)) with
         | None => update_menu_item id upd db = (Raise Not_Found, db)
         | Some row =>
             let updated key :=
               MenuItem.mk key
                 (MenuItemSchema.category_id upd)
                 (MenuItemSchema.name_pl upd)
                 (MenuItemSchema.name_en upd)
                 (MenuItemSchema.price_cents upd)
                 (supplied_or_prior (MenuItemSchema.image_url upd)
                                    (MenuItem.image_url row))
                 (supplied_or_prior (MenuItemSchema.is_available upd)
                                    (MenuItem.is_available row)) in
             (update_menu_item id upd db = (Raise IntegrityError, db)
              \/ exists key before after rows,
                   supplied_or_prior (MenuItemSchema.id upd) (Some (MenuItem.id row))
                   = Some key
                   /\ menu_item db = before ++ row :: after
                   /\ Permutation rows (before ++ updated key :: after)
                   /\ update_menu_item id upd db
                      = (Ok (updated key),
                         with_menu_item rows (menu_item_id_seq db) db))
             /\ (constraints_hold db = true ->
                 supplied_or_prior (MenuItemSchema.id upd) (Some (MenuItem.id row))
                 = Some (MenuItem.id row) ->
                 (foreign_keys = true ->
                  exists c, In c (menu_category db)
                            /\ MenuCategory.id c = MenuItemSchema.category_id upd) ->
                 fst (update_menu_item id upd db) = Ok (updated (MenuItem.id row)))
         end)
  /\ (forall (id : Z) (body : MenuCategoryBody.t) (authorization : option JWT)
             (db : Database) (now : Z) (current_user : ManagerUser.t),
         (token <- oauth2_scheme authorization ;; get_current_user token db now)
         = Ok current_user ->
         required (MenuCategoryBody.name_pl body) = None
         \/ required (MenuCategoryBody.name_en body) = None ->
         app (PUT_menu_categories id body) authorization db now
         = (mkResponse 422 JValidationErrors, db))
  /\ (forall (id : Z) (body : MenuItemBody.t) (authorization : option JWT)
             (db : Database) (now : Z) (current_user : ManagerUser.t),
         (token <- oauth2_scheme authorization ;; get_current_user token db now)
         = Ok current_user ->
         required (MenuItemBody.category_id body) = None
         \/ required (MenuItemBody.name_pl body) = None
         \/ required (MenuItemBody.name_en body) = None
         \/ required (MenuItemBody.price_cents body) = None ->
         app (PUT_menu_items id body) authorization db now
         = (mkResponse 422 JValidationErrors, db)).
Proof.
  split; [|split; [|split]].
  - intros id upd db. unfold update_category.
    destruct (first _) as [row|] eqn:E; [|reflexivity].
    rewrite setattr_category_dict. unfold flush_category.
    cbn [MenuCategory.id].
    destruct (first_filter_some _ _ E) as [_ Hid]. apply Z.eqb_eq in Hid. subst id.
    unfold store_category.
    cbn [MenuCategory.name_pl MenuCategory.name_en MenuCategory.image_url].
    cbv zeta.
    destruct (supplied_or_prior _ _) as [key|] eqn:K.
    + set (row' := MenuCategory.mk key _ _ _).
      destruct (update_row_first _ row' _ E) as [before [after [Hrows Hupd]]].
      rewrite Hupd. unfold commit. split.
      * destruct (constraints_hold _); [|now left].
        right. exists key, before, after, (before ++ after ++ [row']).
        repeat split; [exact Hrows | apply moved_row_perm].
      * intros Hc [= Hkey].
        match goal with
        | |- context [constraints_hold ?pending] =>
            replace (constraints_hold pending) with true
              by (symmetry;
                  exact (@update_category_keeps_constraints db before after row row'
                           Hc Hrows Hkey))
        end.
        unfold row'. now rewrite Hkey.
    + split; [now left | discriminate].
  - intros id upd db. unfold update_menu_item.
    destruct (first _) as [row|] eqn:E; [|reflexivity].
    rewrite setattr_item_dict. unfold flush_item.
    cbn [MenuItem.id].
    destruct (first_filter_some _ _ E) as [_ Hid]. apply Z.eqb_eq in Hid. subst id.
    unfold store_item.
    cbn [MenuItem.category_id MenuItem.name_pl MenuItem.name_en MenuItem.price_cents
         MenuItem.image_url MenuItem.is_available].
    cbv zeta.
    destruct (supplied_or_prior _ _) as [key|] eqn:K.
    + set (row' := MenuItem.mk key _ _ _ _ _ _).
      destruct (update_row_first _ row' _ E) as [before [after [Hrows Hupd]]].
      rewrite Hupd. unfold commit. split.
      * destruct (constraints_hold _); [|now left].
        right. exists key, before, after, (before ++ after ++ [row']).
        repeat split; [exact Hrows | apply moved_row_perm].
      * intros Hc [= Hkey] Hcat.
        assert (Hin : foreign_keys = true ->
                      In (MenuItem.category_id row')
                         (map (@MenuCategory.id Z) (menu_category db))).
        { intros F. destruct (Hcat F) as [c [Hin Hc']].
          unfold row'. cbn [MenuItem.category_id]. rewrite <- Hc'. now apply in_map. }
        match goal with
        | |- context [constraints_hold ?pending] =>
            replace (constraints_hold pending) with true
              by (symmetry;
                  exact (@update_item_keeps_constraints db before after row row'
                           Hc Hrows Hkey Hin))
        end.
        unfold row'. now rewrite Hkey.
    + split; [now left | discriminate].
  - intros id body authorization db now current_user Hres Hreq.
    unfold app, route, Depends_get_current_user. rewrite Hres.
    unfold validate_MenuCategorySchema.
    destruct Hreq as [H|H]; rewrite H; [reflexivity|].
    now destruct (required (MenuCategoryBody.name_pl body)).
  - intros id body authorization db now current_user Hres Hreq.
    unfold app, route, Depends_get_current_user. rewrite Hres.
    unfold validate_MenuItemSchema.
    destruct Hreq as [H|[H|[H|H]]]; rewrite H;
      repeat match goal with
             | |- context [match required ?f with _ => _ end] => destruct (required f)
             end; reflexivity.
Qed.

(** ** Order reporting *)

Lemma filter_twice {A : Type} (p q : A -> bool) (rows : list A) :
  filter q (filter p rows) = filter (fun r => p r && q r) rows.
Proof.
  induction rows as [|a rows IH]; simpl; [reflexivity|].
  destruct (p a); simpl; [destruct (q a)|]; now rewrite IH.
Qed.

Lemma filter_map_pair {A B : Type} (p : A -> bool) (a : A) (rows : list B) :
  filter (fun row => p (fst row)) (map (pair a) rows)
  = if p a then map (pair a) rows else [].
Proof.
  induction rows as [|b rows IH]; simpl.
  - now destruct (p a).
  - rewrite IH. now destruct (p a).
Qed.

(** The one row with a given key, when keys are unique. *)
Lemma filter_unique_key {A : Type} (key : A -> Z) (rows : list A) (r : A) :
  NoDup (map key rows) -> In r rows ->
  filter (fun x => key r =? key x) rows = [r].
Proof.
  induction rows as [|a rows IH]; simpl; [intros _ []|].
  intros Hnd Hin. inversion Hnd as [|? ? Hnotin Hnd']; subst.
  destruct Hin as [<-|Hin].
  - rewrite Z.eqb_refl. f_equal.
    clear IH Hnd Hnd'. induction rows as [|b rows IH]; simpl; [reflexivity|].
    destruct (key a =? key b) eqn:E.
    + apply Z.eqb_eq in E. exfalso. apply Hnotin. left. now symmetry.
    + apply IH. intros H. apply Hnotin. now right.
  - destruct (key r =? key a) eqn:E.
    + apply Z.eqb_eq in E. exfalso. apply Hnotin. rewrite <- E. now apply in_map.
    + now apply IH.
Qed.

(** One optional date bound of a query: skipped when the parameter is absent
    or empty, applied when the engine accepts the literal. *)
Lemma date_bound_filter {A B : Type} (bound : option string) (proj : A -> B)
  (cmp : Z -> B -> bool) (q : list A) :
  (forall s, bound = Some s -> s <> "" -> timestamp_in s <> None) ->
  exists keep,
    (if truthy bound
     then t <- timestamp_literal (value bound) ;; Ok (filter (fun r => cmp t (proj r)) q)
     else Ok q) = Ok (filter (fun r => keep (proj r)) q)
    /\ forall b, keep b = true <->
                 (forall s t, bound = Some s -> s <> "" -> timestamp_in s = Some t ->
                              cmp t b = true).
Proof.
  intros Hparse.
  destruct (truthy bound) eqn:T.
  - apply truthy_spec in T. destruct T as [s [-> Hs]].
    unfold timestamp_literal, value.
    destruct (timestamp_in s) as [t|] eqn:P; [|now destruct (Hparse s eq_refl Hs)].
    exists (cmp t). split; [reflexivity|].
    intros r. split.
    + intros H s' t' [= <-] _ Ht'. rewrite P in Ht'. now injection Ht' as <-.
    + intros H. now apply (H s t).
  - exists (fun _ => true). split.
    + f_equal. symmetry. now apply forallb_filter_id, forallb_forall.
    + intros r. split; [|reflexivity].
      intros _ s t -> Hs _. exfalso.
      assert (truthy (Some s) = true) by (apply truthy_spec; eauto). congruence.
Qed.

(** C8 (amended): when every supplied, non-empty date is a literal the
    engine accepts, listOrders returns the stored orders filtered by one
    test, and an order passes the test exactly when its status equals the
    supplied non-empty status (character for character) and its created_at
    lies between the supplied non-empty bounds, both included.  A parameter
    that is absent or the empty string imposes nothing. *)
Theorem get_orders_returns_matching_orders (status date_from date_to : option string)
  (db : Database) :
  (forall s, date_from = Some s -> s <> "" -> timestamp_in s <> None) ->
  (forall s, date_to = Some s -> s <> "" -> timestamp_in s <> None) ->
  exists keep,
    get_orders status date_from date_to db = Ok (filter keep (orders db))
    /\ forall o,
         keep o = true <->
         (forall s, status = Some s -> s <> "" -> Order.status o = s)
         /\ (forall s lo, date_from = Some s -> s <> "" -> timestamp_in s = Some lo ->
                          lo <= Order.created_at o)
         /\ (forall s hi, date_to = Some s -> s <> "" -> timestamp_in s = Some hi ->
                          Order.created_at o <= hi).
Proof.
  intros Hfrom Hto. unfold get_orders.
  set (by_status := fun o : Order.t =>
                      if truthy status then String.eqb (Order.status o) (value status)
                      else true).
  assert (Hs : (if truthy status
                then filter (fun o => String.eqb (Order.status o) (value status)) (orders db)
                else orders db) = filter by_status (orders db)).
  { unfold by_status. destruct (truthy status); [reflexivity|].
    symmetry. now apply forallb_filter_id, forallb_forall. }
  rewrite Hs.
  destruct (date_bound_filter (fun o : Order.t => o) (fun lo o => lo <=? Order.created_at o)
              (filter by_status (orders db)) Hfrom) as [from [-> Hfrom']].
  cbn [bind].
  destruct (date_bound_filter (fun o : Order.t => o) (fun hi o => Order.created_at o <=? hi)
              (filter (fun r => from r) (filter by_status (orders db))) Hto)
    as [to [-> Hto']].
  cbn [bind].
  exists (fun o => by_status o && (from o && to o)).
  split; [rewrite !filter_twice; reflexivity|].
  intros o. rewrite !andb_true_iff, Hfrom', Hto'.
  assert (Hst : by_status o = true
                <-> (forall s, status = Some s -> s <> "" -> Order.status o = s)).
  { unfold by_status. destruct (truthy status) eqn:T.
    - apply truthy_spec in T. destruct T as [s [-> Hne]]. simpl. split.
      + intros H s' [= <-] _. now apply String.eqb_eq.
      + intros H. apply String.eqb_eq. now apply H.
    - split; [|reflexivity]. intros _ s -> Hne. exfalso.
      assert (truthy (Some s) = true) by (apply truthy_spec; eauto). congruence. }
  rewrite Hst. split.
  - intros [H1 [H2 H3]]. repeat split; auto.
    + intros s lo E Hne P. apply Z.leb_le. eauto.
    + intros s hi E Hne P. apply Z.leb_le. eauto.
  - intros [H1 [H2 H3]]. repeat split; auto.
    + intros s lo E Hne P. apply Z.leb_le. eauto.
    + intros s hi E Hne P. apply Z.leb_le. eauto.
Qed.

Lemma order_items_resolved (order_id : Z) (mis : list MenuItem.t) (ois : list OrderItem.t) :
  NoDup (map (@MenuItem.id Z) mis) ->
  (forall oi, In oi ois -> OrderItem.order_id oi = order_id ->
              exists mi, In mi mis /\ MenuItem.id mi = OrderItem.menu_item_id oi) ->
  Forall2
    (fun oi row => fst row = oi
                   /\ In (snd row) mis
                   /\ MenuItem.id (snd row) = OrderItem.menu_item_id oi)
    (filter (fun oi => OrderItem.order_id oi =? order_id) ois)
    (filter (fun row => OrderItem.order_id (fst row) =? order_id)
            (join ois mis (fun oi mi => OrderItem.menu_item_id oi =? MenuItem.id mi))).
Proof.
  intros Hnd. induction ois as [|oi ois IH]; intros Href; [constructor|].
  unfold join in *. cbn [flat_map]. rewrite filter_app.
  rewrite (filter_map_pair (fun oi => OrderItem.order_id oi =? order_id)).
  cbn [filter].
  destruct (OrderItem.order_id oi =? order_id) eqn:E.
  - apply Z.eqb_eq in E.
    destruct (Href oi (or_introl eq_refl) E) as [mi [Hmi Hid]].
    cbv beta. rewrite <- Hid. rewrite (filter_unique_key (A := MenuItem.t) (@MenuItem.id Z) mis mi Hnd Hmi).
    cbn [map app]. constructor.
    + cbn [fst snd]. auto.
    + apply IH. intros oi' Hin. apply Href. now right.
  - cbn [app]. apply IH. intros oi' Hin. apply Href. now right.
Qed.

Lemma Forall2_map_right {A B C : Type} (R : A -> B -> Prop) (R' : A -> C -> Prop)
  (f : B -> C) (l : list A) (l' : list B) :
  (forall a b, R a b -> R' a (f b)) ->
  Forall2 R l l' -> Forall2 R' l (map f l').
Proof.
  intros Hf H. induction H; simpl; constructor; auto.
Qed.

(** The comprehension over the events of an order fails on its first
    event. *)
Lemma from_orm_comprehension (events : list OrderEventLog.t) :
  comprehension OrderEventSchema.from_orm events
  = match events with
    | [] => Ok []
    | _ :: _ => Raise ConfigError
    end.
Proof.
  destruct events; reflexivity.
Qed.

Lemma filter_none {A : Type} (p : A -> bool) (rows : list A) :
  (forall r, In r rows -> p r = false) -> filter p rows = [].
Proof.
  induction rows as [|a rows IH]; intros H; cbn [filter]; [reflexivity|].
  rewrite (H a (or_introl eq_refl)). apply IH. intros r Hr. apply H. now right.
Qed.

Lemma filter_nonempty {A : Type} (p : A -> bool) (rows : list A) (r : A) :
  In r rows -> p r = true -> exists r' rest, filter p rows = r' :: rest.
Proof.
  intros Hin Hp.
  destruct (filter p rows) as [|r' rest] eqn:E; [|eauto].
  assert (H : In r (filter p rows)) by (apply filter_In; auto).
  rewrite E in H. destruct H.
Qed.

(** C7: getOrderDetails raises 404 when no order has the id.  When an order
    has the id and the event log holds a row for it, the handler does not
    return the order: OrderEventSchema, unlike the schemas that set
    orm_mode, declares no Config, so from_orm raises on the first event,
    whatever the line items are, and the request is answered with 500.  An
    order is returned only when the log holds no row for it; then, when its
    line items reference menu items that exist (menu item ids being unique),
    the answer has that order, one item per line item of the order, in
    stored order, each with the line item's id, menu item and quantity and
    the name of the menu item it references, and no events. *)
Theorem get_order_details_fails_on_logged_events (order_id : Z) (db : Database) :
  ((forall o, In o (orders db) -> Order.id o <> order_id) ->
   get_order_details order_id db = Raise Not_Found)
  /\ ((exists o, In o (orders db) /\ Order.id o = order_id) ->
      (exists e, In e (order_event_log db) /\ OrderEventLog.order_id e = order_id) ->
      get_order_details order_id db = Raise ConfigError
      /\ respond (fmap JOrderDetails (get_order_details order_id db))
         = mkResponse 500 Internal_Server_Error)
  /\ ((exists o, In o (orders db) /\ Order.id o = order_id) ->
      (forall e, In e (order_event_log db) -> OrderEventLog.order_id e <> order_id) ->
      NoDup (map (@MenuItem.id Z) (menu_item db)) ->
      (forall oi, In oi (order_item db) -> OrderItem.order_id oi = order_id ->
                  exists mi, In mi (menu_item db)
                             /\ MenuItem.id mi = OrderItem.menu_item_id oi) ->
      exists details,
        get_order_details order_id db = Ok details
        /\ In (OrderDetailsSchema.order details) (orders db)
        /\ Order.id (OrderDetailsSchema.order details) = order_id
        /\ Forall2
             (fun oi item =>
                OrderItemSchema.id item = OrderItem.id oi
                /\ OrderItemSchema.menu_item_id item = OrderItem.menu_item_id oi
                /\ OrderItemSchema.quantity item = OrderItem.quantity oi
                /\ exists mi, In mi (menu_item db)
                              /\ MenuItem.id mi = OrderItem.menu_item_id oi
                              /\ OrderItemSchema.name item = MenuItem.name_pl mi)
             (filter (fun oi => OrderItem.order_id oi =? order_id) (order_item db))
             (OrderDetailsSchema.items details)
        /\ OrderDetailsSchema.events details = []).
Proof.
  split; [|split].
  - intros Hnone. unfold get_order_details.
    replace (first _) with (@None Order.t); [reflexivity|].
    symmetry. apply first_filter_none. intros o Ho.
    apply Z.eqb_neq. now apply Hnone.
  - intros [o [Ho Hid]] [e [He Heid]].
    assert (E : get_order_details order_id db = Raise ConfigError).
    { unfold get_order_details.
      destruct (first_filter_exists (fun o => Order.id o =? order_id) (orders db) o Ho)
        as [order Horder]; [now apply Z.eqb_eq|].
      rewrite Horder, from_orm_comprehension.
      destruct (@filter_nonempty _ (fun e => OrderEventLog.order_id e =? order_id)
                  (order_event_log db) e He) as [e' [rest ->]];
        [now apply Z.eqb_eq | reflexivity]. }
    rewrite E. split; reflexivity.
  - intros [o [Ho Hid]] Hlog Hnd Href. unfold get_order_details.
    destruct (first_filter_exists (fun o => Order.id o =? order_id) (orders db) o Ho)
      as [order Horder]; [now apply Z.eqb_eq|].
    rewrite Horder, from_orm_comprehension.
    replace (filter (fun e => OrderEventLog.order_id e =? order_id) (order_event_log db))
      with (@nil OrderEventLog.t).
    2:{ symmetry. apply filter_none. intros e He. apply Z.eqb_neq. now apply Hlog. }
    cbn [bind].
    destruct (first_filter_some _ _ Horder) as [Hin Hkey]. apply Z.eqb_eq in Hkey.
    eexists. split; [reflexivity|].
    cbn [OrderDetailsSchema.order OrderDetailsSchema.items OrderDetailsSchema.events].
    assert (F := @order_items_resolved order_id (menu_item db) (order_item db) Hnd Href).
    repeat split; auto.
    eapply Forall2_map_right; [|exact F].
    intros oi [oi' mi] [E [Hmi Hmid]]. cbn in E. subst oi'. cbn.
    repeat split; eauto.
Qed.

(** ** Statistics: GROUP BY, ORDER BY, LIMIT *)

Section Grouping.

Context {K : Type}.
Variable eqb : K -> K -> bool.
Hypothesis eqb_eq : forall a b, eqb a b = true <-> a = b.

Lemma eqb_same (k : K) : eqb k k = true.
Proof. now apply eqb_eq. Qed.



Lemma lookup_in (k : K) (s : Z) (groups : list (K * Z)) :
  NoDup (map fst groups) ->
  (In (k, s) groups <-> lookup eqb k groups = Some s).
Proof.
  induction groups as [|[k' s'] groups IH]; simpl; intros Hnd.
  - split; [intros [] | discriminate].
  - inversion Hnd as [|? ? Hnotin Hnd']; subst.
    destruct (eqb k' k) eqn:E.
    + apply eqb_eq in E. subst k'. split.
      * intros [[= ->]|H]; [reflexivity|].
        exfalso. apply Hnotin. now apply (in_map fst) in H.
      * intros [= ->]. now left.
    + rewrite <- (IH Hnd'). split.
      * intros [[= -> ->]|H]; [now rewrite eqb_same in E | exact H].
      * intros H. now right.
Qed.

Lemma add_to_group_keys (k : K) (v : Z) (groups : list (K * Z)) :
  map fst (add_to_group eqb k v groups)
  = if existsb (fun k' => eqb k' k) (map fst groups)
    then map fst groups
    else map fst groups ++ [k].
Proof.
  induction groups as [|[k' s] groups IH]; simpl; [reflexivity|].
  destruct (eqb k' k); simpl; [reflexivity|].
  rewrite IH. now destruct (existsb _ _).
Qed.

Lemma add_to_group_NoDup (k : K) (v : Z) (groups : list (K * Z)) :
  NoDup (map fst groups) -> NoDup (map fst (add_to_group eqb k v groups)).
Proof.
  intros Hnd. rewrite add_to_group_keys.
  destruct (existsb _ _) eqn:E; [exact Hnd|].
  apply NoDup_app; [exact Hnd | repeat constructor; intros [] |].
  intros k' Hin [Hk|[]]. subst k'.
  assert (X : existsb (fun k'' => eqb k'' k) (map fst groups) = true)
    by (apply existsb_exists; exists k; split; [exact Hin | apply eqb_same]).
  congruence.
Qed.

Lemma add_to_group_lookup (k k' : K) (v : Z) (groups : list (K * Z)) :
  lookup eqb k' (add_to_group eqb k v groups)
  = if eqb k k'
    then Some (match lookup eqb k groups with Some s => s + v | None => v end)
    else lookup eqb k' groups.
Proof.
  induction groups as [|[k0 s] groups IH]; simpl.
  - reflexivity.
  - destruct (eqb k0 k) eqn:E0; simpl.
    + apply eqb_eq in E0. subst k0. now destruct (eqb k k').
    + rewrite IH. destruct (eqb k k') eqn:E; [|reflexivity].
      apply eqb_eq in E. subst k'. now rewrite E0.
Qed.

Lemma group_by_sum_acc (k : K) (rows acc : list (K * Z)) :
  lookup eqb k
    (fold_left (fun groups kv => add_to_group eqb (fst kv) (snd kv) groups) rows acc)
  = match lookup eqb k acc with
    | Some s => Some (s + total eqb k rows)
    | None => if existsb (fun kv => eqb (fst kv) k) rows
              then Some (total eqb k rows)
              else None
    end
  /\ (NoDup (map fst acc) ->
      NoDup (map fst
               (fold_left (fun groups kv => add_to_group eqb (fst kv) (snd kv) groups)
                          rows acc))).
Proof.
  revert acc. induction rows as [|[k0 v] rows IH]; intros acc; cbn [fold_left fst snd].
  - split; [|auto]. unfold total. simpl.
    destruct (lookup eqb k acc); [f_equal; unfold sumZ; simpl; lia | reflexivity].
  - destruct (IH (add_to_group eqb k0 v acc)) as [IH1 IH2].
    split; [|intros Hnd; now apply IH2, add_to_group_NoDup].
    rewrite IH1, add_to_group_lookup. unfold total. cbn [filter existsb fst].
    destruct (eqb k0 k) eqn:E.
    + apply eqb_eq in E. subst k0. cbn [map snd sumZ fold_right orb].
      destruct (lookup eqb k acc); f_equal; fold (sumZ (map snd
        (filter (fun kv : K * Z => eqb (fst kv) k) rows))); lia.
    + cbn [orb]. reflexivity.
Qed.

(** GROUP BY: one group per key that occurs, holding the sum for the key. *)
Lemma group_by_sum_spec (rows : list (K * Z)) :
  NoDup (map fst (group_by_sum eqb rows))
  /\ forall k s,
       In (k, s) (group_by_sum eqb rows)
       <-> In k (map fst rows) /\ s = total eqb k rows.
Proof.
  unfold group_by_sum.
  assert (Hnd : NoDup (map fst
                  (fold_left (fun groups kv => add_to_group eqb (fst kv) (snd kv) groups)
                             rows [])))
    by (destruct rows as [|[k0 v0] rows'];
        [constructor | apply (group_by_sum_acc k0 ((k0, v0) :: rows') []); constructor]).
  split; [exact Hnd|].
  intros k s. rewrite (@lookup_in k s _ Hnd).
  destruct (group_by_sum_acc k rows []) as [-> _]. cbn [lookup].
  destruct (existsb (fun kv => eqb (fst kv) k) rows) eqn:E.
  - apply existsb_exists in E. destruct E as [[k' v] [Hin Hk]].
    cbn in Hk. apply eqb_eq in Hk. subst k'.
    split.
    + intros [= <-]. split; [|reflexivity]. now apply (in_map fst) in Hin.
    + intros [_ ->]. reflexivity.
  - split; [discriminate|]. intros [Hin _]. exfalso.
    apply in_map_iff in Hin. destruct Hin as [[k' v] [Hk Hin]]. cbn in Hk. subst k'.
    assert (X : existsb (fun kv => eqb (fst kv) k) rows = true)
      by (apply existsb_exists; exists (k, v); split; [exact Hin | apply eqb_same]).
    congruence.
Qed.

End Grouping.

Section Ordering.

Context {K : Type}.

Lemma insert_desc_perm (x : K * Z) (rows : list (K * Z)) :
  Permutation (insert_desc x rows) (x :: rows).
Proof.
  induction rows as [|y rows IH]; simpl; [reflexivity|].
  destruct (snd x <? snd y); [|reflexivity].
  rewrite IH. apply perm_swap.
Qed.

Lemma order_by_desc_perm (rows : list (K * Z)) :
  Permutation (order_by_desc rows) rows.
Proof.
  induction rows as [|x rows IH]; simpl; [reflexivity|].
  rewrite insert_desc_perm. now constructor.
Qed.

Lemma insert_desc_descending (x : K * Z) (rows : list (K * Z)) :
  descending rows -> descending (insert_desc x rows).
Proof.
  unfold descending.
  induction rows as [|y rows IH]; simpl; intros H.
  - repeat constructor.
  - inversion H as [|? ? Hrest Hy]; subst.
    destruct (snd x <? snd y) eqn:E.
    + apply Z.ltb_lt in E. constructor; [now apply IH|].
      apply Forall_forall. intros z Hz.
      apply (Permutation_in _ (insert_desc_perm x rows)) in Hz.
      destruct Hz as [<-|Hz]; [lia|].
      rewrite Forall_forall in Hy. now apply Hy.
    + apply Z.ltb_ge in E. constructor; [exact H|].
      constructor; [exact E|].
      rewrite Forall_forall in *. intros z Hz. specialize (Hy z Hz). lia.
Qed.

Lemma order_by_desc_descending (rows : list (K * Z)) :
  descending (order_by_desc rows).
Proof.
  induction rows as [|x rows IH]; simpl.
  - constructor.
  - now apply insert_desc_descending.
Qed.

Lemma descending_app (front back : list (K * Z)) :
  descending (front ++ back) ->
  descending front /\ forall a b, In a front -> In b back -> snd b <= snd a.
Proof.
  unfold descending. induction front as [|x front IH]; simpl; intros H.
  - split; [constructor | intros a b []].
  - inversion H as [|? ? Hrest Hx]; subst.
    destruct (IH Hrest) as [IH1 IH2].
    rewrite Forall_forall in Hx. split.
    + constructor; [exact IH1|]. apply Forall_forall.
      intros z Hz. apply Hx. apply in_or_app. now left.
    + intros a b [<-|Ha] Hb; [|now apply IH2].
      apply Hx. apply in_or_app. now right.
Qed.

(** LIMIT n after ORDER BY ... DESC: at most [n] rows, still descending, all
    of them rows of the ordered result, and none smaller than a row that
    was cut off. *)
Lemma limit_descending (n : nat) (rows : list (K * Z)) :
  descending rows ->
  (List.length (limit n rows) <= n)%nat
  /\ descending (limit n rows)
  /\ (forall r, In r (limit n rows) -> In r rows)
  /\ (forall r, In r rows ->
                In r (limit n rows)
                \/ (List.length (limit n rows) = n
                    /\ forall r', In r' (limit n rows) -> snd r <= snd r')).
Proof.
  intros H. unfold limit.
  rewrite <- (firstn_skipn n rows) in H.
  destruct (descending_app _ _ H) as [Hfront Hcut].
  split; [apply firstn_le_length|].
  split; [exact Hfront|].
  split.
  - intros r Hr. rewrite <- (firstn_skipn n rows). apply in_or_app. now left.
  - intros r Hr. rewrite <- (firstn_skipn n rows) in Hr.
    apply in_app_or in Hr. destruct Hr as [Hr|Hr]; [now left|right].
    split; [|intros r' Hr'; now apply Hcut].
    apply firstn_length_le.
    destruct (Nat.le_gt_cases n (List.length rows)) as [L|L]; [exact L|].
    rewrite skipn_all2 in Hr by lia. destruct Hr.
Qed.

End Ordering.

(** ** Statistics: sums over joins *)

Lemma sumZ_app (xs ys : list Z) : sumZ (xs ++ ys) = sumZ xs + sumZ ys.
Proof.
  unfold sumZ. induction xs as [|x xs IH]; simpl; [reflexivity|]. rewrite IH. lia.
Qed.

Lemma sumZ_flat_map {A B : Type} (f : A -> list B) (w : B -> Z) (rows : list A) :
  sumZ (map w (flat_map f rows)) = sumZ (map (fun a => sumZ (map w (f a))) rows).
Proof.
  induction rows as [|a rows IH]; simpl; [reflexivity|].
  rewrite map_app, sumZ_app, IH. reflexivity.
Qed.

Lemma sumZ_filter {A : Type} (p : A -> bool) (w : A -> Z) (rows : list A) :
  sumZ (map w (filter p rows)) = sumZ (map (fun a => if p a then w a else 0) rows).
Proof.
  induction rows as [|a rows IH]; simpl; [reflexivity|].
  destruct (p a); simpl; rewrite IH; reflexivity.
Qed.

Lemma sumZ_ext {A : Type} (w w' : A -> Z) (rows : list A) :
  (forall a, In a rows -> w a = w' a) -> sumZ (map w rows) = sumZ (map w' rows).
Proof.
  intros H. induction rows as [|a rows IH]; simpl; [reflexivity|].
  rewrite (H a (or_introl eq_refl)), IH; [reflexivity|].
  intros a' Ha'. apply H. now right.
Qed.

Lemma sumZ_zero {A : Type} (rows : list A) : sumZ (map (fun _ => 0) rows) = 0.
Proof.
  induction rows as [|a rows IH]; simpl; [reflexivity|]. now rewrite IH.
Qed.


Lemma in_join {A B : Type} (left : list A) (right : list B) (on : A -> B -> bool)
  (a : A) (b : B) :
  In (a, b) (join left right on) <-> In a left /\ In b right /\ on a b = true.
Proof.
  unfold join. rewrite in_flat_map. split.
  - intros [a' [Ha Hb]]. apply in_map_iff in Hb. destruct Hb as [b' [[= -> ->] Hb]].
    apply filter_In in Hb. tauto.
  - intros [Ha [Hb Hon]]. exists a. split; [exact Ha|].
    apply in_map. apply filter_In. tauto.
Qed.

Lemma filter_map_comm {A B : Type} (p : B -> bool) (f : A -> B) (rows : list A) :
  filter p (map f rows) = map f (filter (fun a => p (f a)) rows).
Proof.
  induction rows as [|a rows IH]; simpl; [reflexivity|].
  destruct (p (f a)); simpl; now rewrite IH.
Qed.

Lemma key_eqb_eq (a b : Z * string) : key_eqb a b = true <-> a = b.
Proof.
  destruct a as [i n], b as [j m]. unfold key_eqb. cbn [fst snd].
  rewrite andb_true_iff, Z.eqb_eq, String.eqb_eq. split.
  - intros [-> ->]. reflexivity.
  - intros [= -> ->]. auto.
Qed.

(** With unique order ids, a line item is joined to at most one order. *)
Lemma matching_orders_sum (in_range : Order.t -> bool) (os : list Order.t) (k c : Z) :
  NoDup (map Order.id os) ->
  sumZ (map (fun o => if in_range o then c else 0)
            (filter (fun o => k =? Order.id o) os))
  = if existsb (fun o => (Order.id o =? k) && in_range o) os then c else 0.
Proof.
  induction os as [|o os IH]; cbn [filter map existsb]; intros Hnd; [reflexivity|].
  inversion Hnd as [|? ? Hnotin Hnd']; subst.
  rewrite (Z.eqb_sym (Order.id o) k).
  destruct (k =? Order.id o) eqn:E.
  - apply Z.eqb_eq in E. subst k.
    assert (Hrest : filter (fun o' => Order.id o =? Order.id o') os = []).
    { clear -Hnotin. induction os as [|o' os IH]; simpl; [reflexivity|].
      destruct (Order.id o =? Order.id o') eqn:E.
      - apply Z.eqb_eq in E. exfalso. apply Hnotin. left. now symmetry.
      - apply IH. intros H. apply Hnotin. now right. }
    assert (Hnone : existsb (fun o' => (Order.id o' =? Order.id o) && in_range o') os
                    = false).
    { clear -Hnotin. induction os as [|o' os IH]; simpl; [reflexivity|].
      destruct (Order.id o' =? Order.id o) eqn:E.
      - apply Z.eqb_eq in E. exfalso. apply Hnotin. now left.
      - apply IH. intros H. apply Hnotin. now right. }
    rewrite Hrest, Hnone. cbn.
    destruct (in_range o); cbn; lia.
  - cbn [andb orb]. now apply IH.
Qed.

(** With unique menu item ids, a GROUP BY key selects one menu item. *)
Lemma own_key_sum (mis : list MenuItem.t) (mi0 : MenuItem.t) (F : Z -> Z) :
  NoDup (map (@MenuItem.id Z) mis) -> In mi0 mis ->
  sumZ (map (fun mi : MenuItem.t =>
               if key_eqb (MenuItem.id mi, MenuItem.name_pl mi)
                          (MenuItem.id mi0, MenuItem.name_pl mi0)
               then F (MenuItem.id mi) else 0)
            mis)
  = F (MenuItem.id mi0).
Proof.
  induction mis as [|mi mis IH]; cbn [map sumZ fold_right]; intros Hnd Hin; [destruct Hin|].
  inversion Hnd as [|? ? Hnotin Hnd']; subst.
  fold (sumZ (map (fun mi : MenuItem.t =>
                     if key_eqb (MenuItem.id mi, MenuItem.name_pl mi)
                                (MenuItem.id mi0, MenuItem.name_pl mi0)
                     then F (MenuItem.id mi) else 0) mis)).
  destruct Hin as [->|Hin].
  - rewrite (proj2 (key_eqb_eq _ _) eq_refl).
    rewrite (sumZ_ext _ (fun _ => 0)), sumZ_zero; [lia|].
    intros mi Hmi. destruct (key_eqb _ _) eqn:E; [|reflexivity].
    apply key_eqb_eq in E. injection E as E _. exfalso. apply Hnotin.
    rewrite <- E. now apply in_map.
  - rewrite (IH Hnd' Hin).
    destruct (key_eqb _ _) eqn:E; [|lia].
    apply key_eqb_eq in E. injection E as E _. exfalso. apply Hnotin.
    rewrite E. now apply in_map.
Qed.

(** The sum GROUP BY computes for the key of a menu item over the joined and
    filtered rows is the quantity of that menu item sold in range. *)
Lemma sold_total (in_range : Order.t -> bool) (db : Database) (mi0 : MenuItem.t) :
  NoDup (map (@MenuItem.id Z) (menu_item db)) ->
  NoDup (map Order.id (orders db)) ->
  In mi0 (menu_item db) ->
  total key_eqb (MenuItem.id mi0, MenuItem.name_pl mi0)
        (map (fun row : (MenuItem.t * OrderItem.t) * Order.t =>
                let mi := fst (fst row) in
                let oi := snd (fst row) in
                ((MenuItem.id mi, MenuItem.name_pl mi), OrderItem.quantity oi))
             (filter (fun row => in_range (snd row)) (sold_rows db)))
  = quantity_sold in_range db (MenuItem.id mi0).
Proof.
  intros Hmis Hos Hin. unfold total, quantity_sold.
  rewrite filter_map_comm, map_map. cbv zeta. cbn [fst snd].
  rewrite !sumZ_filter.
  unfold sold_rows, join.
  rewrite sumZ_flat_map.
  rewrite (sumZ_ext _
             (fun p : MenuItem.t * OrderItem.t =>
                if existsb (fun o => (Order.id o =? OrderItem.order_id (snd p))
                                     && in_range o) (orders db)
                then (if key_eqb (MenuItem.id (fst p), MenuItem.name_pl (fst p))
                                 (MenuItem.id mi0, MenuItem.name_pl mi0)
                      then OrderItem.quantity (snd p) else 0)
                else 0)).
  2:{ intros p _. rewrite map_map. cbn [fst snd].
      now rewrite (matching_orders_sum in_range (orders db)
                     (OrderItem.order_id (snd p)) _ Hos). }
  rewrite sumZ_flat_map.
  rewrite (sumZ_ext _
             (fun mi : MenuItem.t =>
                if key_eqb (MenuItem.id mi, MenuItem.name_pl mi)
                           (MenuItem.id mi0, MenuItem.name_pl mi0)
                then (fun k =>
                        sumZ (map (fun oi =>
                                     if existsb (fun o => (Order.id o =? OrderItem.order_id oi)
                                                          && in_range o) (orders db)
                                     then OrderItem.quantity oi else 0)
                                  (filter (fun oi => k =? OrderItem.menu_item_id oi)
                                          (order_item db))))
                       (MenuItem.id mi)
                else 0)).
  2:{ intros mi _. rewrite map_map. cbn [fst snd].
      destruct (key_eqb _ _); [reflexivity|].
      rewrite (sumZ_ext _ (fun _ => 0)), sumZ_zero; [reflexivity|].
      intros oi _. now destruct (existsb _ _). }
  pose proof (@own_key_sum (menu_item db) mi0
                (fun k =>
                   sumZ (map (fun oi =>
                                if existsb (fun o => (Order.id o =? OrderItem.order_id oi)
                                                     && in_range o) (orders db)
                                then OrderItem.quantity oi else 0)
                             (filter (fun oi => k =? OrderItem.menu_item_id oi)
                                     (order_item db))))
                Hmis Hin) as Hown.
  cbv beta in Hown. rewrite Hown. clear Hown.
  rewrite sumZ_filter.
  apply sumZ_ext. intros oi _.
  rewrite (Z.eqb_sym (OrderItem.menu_item_id oi)).
  now destruct (MenuItem.id mi0 =? OrderItem.menu_item_id oi), (existsb _ _).
Qed.

(** C9: with unique menu item and order ids, and every supplied non-empty
    date a literal the engine accepts, topMenuItems returns at most 10
    entries, sorted by sold_count descending, one per menu item; each entry
    belongs to a stored menu item and its sold_count is the sum of the
    quantities of that item's line items in orders whose created_at lies in
    the inclusive range; and a menu item sold in range is either among the
    entries or sold no more than any of the 10 entries returned. *)
Theorem top_menu_items_returns_top_sold (date_from date_to : option string)
  (db : Database) :
  NoDup (map (@MenuItem.id Z) (menu_item db)) ->
  NoDup (map Order.id (orders db)) ->
  (forall s, date_from = Some s -> s <> "" -> timestamp_in s <> None) ->
  (forall s, date_to = Some s -> s <> "" -> timestamp_in s <> None) ->
  exists rows in_range,
    top_menu_items date_from date_to db = Ok rows
    /\ (forall o,
          in_range o = true <->
          (forall s lo, date_from = Some s -> s <> "" -> timestamp_in s = Some lo ->
                        lo <= Order.created_at o)
          /\ (forall s hi, date_to = Some s -> s <> "" -> timestamp_in s = Some hi ->
                           Order.created_at o <= hi))
    /\ (List.length rows <= 10)%nat
    /\ descending rows
    /\ NoDup (map fst rows)
    /\ (forall id name sold,
          In ((id, name), sold) rows ->
          (exists mi, In mi (menu_item db)
                      /\ MenuItem.id mi = id /\ MenuItem.name_pl mi = name)
          /\ sold = quantity_sold in_range db id)
    /\ (forall mi oi o,
          In mi (menu_item db) -> In oi (order_item db) -> In o (orders db) ->
          OrderItem.menu_item_id oi = MenuItem.id mi ->
          OrderItem.order_id oi = Order.id o ->
          in_range o = true ->
          In ((MenuItem.id mi, MenuItem.name_pl mi),
              quantity_sold in_range db (MenuItem.id mi)) rows
          \/ (List.length rows = 10%nat
              /\ forall r, In r rows ->
                           quantity_sold in_range db (MenuItem.id mi) <= snd r)).
Proof.
  intros Hmis Hos Hfrom Hto. unfold top_menu_items.
  destruct (date_bound_filter
              (fun row : (MenuItem.t * OrderItem.t) * Order.t => snd row)
              (fun lo o => lo <=? Order.created_at o) (sold_rows db) Hfrom)
    as [from [-> Hfrom']].
  cbn [bind].
  destruct (date_bound_filter
              (fun row : (MenuItem.t * OrderItem.t) * Order.t => snd row)
              (fun hi o => Order.created_at o <=? hi)
              (filter (fun r => from (snd r)) (sold_rows db)) Hto)
    as [to [-> Hto']].
  cbn [bind]. rewrite filter_twice.
  set (in_range := fun o : Order.t => from o && to o).
  change (filter (fun r => from (snd r) && to (snd r)) (sold_rows db))
    with (filter (fun row => in_range (snd row)) (sold_rows db)).
  set (kvs := map (fun row : (MenuItem.t * OrderItem.t) * Order.t =>
                     let mi := fst (fst row) in
                     let oi := snd (fst row) in
                     ((MenuItem.id mi, MenuItem.name_pl mi), OrderItem.quantity oi))
                  (filter (fun row => in_range (snd row)) (sold_rows db))).
  destruct (group_by_sum_spec key_eqb key_eqb_eq kvs) as [Hnd Hgroups].
  pose proof (order_by_desc_perm (group_by_sum key_eqb kvs)) as Hperm.
  destruct (limit_descending 10 (order_by_desc_descending (group_by_sum key_eqb kvs)))
    as [Hlen [Hdesc [Hsub Htop]]].
  (* the keys of the joined rows are the keys of stored menu items *)
  assert (Hkeys : forall k, In k (map fst kvs) <->
                            exists mi oi o,
                              In mi (menu_item db) /\ In oi (order_item db)
                              /\ In o (orders db)
                              /\ OrderItem.menu_item_id oi = MenuItem.id mi
                              /\ OrderItem.order_id oi = Order.id o
                              /\ in_range o = true
                              /\ k = (MenuItem.id mi, MenuItem.name_pl mi)).
  { intros k. unfold kvs. rewrite map_map. cbn [fst]. rewrite in_map_iff. split.
    - intros [[[mi oi] o] [Hk Hrow]]. cbn in Hk.
      apply filter_In in Hrow. destruct Hrow as [Hrow Hrange]. cbn in Hrange.
      unfold sold_rows in Hrow. apply in_join in Hrow.
      destruct Hrow as [Hpair [Ho Hon2]]. apply in_join in Hpair.
      destruct Hpair as [Hmi [Hoi Hon1]]. cbn in Hon2.
      apply Z.eqb_eq in Hon1, Hon2.
      exists mi, oi, o. repeat split; auto.
    - intros [mi [oi [o [Hmi [Hoi [Ho [H1 [H2 [Hr ->]]]]]]]]].
      exists ((mi, oi), o). split; [reflexivity|].
      apply filter_In. split; [|exact Hr].
      unfold sold_rows. apply in_join. split; [|split; [exact Ho|]].
      + apply in_join. repeat split; auto. apply Z.eqb_eq. now symmetry.
      + cbn. now apply Z.eqb_eq. }
  exists (limit 10 (order_by_desc (group_by_sum key_eqb kvs))), in_range.
  split; [reflexivity|].
  split.
  { intros o. unfold in_range. rewrite andb_true_iff, Hfrom', Hto'. split.
    - intros [H1 H2]. split; intros s t E Hne P; apply Z.leb_le; eauto.
    - intros [H1 H2]. split; intros s t E Hne P; apply Z.leb_le; eauto. }
  split; [exact Hlen|].
  split; [exact Hdesc|].
  split.
  { unfold limit. rewrite <- firstn_map.
    apply (NoDup_app_remove_r _ (skipn 10 (map fst (order_by_desc (group_by_sum key_eqb kvs))))).
    rewrite firstn_skipn.
    apply (Permutation_NoDup (Permutation_sym (Permutation_map fst Hperm))). exact Hnd. }
  split.
  - intros id name sold Hin.
    apply Hsub in Hin. apply (Permutation_in _ Hperm) in Hin.
    apply Hgroups in Hin. destruct Hin as [Hk ->].
    apply Hkeys in Hk.
    destruct Hk as [mi [oi [o [Hmi [Hoi [Ho [H1 [H2 [Hr [= -> ->]]]]]]]]]].
    split; [eauto|].
    unfold kvs. now apply sold_total.
  - intros mi oi o Hmi Hoi Ho H1 H2 Hr.
    rewrite <- (@sold_total in_range db mi Hmis Hos Hmi). fold kvs.
    apply Htop. apply (Permutation_in _ (Permutation_sym Hperm)).
    apply Hgroups. split; [|reflexivity].
    apply Hkeys. exists mi, oi, o. repeat split; auto.
Qed.

(** * Further properties of the handlers *)

(** ** The session and its constraints *)

(** X1: deleting a category or a menu item answers 404 and changes nothing
    when no row has the id; otherwise it either fails at commit and changes
    nothing, or removes that one row and leaves every other row, in its
    place, and every other table as they were. *)
Theorem delete_removes_the_row_only :
  (forall (id : Z) (db : Database),
      match first (filter (fun c => MenuCategory.id c =? id) (menu_category db)) with
      | None => delete_category id db = (Raise Not_Found, db)
      | Some row =>
          delete_category id db = (Raise IntegrityError, db)
          \/ exists before after,
               menu_category db = before ++ row :: after
               /\ delete_category id db
                  = (Ok tt,
                     with_menu_category (before ++ after) (menu_category_id_seq db) db)
      end)
  /\ (forall (id : Z) (db : Database),
         match first (filter (fun i => MenuItem.id i =? id) (menu_item db)) with
         | None => delete_menu_item id db = (Raise Not_Found, db)
         | Some row =>
             delete_menu_item id db = (Raise IntegrityError, db)
             \/ exists before after,
                  menu_item db = before ++ row :: after
                  /\ delete_menu_item id db
                     = (Ok tt, with_menu_item (before ++ after) (menu_item_id_seq db) db)
         end).
Proof.
  split.
  - intros id db. unfold delete_category.
    destruct (first _) as [row|] eqn:E; [|reflexivity].
    destruct (first_filter_some _ _ E) as [_ Hid]. apply Z.eqb_eq in Hid. subst id.
    destruct (delete_row_first _ _ E) as [before [after [Hrows Hdel]]].
    rewrite Hdel.
    destruct (commit_cases
                (with_menu_category (before ++ after) (menu_category_id_seq db) db))
      as [C|C]; rewrite C.
    + right. exists before, after. auto.
    + now left.
  - intros id db. unfold delete_menu_item.
    destruct (first _) as [row|] eqn:E; [|reflexivity].
    destruct (first_filter_some _ _ E) as [_ Hid]. apply Z.eqb_eq in Hid. subst id.
    destruct (delete_row_first _ _ E) as [before [after [Hrows Hdel]]].
    rewrite Hdel.
    destruct (commit_cases (with_menu_item (before ++ after) (menu_item_id_seq db) db))
      as [C|C]; rewrite C.
    + right. exists before, after. auto.
    + now left.
Qed.

Lemma references_missing (k : Z) (foreign parent : list Z) :
  In k foreign -> ~ In k parent -> references foreign parent = false.
Proof.
  intros Hin Hnot. unfold references.
  destruct (forallb _ foreign) eqn:E; [|reflexivity].
  rewrite forallb_forall in E. specialize (E k Hin).
  apply existsb_exists in E. destruct E as [k' [Hk' Heq]].
  apply Z.eqb_eq in Heq. subst k'. contradiction.
Qed.

(** X2: deleting a category that menu items still point to.  On a database
    whose constraints hold, the delete is refused with an IntegrityError
    (answered 500) and nothing changes when the engine enforces foreign
    keys; when it does not, the category is removed and the menu items stay
    as they were, pointing to a category that no longer exists. *)
Theorem delete_category_with_items (id : Z) (db : Database)
  (row : MenuCategory.t) (item : MenuItem.t) :
  constraints_hold db = true ->
  first (filter (fun c => MenuCategory.id c =? id) (menu_category db)) = Some row ->
  In item (menu_item db) ->
  MenuItem.category_id item = id ->
  (foreign_keys = true ->
   delete_category id db = (Raise IntegrityError, db)
   /\ respond (fmap (fun _ => JEmpty) (fst (delete_category id db)))
      = mkResponse 500 Internal_Server_Error)
  /\ (foreign_keys = false ->
      fst (delete_category id db) = Ok tt
      /\ menu_item (snd (delete_category id db)) = menu_item db
      /\ forall c, In c (menu_category (snd (delete_category id db))) ->
                   MenuCategory.id c <> MenuItem.category_id item).
Proof.
  intros Hc E Hitem Hcat.
  destruct (first_filter_some _ _ E) as [_ Hid]. apply Z.eqb_eq in Hid.
  revert Hcat. subst id. intros Hcat.
  destruct (delete_row_first (fun r => MenuCategory.id r =? MenuCategory.id row) _ E)
    as [before [after [Hrows Hdel]]].
  assert (Hu : NoDup (map (@MenuCategory.id Z) (menu_category db))
               /\ unique (map (@MenuItem.id Z) (menu_item db)) = true).
  { unfold constraints_hold in Hc. rewrite !andb_true_iff in Hc.
    destruct Hc as [[H1 H2] _]. split; [now apply unique_NoDup | exact H2]. }
  destruct Hu as [Hnd Hitems].
  rewrite Hrows, map_app in Hnd. cbn [map] in Hnd.
  assert (Hgone : ~ In (MenuCategory.id row) (map (@MenuCategory.id Z) (before ++ after))).
  { rewrite map_app. now apply NoDup_remove_2. }
  assert (Hnd' : NoDup (map (@MenuCategory.id Z) (before ++ after))).
  { rewrite map_app. now apply NoDup_remove_1 in Hnd. }
  unfold delete_category. rewrite E, Hdel. unfold commit, constraints_hold, with_menu_category.
  cbn [menu_category menu_item order_item].
  split; intros Hfk; rewrite Hfk; cbn [negb orb].
  - rewrite (@references_missing (MenuCategory.id row)
               (map (@MenuItem.category_id Z) (menu_item db))
               (map (@MenuCategory.id Z) (before ++ after))).
    + cbn [andb]. rewrite andb_false_r. split; reflexivity.
    + rewrite <- Hcat. now apply in_map.
    + exact Hgone.
  - rewrite (proj2 (unique_NoDup _) Hnd'), Hitems. cbn [andb fst snd menu_item menu_category].
    repeat split.
    intros c Hc' Heq. apply Hgone. rewrite <- Hcat, <- Heq. now apply in_map.
Qed.

Lemma block_menu_item_found (is_available : bool) (db : Database) (row : MenuItem.t) :
  constraints_hold db = true ->
  first (filter (fun i => MenuItem.id i =? MenuItem.id row) (menu_item db)) = Some row ->
  exists before after,
    menu_item db = before ++ row :: after
    /\ block_menu_item (MenuItem.id row) is_available db
       = (Ok (Some is_available),
          with_menu_item
            (before ++ after
               ++ [MenuItem.mk (MenuItem.id row) (MenuItem.category_id row)
                     (MenuItem.name_pl row) (MenuItem.name_en row)
                     (MenuItem.price_cents row) (MenuItem.image_url row)
                     (Some is_available)])
            (menu_item_id_seq db) db).
Proof.
  intros Hc E. unfold block_menu_item. rewrite E.
  unfold flush_item, setattr_item, load_item, store_item.
  cbn [MenuItem.id MenuItem.category_id MenuItem.name_pl MenuItem.name_en
       MenuItem.price_cents MenuItem.image_url MenuItem.is_available].
  set (row' := MenuItem.mk (MenuItem.id row) _ _ _ _ _ _).
  destruct (update_row_first _ row' _ E) as [before [after [Hrows Hupd]]].
  rewrite Hupd. exists before, after. split; [exact Hrows|].
  assert (Hcat : foreign_keys = true ->
                 In (MenuItem.category_id row')
                    (map (@MenuCategory.id Z) (menu_category db))).
  { intros F. unfold constraints_hold in Hc. rewrite F in Hc. cbn [negb orb] in Hc.
    rewrite !andb_true_iff in Hc. destruct Hc as [_ [H _]].
    rewrite references_spec in H. apply H. rewrite Hrows, map_app.
    apply in_or_app. right. now left. }
  unfold commit.
  match goal with
  | |- context [constraints_hold ?pending] =>
      replace (constraints_hold pending) with true
        by (symmetry;
            exact (@update_item_keeps_constraints db before after row row'
                     Hc Hrows eq_refl Hcat))
  end.
  reflexivity.
Qed.

(** X3: the availability toggle answers 404 and changes nothing when no menu
    item has the id; on a database whose constraints hold it otherwise
    always succeeds, returns the supplied flag, and rewrites the item as one
    that differs in is_available only, every other row and table staying as
    it was (up to the order in which the table is scanned). *)
Theorem block_menu_item_sets_availability (id : Z) (is_available : bool) (db : Database) :
  constraints_hold db = true ->
  match first (filter (fun i => MenuItem.id i =? id) (menu_item db)) with
  | None => block_menu_item id is_available db = (Raise Not_Found, db)
  | Some row =>
      exists before after rows,
        menu_item db = before ++ row :: after
        /\ Permutation rows
             (before
                ++ MenuItem.mk (MenuItem.id row) (MenuItem.category_id row)
                     (MenuItem.name_pl row) (MenuItem.name_en row)
                     (MenuItem.price_cents row) (MenuItem.image_url row)
                     (Some is_available)
                :: after)
        /\ block_menu_item id is_available db
           = (Ok (Some is_available),
              with_menu_item rows (menu_item_id_seq db) db)
  end.
Proof.
  intros Hc.
  destruct (first _) as [row|] eqn:E.
  - destruct (first_filter_some _ _ E) as [_ Hid]. apply Z.eqb_eq in Hid. subst id.
    destruct (@block_menu_item_found is_available db row Hc E)
      as [before [after [Hrows Hblock]]].
    eexists before, after, _. split; [exact Hrows|]. split; [|exact Hblock].
    apply moved_row_perm.
  - unfold block_menu_item. now rewrite E.
Qed.

Lemma commit_ok (pending db' : Database) :
  commit pending = Ok db' -> constraints_hold pending = true /\ db' = pending.
Proof.
  unfold commit. destruct (constraints_hold pending); [|discriminate].
  intros [= <-]. auto.
Qed.

Lemma new_category_dict (cat : MenuCategorySchema.t) :
  new_category (category_dict cat)
  = MenuCategory.mk (supplied_or_prior (MenuCategorySchema.id cat) None)
                    (MenuCategorySchema.name_pl cat)
                    (MenuCategorySchema.name_en cat)
                    (supplied_or_prior (MenuCategorySchema.image_url cat) None).
Proof.
  destruct cat as [[i|] pl en [u|]]; reflexivity.
Qed.

(** X4: when creating a category succeeds, the returned row has been
    appended to the table and carries the supplied names and image; its id
    is the one the body supplied, if it supplied one (the sequence then
    stays where it was), and the next value of the sequence otherwise; no
    other category had that id, so that looking the id up in the new
    listing finds exactly the returned row; the menu items are untouched. *)
Theorem add_category_then_lookup (cat : MenuCategorySchema.t) (db db' : Database)
  (row : MenuCategory.t) :
  add_category cat db = (Ok row, db') ->
  get_categories db' = get_categories db ++ [row]
  /\ MenuCategory.name_pl row = MenuCategorySchema.name_pl cat
  /\ MenuCategory.name_en row = MenuCategorySchema.name_en cat
  /\ MenuCategory.image_url row
     = supplied_or_prior (MenuCategorySchema.image_url cat) None
  /\ match MenuCategorySchema.id cat with
     | Some (Some k) =>
         MenuCategory.id row = k /\ menu_category_id_seq db' = menu_category_id_seq db
     | _ =>
         MenuCategory.id row = menu_category_id_seq db + 1
         /\ menu_category_id_seq db' = menu_category_id_seq db + 1
     end
  /\ (forall c, In c (get_categories db) -> MenuCategory.id c <> MenuCategory.id row)
  /\ first (filter (fun c => MenuCategory.id c =? MenuCategory.id row)
                   (get_categories db')) = Some row
  /\ get_menu_items db' = get_menu_items db.
Proof.
  unfold add_category, insert_category, get_categories, get_menu_items.
  rewrite new_category_dict. cbn [MenuCategory.id].
  set (seq := match supplied_or_prior (MenuCategorySchema.id cat) None with
              | Some _ => menu_category_id_seq db
              | None => menu_category_id_seq db + 1
              end).
  set (key := match supplied_or_prior (MenuCategorySchema.id cat) None with
              | Some k => k
              | None => seq
              end).
  destruct (commit _) as [db1|e] eqn:C; [|discriminate].
  intros [= <- <-]. apply commit_ok in C. destruct C as [Hc ->].
  cbn [with_menu_category menu_category menu_item menu_category_id_seq
       store_category MenuCategory.id MenuCategory.name_pl MenuCategory.name_en
       MenuCategory.image_url].
  assert (Hnd : NoDup (map (@MenuCategory.id Z)
                         (menu_category db ++ [store_category
                            (MenuCategory.mk (supplied_or_prior (MenuCategorySchema.id cat) None)
                               (MenuCategorySchema.name_pl cat)
                               (MenuCategorySchema.name_en cat)
                               (supplied_or_prior (MenuCategorySchema.image_url cat) None))
                            key]))).
  { unfold constraints_hold in Hc. rewrite !andb_true_iff in Hc.
    destruct Hc as [[H1 _] _]. now apply unique_NoDup in H1. }
  repeat split.
  - unfold key, seq. now destruct (MenuCategorySchema.id cat) as [[k|]|].
  - intros c Hin Heq. rewrite map_app in Hnd. cbn [map store_category MenuCategory.id] in Hnd.
    apply NoDup_remove_2 in Hnd. apply Hnd. rewrite app_nil_r.
    cbn in Heq. rewrite <- Heq. now apply in_map.
  - match type of Hnd with
    | NoDup (map _ (?rows ++ [?r])) =>
        assert (Hin : In r (rows ++ [r])) by (apply in_or_app; right; now left);
        exact (@first_filter_unique _ _ (@MenuCategory.id Z) Z.eqb Z.eqb_eq _ _ Hnd Hin)
    end.
Qed.

(** X5: the id of a create body is not ignored: when a category with the
    supplied id exists already the create fails at commit with an
    IntegrityError, answered 500, and neither the table nor the sequence
    changes. *)
Theorem add_category_duplicate_id (cat : MenuCategorySchema.t) (db : Database) (k : Z) :
  MenuCategorySchema.id cat = Some (Some k) ->
  (exists c, In c (menu_category db) /\ MenuCategory.id c = k) ->
  fst (add_category cat db) = Raise IntegrityError
  /\ respond (fmap JCategory (fst (add_category cat db)))
     = mkResponse 500 Internal_Server_Error
  /\ menu_category (snd (add_category cat db)) = menu_category db
  /\ menu_category_id_seq (snd (add_category cat db)) = menu_category_id_seq db.
Proof.
  intros Hid [c [Hin Hk]].
  unfold add_category, insert_category. rewrite new_category_dict, Hid.
  cbn [supplied_or_prior MenuCategory.id].
  destruct (commit _) as [db1|e] eqn:C.
  - exfalso. apply commit_ok in C. destruct C as [Hc _].
    unfold constraints_hold in Hc. rewrite !andb_true_iff in Hc.
    destruct Hc as [[H1 _] _]. apply unique_NoDup in H1.
    cbn [with_menu_category menu_category] in H1.
    rewrite map_app in H1. cbn [map store_category MenuCategory.id] in H1.
    apply NoDup_remove_2 in H1. apply H1. rewrite app_nil_r.
    rewrite <- Hk. now apply in_map.
  - unfold commit in C. destruct (constraints_hold _); [discriminate|].
    injection C as <-. repeat split.
Qed.

(** X6: create a menu item, then toggle its availability, then list the
    menu.  When the create succeeds, the toggle on the returned id succeeds
    too and returns the flag, and the listing afterwards has as many rows as
    before the toggle, contains the created item with the new flag and its
    other fields as created, and shows the new flag on every row with that
    id. *)
Theorem create_then_block_is_listed (item : MenuItemSchema.t) (db db1 : Database)
  (row : MenuItem.t) (is_available : bool) :
  add_menu_item item db = (Ok row, db1) ->
  exists db2,
    block_menu_item (MenuItem.id row) is_available db1 = (Ok (Some is_available), db2)
    /\ In (MenuItem.mk (MenuItem.id row) (MenuItem.category_id row)
             (MenuItem.name_pl row) (MenuItem.name_en row)
             (MenuItem.price_cents row) (MenuItem.image_url row) (Some is_available))
          (get_menu_items db2)
    /\ (forall r, In r (get_menu_items db2) -> MenuItem.id r = MenuItem.id row ->
                  MenuItem.is_available r = Some is_available)
    /\ List.length (get_menu_items db2) = List.length (get_menu_items db1).
Proof.
  unfold add_menu_item, insert_item, get_menu_items.
  destruct (commit _) as [pending|e] eqn:C; [|discriminate].
  intros [= <- <-]. apply commit_ok in C. destruct C as [Hc ->].
  match type of Hc with
  | constraints_hold (with_menu_item (?rows ++ [?r]) ?seq ?d) = true =>
      remember r as row eqn:Hrow;
      remember (with_menu_item (rows ++ [row]) seq d) as db1 eqn:Hdb1
  end.
  clear Hrow.
  assert (Hnd : NoDup (map (@MenuItem.id Z) (menu_item db1))).
  { unfold constraints_hold in Hc. rewrite !andb_true_iff in Hc.
    destruct Hc as [[_ H2] _]. now apply unique_NoDup in H2. }
  assert (Hin : In row (menu_item db1)).
  { rewrite Hdb1. cbn [with_menu_item menu_item]. apply in_or_app. right. now left. }
  clear Hdb1.
  pose proof (@first_filter_unique _ _ (@MenuItem.id Z) Z.eqb Z.eqb_eq _ _ Hnd Hin) as E.
  destruct (@block_menu_item_found is_available db1 row Hc E)
    as [before [after [Hrows Hblock]]].
  eexists. split; [exact Hblock|].
  cbn [with_menu_item menu_item]. split; [|split].
  - apply in_or_app. right. apply in_or_app. right. now left.
  - intros r Hr Hid. rewrite Hrows, map_app in Hnd. cbn [map] in Hnd.
    apply in_app_or in Hr. destruct Hr as [Hr|Hr];
      [|apply in_app_or in Hr; destruct Hr as [Hr|[<-|[]]]].
    + exfalso. apply (NoDup_remove_2 _ _ _ Hnd). apply in_or_app. left.
      rewrite <- Hid. now apply in_map.
    + exfalso. apply (NoDup_remove_2 _ _ _ Hnd). apply in_or_app. right.
      rewrite <- Hid. now apply in_map.
    + reflexivity.
  - rewrite Hrows, !length_app. cbn [List.length]. lia.
Qed.

(** X7: when creating a menu item succeeds, the returned row has been
    appended to the menu and carries the supplied category, names and
    price; an image_url left out is null; an is_available left out, or
    given as null, is true (the column default, which the insert applies
    to an attribute that is None); the id is the supplied one or else the
    next value of the sequence, no other item had it, and, where foreign
    keys are enforced, the category named exists. *)
Theorem add_menu_item_then_listed (item : MenuItemSchema.t) (db db' : Database)
  (row : MenuItem.t) :
  add_menu_item item db = (Ok row, db') ->
  get_menu_items db' = get_menu_items db ++ [row]
  /\ MenuItem.category_id row = MenuItemSchema.category_id item
  /\ MenuItem.name_pl row = MenuItemSchema.name_pl item
  /\ MenuItem.name_en row = MenuItemSchema.name_en item
  /\ MenuItem.price_cents row = MenuItemSchema.price_cents item
  /\ MenuItem.image_url row = supplied_or_prior (MenuItemSchema.image_url item) None
  /\ MenuItem.is_available row
     = match MenuItemSchema.is_available item with
       | Some (Some b) => Some b
       | _ => Some true
       end
  /\ match MenuItemSchema.id item with
     | Some (Some k) =>
         MenuItem.id row = k /\ menu_item_id_seq db' = menu_item_id_seq db
     | _ =>
         MenuItem.id row = menu_item_id_seq db + 1
         /\ menu_item_id_seq db' = menu_item_id_seq db + 1
     end
  /\ (forall i, In i (get_menu_items db) -> MenuItem.id i <> MenuItem.id row)
  /\ (foreign_keys = true ->
      exists c, In c (get_categories db')
                /\ MenuCategory.id c = MenuItemSchema.category_id item).
Proof.
  unfold add_menu_item, insert_item, insert_defaults, get_menu_items, get_categories.
  rewrite new_item_dict.
  cbn [MenuItem.id MenuItem.category_id MenuItem.name_pl MenuItem.name_en
       MenuItem.price_cents MenuItem.image_url MenuItem.is_available].
  set (seq := match supplied_or_prior (MenuItemSchema.id item) None with
              | Some _ => menu_item_id_seq db
              | None => menu_item_id_seq db + 1
              end).
  set (key := match supplied_or_prior (MenuItemSchema.id item) None with
              | Some k => k
              | None => seq
              end).
  destruct (commit _) as [db1|e] eqn:C; [|discriminate].
  intros [= <- <-]. apply commit_ok in C. destruct C as [Hc ->].
  unfold constraints_hold in Hc. rewrite !andb_true_iff in Hc.
  destruct Hc as [[_ Hitems] Hfk]. apply unique_NoDup in Hitems.
  cbn [with_menu_item menu_category menu_item menu_item_id_seq order_item] in *.
  rewrite map_app in Hitems. cbn [map store_item MenuItem.id] in Hitems.
  cbn [store_item MenuItem.id MenuItem.category_id MenuItem.name_pl MenuItem.name_en
       MenuItem.price_cents MenuItem.image_url MenuItem.is_available].
  repeat split.
  - now destruct (MenuItemSchema.is_available item) as [[b|]|].
  - unfold key, seq. now destruct (MenuItemSchema.id item) as [[k|]|].
  - intros i Hin Heq. apply NoDup_remove_2 in Hitems. apply Hitems.
    rewrite app_nil_r. rewrite <- Heq. now apply in_map.
  - intros Htrue. rewrite Htrue in Hfk. cbn [negb orb] in Hfk.
    apply andb_true_iff in Hfk. destruct Hfk as [Href _].
    rewrite map_app, references_app in Href. apply andb_true_iff in Href.
    destruct Href as [_ Href]. cbn [map references forallb store_item MenuItem.category_id]
      in Href.
    rewrite andb_true_r in Href. apply existsb_exists in Href.
    destruct Href as [k [Hk Heq]]. apply Z.eqb_eq in Heq. subst k.
    apply in_map_iff in Hk. destruct Hk as [c [Hc Hin]]. eauto.
Qed.

(** X8: the update of a menu item does not look the category up either.
    Where foreign keys are enforced, an update of an existing item whose
    body names a category_id that matches no category fails at commit with
    an IntegrityError and changes nothing. *)
Theorem update_menu_item_unknown_category (id : Z) (upd : MenuItemSchema.t)
  (db : Database) (row : MenuItem.t) :
  foreign_keys = true ->
  first (filter (fun i => MenuItem.id i =? id) (menu_item db)) = Some row ->
  (forall c, In c (menu_category db) ->
             MenuCategory.id c <> MenuItemSchema.category_id upd) ->
  update_menu_item id upd db = (Raise IntegrityError, db)
  /\ respond (fmap JItem (fst (update_menu_item id upd db)))
     = mkResponse 500 Internal_Server_Error.
Proof.
  intros Hfk E Hnone.
  destruct (first_filter_some _ _ E) as [_ Hid]. apply Z.eqb_eq in Hid. subst id.
  assert (U : update_menu_item (MenuItem.id row) upd db = (Raise IntegrityError, db)).
  { unfold update_menu_item. rewrite E, setattr_item_dict. unfold flush_item.
    cbn [MenuItem.id].
    destruct (supplied_or_prior _ _) as [key|]; [|reflexivity].
    match goal with
    | |- context [update_row ?p ?new (menu_item db)] =>
        destruct (update_row_first p new _ E) as [before [after [Hrows Hupd]]];
        rewrite Hupd
    end.
    unfold commit, constraints_hold, with_menu_item. rewrite Hfk.
    cbn [menu_item menu_category order_item negb orb].
    rewrite (@references_missing (MenuItemSchema.category_id upd)).
    - now rewrite !andb_false_r.
    - rewrite !map_app. apply in_or_app. right. apply in_or_app. right. now left.
    - intros Hin. apply in_map_iff in Hin. destruct Hin as [c [Hc Hin]].
      now apply (Hnone c Hin). }
  rewrite U. split; reflexivity.
Qed.

(** ** Authentication *)


(** X10: a token whose sub is the id of no stored user (the user was
    removed after the token was issued, say) is answered 401 with the
    detail "Invalid token": the "User not found" raised inside the try
    block is caught by its except clause and never reaches the caller. *)
Theorem get_current_user_unknown_user (alg : string) (payload : Claims) (signature : Z)
  (user_id : string) (uid : Z) (db : Database) (now : Z) :
  sub payload = Some user_id ->
  py_int user_id = Ok uid ->
  (forall u, In u (manager_user db) -> ManagerUser.id u <> uid) ->
  get_current_user (Signed alg payload signature) db now
  = Raise (HTTPException 401 "Invalid token")
  /\ forall token, get_current_user token db now
                   <> Raise (HTTPException 401 "User not found").
Proof.
  intros Hs Hp Hnone. split.
  - unfold get_current_user, try_except.
    destruct (jwt_decode _ _ _) as [payload'|e] eqn:D; [|reflexivity].
    assert (payload' = payload) as ->.
    { unfold jwt_decode in D.
      destruct (negb _); [discriminate|]. destruct (negb _); [discriminate|].
      destruct (exp payload) as [e|]; [destruct (e <=? now); [discriminate|]|];
        now injection D as <-. }
    cbn [bind]. rewrite Hs, Hp. cbn [bind].
    replace (first _) with (@None ManagerUser.t); [reflexivity|].
    symmetry. apply first_filter_none. intros u Hu. apply Z.eqb_neq. now apply Hnone.
  - intros token G. apply get_current_user_raises in G. discriminate G.
Qed.

(** X11: login issues a token only for a stored user whose username and
    stored credential are the ones supplied, and the token is the HS256
    token under JWT_SECRET of exactly three claims: the decimal id of that
    user as sub, the user's role, and an exp twelve hours after the call. *)
Theorem login_sound (username password : string) (db : Database) (now : Z)
  (token : Token.t) :
  login username password db now = Ok token ->
  exists user,
    In user (manager_user db)
    /\ ManagerUser.username user = username
    /\ ManagerUser.password_hash user = password
    /\ Token.access_token token
       = jwt_encode {| sub := Some (py_str (ManagerUser.id user));
                       role := Some (ManagerUser.role user);
                       exp := Some (now + 12 * 3600) |}
                    JWT_SECRET.
Proof.
  unfold login.
  destruct (first _) as [user|] eqn:F; [|discriminate].
  destruct (String.eqb (ManagerUser.password_hash user) password) eqn:P; [|discriminate].
  intros [= <-]. destruct (first_filter_some _ _ F) as [Hin Hname].
  apply String.eqb_eq in Hname, P. exists user. repeat split; auto.
Qed.

(** X12: login followed by GET /auth/me.  With usernames and ids unique, a
    stored user who logs in with her credential and presents the token
    within twelve hours is answered 200 with her own id, her own username
    and her role as the single element of roles; neither request changes
    the database. *)
Theorem login_then_me (db : Database) (user : ManagerUser.t) (now later : Z) :
  In user (manager_user db) ->
  NoDup (map ManagerUser.username (manager_user db)) ->
  NoDup (map ManagerUser.id (manager_user db)) ->
  later < now + expires_delta_default ->
  exists token,
    app (POST_auth_login (ManagerUser.username user) (ManagerUser.password_hash user))
        None db now
    = (mkResponse 200 (JToken {| Token.access_token := token |}), db)
    /\ app GET_auth_me (Some token) db later
       = (mkResponse 200
            (JUserMe {| UserMe.id := ManagerUser.id user;
                        UserMe.username := ManagerUser.username user;
                        UserMe.roles := [ManagerUser.role user] |}),
          db).
Proof.
  intros Hin Hnames Hids Hlater.
  eexists. split.
  - unfold app, route, login.
    rewrite (first_filter_unique ManagerUser.username String.eqb String.eqb_eq _ _ Hnames Hin).
    rewrite String.eqb_refl. reflexivity.
  - unfold app, route, Depends_get_current_user, oauth2_scheme. cbn [bind].
    unfold get_current_user, create_access_token.
    rewrite jwt_decode_encode by (simpl; intros e [= <-]; exact Hlater).
    cbn [bind try_except sub]. rewrite py_int_py_str. cbn [bind].
    rewrite (first_filter_unique ManagerUser.id Z.eqb Z.eqb_eq _ _ Hids Hin).
    reflexivity.
Qed.

(** X13: what /debug-secret gives away.  The route answers anyone with the
    JWT_SECRET of the environment, and when that variable is set it is the
    signing key: a token made by the caller with that key, carrying the id
    of any stored user and no exp, resolves to a user with that id at every
    later time, without any login. *)
Theorem debug_secret_forges_tokens (secret : string) (db : Database)
  (user : ManagerUser.t) (forged_role : option string) :
  env_JWT_SECRET = Some secret ->
  In user (manager_user db) ->
  (forall authorization now,
      app GET_debug_secret authorization db now
      = (mkResponse 200 (JSecret (Some secret)), db))
  /\ forall later,
       exists resolved,
         get_current_user
           (jwt_encode {| sub := Some (py_str (ManagerUser.id user));
                          role := forged_role;
                          exp := None |} secret)
           db later = Ok resolved
         /\ ManagerUser.id resolved = ManagerUser.id user.
Proof.
  intros Henv Hin. split.
  - intros authorization now. unfold app, route, debug_secret. now rewrite Henv.
  - intros later.
    destruct (first_filter_exists (fun u => ManagerUser.id u =? ManagerUser.id user)
                (manager_user db) user Hin (Z.eqb_refl _)) as [resolved Hres].
    exists resolved.
    destruct (first_filter_some _ _ Hres) as [_ Hid]. apply Z.eqb_eq in Hid.
    split; [|exact Hid].
    unfold get_current_user.
    replace JWT_SECRET with secret by (unfold JWT_SECRET; now rewrite Henv).
    rewrite jwt_decode_encode by (simpl; intros e [=]).
    cbn [bind try_except sub]. rewrite py_int_py_str. cbn [bind]. now rewrite Hres.
Qed.

(** X14: no role is checked.  Except for /auth/me, which reports the user,
    the response to a request and the database after it are the same
    whichever stored users two accepted tokens resolve to. *)
Theorem response_independent_of_user (req : Request) (authorization authorization' : option JWT)
  (db : Database) (now : Z) (user user' : ManagerUser.t) :
  req <> GET_auth_me ->
  (token <- oauth2_scheme authorization ;; get_current_user token db now) = Ok user ->
  (token <- oauth2_scheme authorization' ;; get_current_user token db now) = Ok user' ->
  app req authorization db now = app req authorization' db now.
Proof.
  intros Hreq H H'.
  destruct req; try (now destruct Hreq);
    unfold app, route, Depends_get_current_user; rewrite ?H, ?H'; reflexivity.
Qed.

(** ** The API surface *)

Lemma reads_kept_refl (db : Database) : reads_kept db db.
Proof. repeat split. Qed.

Lemma reads_kept_commit_category (rows rows' : list MenuCategory.t) (seq seq' : Z)
  (db : Database) (A : Type) (ok : A) :
  reads_kept db
    (snd (match commit (with_menu_category rows seq db) with
          | Ok db' => (Ok ok, db')
          | Raise e => (Raise e, with_menu_category rows' seq' db)
          end)).
Proof.
  destruct (commit_cases (with_menu_category rows seq db)) as [C|C]; rewrite C;
    repeat split.
Qed.

Lemma reads_kept_commit_item (rows rows' : list MenuItem.t) (seq seq' : Z)
  (db : Database) (A : Type) (ok : A) :
  reads_kept db
    (snd (match commit (with_menu_item rows seq db) with
          | Ok db' => (Ok ok, db')
          | Raise e => (Raise e, with_menu_item rows' seq' db)
          end)).
Proof.
  destruct (commit_cases (with_menu_item rows seq db)) as [C|C]; rewrite C;
    repeat split.
Qed.

Lemma reads_kept_flush_category (old : Z) (o : MenuCategory.obj) (db : Database) :
  reads_kept db (snd (flush_category old o db)).
Proof.
  unfold flush_category. destruct (MenuCategory.id o); [|apply reads_kept_refl].
  match goal with
  | |- context [commit ?p] => destruct (commit_cases p) as [C|C]; rewrite C
  end; repeat split.
Qed.

Lemma reads_kept_flush_item (old : Z) (o : MenuItem.obj) (db : Database) :
  reads_kept db (snd (flush_item old o db)).
Proof.
  unfold flush_item. destruct (MenuItem.id o); [|apply reads_kept_refl].
  match goal with
  | |- context [commit ?p] => destruct (commit_cases p) as [C|C]; rewrite C
  end; repeat split.
Qed.

(** X15: whatever the request, its parameters and its token, the tables
    manager_user, orders, order_item and order_event_log are after the
    request what they were before: the application writes to menu_category
    and menu_item only. *)
Theorem app_writes_menu_tables_only (req : Request) (authorization : option JWT)
  (db : Database) (now : Z) :
  manager_user (snd (app req authorization db now)) = manager_user db
  /\ orders (snd (app req authorization db now)) = orders db
  /\ order_item (snd (app req authorization db now)) = order_item db
  /\ order_event_log (snd (app req authorization db now)) = order_event_log db.
Proof.
  change (reads_kept db (snd (app req authorization db now))).
  unfold app. cbn [snd].
  destruct req; unfold route, Depends_get_current_user;
    try apply reads_kept_refl;
    destruct (bind _ _) as [current_user|e]; try apply reads_kept_refl;
    unfold Body, returns; cbn [snd];
    try (match goal with
         | |- context [validate_MenuCategorySchema ?b] =>
             destruct (validate_MenuCategorySchema b)
         | |- context [validate_MenuItemSchema ?b] =>
             destruct (validate_MenuItemSchema b)
         end; cbn [snd]; try apply reads_kept_refl).
  - unfold add_category, insert_category. apply reads_kept_commit_category.
  - unfold update_category. destruct (first _); [|apply reads_kept_refl].
    apply reads_kept_flush_category.
  - unfold delete_category. destruct (first _); [|apply reads_kept_refl].
    match goal with
    | |- context [commit ?p] => destruct (commit_cases p) as [C|C]; rewrite C
    end; repeat split.
  - unfold add_menu_item, insert_item. apply reads_kept_commit_item.
  - unfold update_menu_item. destruct (first _); [|apply reads_kept_refl].
    apply reads_kept_flush_item.
  - unfold delete_menu_item. destruct (first _); [|apply reads_kept_refl].
    match goal with
    | |- context [commit ?p] => destruct (commit_cases p) as [C|C]; rewrite C
    end; repeat split.
  - unfold block_menu_item. destruct (first _); [|apply reads_kept_refl].
    match goal with
    | |- context [flush_item ?old ?o db] =>
        pose proof (reads_kept_flush_item old o db) as K;
        destruct (flush_item old o db) as [[r|e] db']
    end; exact K.
Qed.

(** ** Order reporting and statistics *)

Lemma truthy_nonempty (s : string) : s <> "" -> truthy (Some s) = true.
Proof.
  intros H. apply truthy_spec. eauto.
Qed.

(** One optional date bound either filters or fails with a DataError. *)
Lemma date_bound_cases {A : Type} (bound : option string) (cmp : Z -> A -> bool)
  (q : list A) :
  (exists q', (if truthy bound
               then t <- timestamp_literal (value bound) ;; Ok (filter (cmp t) q)
               else Ok q) = Ok q')
  \/ (if truthy bound
      then t <- timestamp_literal (value bound) ;; Ok (filter (cmp t) q)
      else Ok q) = Raise DataError.
Proof.
  destruct (truthy bound); [|left; eauto].
  unfold timestamp_literal.
  destruct (timestamp_in (value bound)); cbn [bind]; [left; eauto | now right].
Qed.

(** X16: the date parameters are handed to the engine as they come.  A
    date_from or date_to that is not empty and that the engine does not
    accept as a timestamp makes listOrders and topMenuItems fail with a
    DataError, which is answered 500 (not 422); so does a date that the
    engine does not accept as a date for dailyOrderStats. *)
Theorem rejected_date_literal_is_a_server_error (db : Database) (now : Z) :
  (forall status date_from date_to,
      (exists s, date_from = Some s /\ s <> "" /\ timestamp_in s = None)
      \/ (exists s, date_to = Some s /\ s <> "" /\ timestamp_in s = None) ->
      get_orders status date_from date_to db = Raise DataError
      /\ top_menu_items date_from date_to db = Raise DataError)
  /\ (forall s, s <> "" -> date_in s = None ->
                orders_daily (Some s) db now = Raise DataError)
  /\ (forall A (f : A -> Content),
         respond (fmap f (Raise DataError)) = mkResponse 500 Internal_Server_Error).
Proof.
  split; [|split].
  - intros status date_from date_to [[s [-> [Hs P]]] | [s [-> [Hs P]]]].
    + unfold get_orders, top_menu_items. rewrite (truthy_nonempty Hs).
      unfold timestamp_literal, value. rewrite P. split; reflexivity.
    + unfold get_orders, top_menu_items. split.
      * match goal with
        | |- bind ?stage _ = _ =>
            assert (C : (exists q', stage = Ok q') \/ stage = Raise DataError)
              by apply date_bound_cases;
            destruct C as [[q' ->] | ->]; [|reflexivity]
        end.
        cbn [bind]. rewrite (truthy_nonempty Hs).
        unfold timestamp_literal, value. now rewrite P.
      * match goal with
        | |- bind ?stage _ = _ =>
            assert (C : (exists q', stage = Ok q') \/ stage = Raise DataError)
              by apply date_bound_cases;
            destruct C as [[q' ->] | ->]; [|reflexivity]
        end.
        cbn [bind]. rewrite (truthy_nonempty Hs).
        unfold timestamp_literal, value. now rewrite P.
  - intros s Hs P. unfold orders_daily. rewrite (truthy_nonempty Hs).
    unfold date_literal, value. now rewrite P.
  - reflexivity.
Qed.

(** X17: what getOrderDetails returns when it does return, with nothing
    assumed of the data.  The event log then holds no row for the order (a
    logged event makes the handler fail) and the events returned are none;
    the items are exactly the pairs of a line item of the order and a menu
    item with the id the line item names, so a line item that names no
    stored menu item is left out without any error. *)
Theorem get_order_details_lists_joined_rows (order_id : Z) (db : Database)
  (details : OrderDetailsSchema.t) :
  get_order_details order_id db = Ok details ->
  (forall e, In e (order_event_log db) -> OrderEventLog.order_id e <> order_id)
  /\ OrderDetailsSchema.events details = []
  /\ (forall item,
         In item (OrderDetailsSchema.items details) <->
         exists oi mi,
           In oi (order_item db) /\ In mi (menu_item db)
           /\ OrderItem.order_id oi = order_id
           /\ MenuItem.id mi = OrderItem.menu_item_id oi
           /\ item = OrderItemSchema.mk (OrderItem.id oi) (OrderItem.menu_item_id oi)
                                        (MenuItem.name_pl mi) (OrderItem.quantity oi)).
Proof.
  unfold get_order_details.
  destruct (first _) as [order|]; [|discriminate].
  rewrite from_orm_comprehension.
  destruct (filter (fun e => OrderEventLog.order_id e =? order_id) (order_event_log db))
    as [|e' rest] eqn:L; [|discriminate].
  cbn [bind]. intros [= <-].
  cbn [OrderDetailsSchema.items OrderDetailsSchema.events].
  split; [|split; [reflexivity|]].
  - intros e He Hid.
    assert (H : In e (filter (fun e => OrderEventLog.order_id e =? order_id)
                             (order_event_log db)))
      by (apply filter_In; split; [exact He | now apply Z.eqb_eq]).
    rewrite L in H. destruct H.
  - intros item. rewrite in_map_iff. split.
    + intros [[oi mi] [Hitem Hrow]]. apply filter_In in Hrow.
      destruct Hrow as [Hrow Hid]. apply in_join in Hrow.
      destruct Hrow as [Hoi [Hmi Hon]]. cbn in Hid, Hitem.
      apply Z.eqb_eq in Hid, Hon. exists oi, mi. repeat split; auto.
    + intros [oi [mi [Hoi [Hmi [Hid [Hon ->]]]]]].
      exists (oi, mi). split; [reflexivity|].
      apply filter_In. split; [|cbn; now apply Z.eqb_eq].
      apply in_join. repeat split; auto. apply Z.eqb_eq. now symmetry.
Qed.

(** A date bound that did not fail was absent, empty or accepted. *)
Lemma date_bound_accepted {A : Type} (bound : option string) (cmp : Z -> A -> bool)
  (q q' : list A) :
  (if truthy bound
   then t <- timestamp_literal (value bound) ;; Ok (filter (cmp t) q)
   else Ok q) = Ok q' ->
  forall s, bound = Some s -> s <> "" -> timestamp_in s <> None.
Proof.
  intros H s -> Hs P. rewrite (truthy_nonempty Hs) in H.
  unfold timestamp_literal, value in H. rewrite P in H. discriminate H.
Qed.

(** X18: topMenuItems lists sold items only.  Every entry of a result is the
    id and name_pl of a stored menu item that some line item names, in an
    order whose created_at lies within the supplied non-empty bounds; a menu
    item with no such line item is not listed (not even with a count of
    zero), and with no line items at all the result is the empty list. *)
Theorem top_menu_items_lists_sold_items_only (date_from date_to : option string)
  (db : Database) (rows : list ((Z * string) * Z)) :
  top_menu_items date_from date_to db = Ok rows ->
  (forall key sold,
      In (key, sold) rows ->
      exists mi oi o,
        In mi (menu_item db) /\ In oi (order_item db) /\ In o (orders db)
        /\ OrderItem.menu_item_id oi = MenuItem.id mi
        /\ OrderItem.order_id oi = Order.id o
        /\ key = (MenuItem.id mi, MenuItem.name_pl mi)
        /\ (forall s lo, date_from = Some s -> s <> "" -> timestamp_in s = Some lo ->
                         lo <= Order.created_at o)
        /\ (forall s hi, date_to = Some s -> s <> "" -> timestamp_in s = Some hi ->
                         Order.created_at o <= hi))
  /\ (order_item db = [] -> rows = []).
Proof.
  unfold top_menu_items. intros H.
  destruct (date_bound_cases date_from
              (fun lo (row : (MenuItem.t * OrderItem.t) * Order.t) =>
                 lo <=? Order.created_at (snd row)) (sold_rows db))
    as [[q1 H1] | H1]; [|rewrite H1 in H; discriminate H].
  pose proof (@date_bound_accepted _ _ _ _ _ H1) as Hfrom.
  destruct (date_bound_filter
              (fun row : (MenuItem.t * OrderItem.t) * Order.t => snd row)
              (fun lo o => lo <=? Order.created_at o) (sold_rows db) Hfrom)
    as [from [E1 Hfrom']].
  rewrite E1 in H. cbn [bind] in H.
  destruct (date_bound_cases date_to
              (fun hi (row : (MenuItem.t * OrderItem.t) * Order.t) =>
                 Order.created_at (snd row) <=? hi)
              (filter (fun r => from (snd r)) (sold_rows db)))
    as [[q2 H2] | H2]; [|rewrite H2 in H; discriminate H].
  pose proof (@date_bound_accepted _ _ _ _ _ H2) as Hto.
  destruct (date_bound_filter
              (fun row : (MenuItem.t * OrderItem.t) * Order.t => snd row)
              (fun hi o => Order.created_at o <=? hi)
              (filter (fun r => from (snd r)) (sold_rows db)) Hto)
    as [to [E2 Hto']].
  rewrite E2 in H. cbn [bind] in H. injection H as <-.
  split.
  - intros key sold Hin.
    destruct (limit_descending 10 (order_by_desc_descending
                (group_by_sum key_eqb
                   (map (fun row : (MenuItem.t * OrderItem.t) * Order.t =>
                           let mi := fst (fst row) in
                           let oi := snd (fst row) in
                           ((MenuItem.id mi, MenuItem.name_pl mi), OrderItem.quantity oi))
                        (filter (fun r => to (snd r))
                                (filter (fun r => from (snd r)) (sold_rows db)))))))
      as [_ [_ [Hsub _]]].
    apply Hsub in Hin.
    apply (Permutation_in _ (order_by_desc_perm _)) in Hin.
    apply (group_by_sum_spec key_eqb key_eqb_eq) in Hin. destruct Hin as [Hk _].
    rewrite map_map in Hk. apply in_map_iff in Hk.
    destruct Hk as [[[mi oi] o] [Hkey Hrow]]. cbn in Hkey.
    apply filter_In in Hrow. destruct Hrow as [Hrow Hto_o].
    apply filter_In in Hrow. destruct Hrow as [Hrow Hfrom_o].
    cbn in Hto_o, Hfrom_o.
    unfold sold_rows in Hrow. apply in_join in Hrow.
    destruct Hrow as [Hpair [Ho Hon2]]. apply in_join in Hpair.
    destruct Hpair as [Hmi [Hoi Hon1]]. cbn in Hon2.
    apply Z.eqb_eq in Hon1, Hon2.
    exists mi, oi, o. repeat split; auto.
    + intros s lo Es Hs P. apply Z.leb_le. exact (proj1 (Hfrom' o) Hfrom_o s lo Es Hs P).
    + intros s hi Es Hs P. apply Z.leb_le. exact (proj1 (Hto' o) Hto_o s hi Es Hs P).
  - intros Hempty. unfold sold_rows, join. rewrite Hempty. cbn [filter map].
    replace (flat_map _ (menu_item db)) with (@nil (MenuItem.t * OrderItem.t)).
    + reflexivity.
    + induction (menu_item db) as [|mi mis IH]; [reflexivity | exact IH].
Qed.

Lemma total_of_ones {A : Type} (key : A -> string) (t : string) (rows : list A) :
  total String.eqb t (map (fun r => (key r, 1)) rows)
  = Z.of_nat (List.length (filter (fun r => String.eqb (key r) t) rows)).
Proof.
  unfold total. rewrite filter_map_comm, map_map. cbn [fst snd].
  induction (filter _ rows) as [|r rs IH]; [reflexivity|].
  cbn [map sumZ fold_right List.length]. fold (sumZ (map (fun _ : A => 1) rs)).
  rewrite IH. lia.
Qed.

(** X19: dailyOrderStats, for the day it settles on (the supplied date when
    it is not empty and the engine accepts it, the current UTC day
    otherwise): one entry per terminal with at least one log row whose
    event_type is "ready" and whose timestamp falls on that day, its count
    being the number of those rows; and the empty list, not an error, when
    no "ready" event falls on the day. *)
Theorem orders_daily_counts_ready_events (date : option string) (db : Database)
  (now day : Z) :
  (if truthy date then date_in (value date) else Some (func_date now)) = Some day ->
  exists terminal_stats,
    orders_daily date db now = Ok terminal_stats
    /\ NoDup (map fst terminal_stats)
    /\ (forall terminal count,
           In (terminal, count) terminal_stats <->
           0 < count /\ count = ready_count day terminal db)
    /\ ((forall e, In e (order_event_log db) ->
                   OrderEventLog.event_type e = "ready" ->
                   func_date (OrderEventLog.timestamp e) <> day) ->
        terminal_stats = []).
Proof.
  intros Hday. unfold orders_daily.
  assert (Hd : (if truthy date then date_literal (value date) else Ok (func_date now))
               = Ok day).
  { destruct (truthy date); [|now injection Hday as ->].
    unfold date_literal. now rewrite Hday. }
  rewrite Hd. cbn [bind].
  set (ready := filter (fun e => func_date (OrderEventLog.timestamp e) =? day)
                  (filter (fun e => String.eqb (OrderEventLog.event_type e) "ready")
                          (order_event_log db))).
  destruct (group_by_sum_spec String.eqb String.eqb_eq
              (map (fun e => (OrderEventLog.terminal_name e, 1)) ready))
    as [Hnd Hgroups].
  assert (Hcount : forall terminal,
             total String.eqb terminal
                   (map (fun e => (OrderEventLog.terminal_name e, 1)) ready)
             = ready_count day terminal db).
  { intros terminal. rewrite total_of_ones. unfold ready_count, ready.
    rewrite !filter_twice. do 2 f_equal. apply filter_ext.
    intros e. now rewrite andb_assoc. }
  assert (Hpos : forall terminal,
             In terminal (map fst (map (fun e => (OrderEventLog.terminal_name e, 1)) ready))
             <-> 0 < ready_count day terminal db).
  { intros terminal. rewrite <- Hcount, total_of_ones, map_map. cbn [fst]. split.
    - intros Hin. apply in_map_iff in Hin. destruct Hin as [e [<- He]].
      assert (X : In e (filter (fun r => String.eqb (OrderEventLog.terminal_name r)
                                                    (OrderEventLog.terminal_name e)) ready))
        by (apply filter_In; split; [exact He | apply String.eqb_refl]).
      destruct (filter _ ready); [destruct X | cbn [List.length]; lia].
    - intros Hlen.
      destruct (filter (fun r => String.eqb (OrderEventLog.terminal_name r) terminal) ready)
        as [|e rest] eqn:F; [cbn in Hlen; lia|].
      assert (X : In e (filter (fun r => String.eqb (OrderEventLog.terminal_name r) terminal)
                               ready)) by (rewrite F; now left).
      apply filter_In in X. destruct X as [He Ht]. apply String.eqb_eq in Ht.
      apply in_map_iff. eauto. }
  eexists. split; [reflexivity|]. split; [exact Hnd|]. split.
  - intros terminal count. rewrite Hgroups, Hcount, Hpos. split.
    + intros [H1 ->]. auto.
    + intros [H1 ->]. auto.
  - intros Hnone. replace ready with (@nil OrderEventLog.t); [reflexivity|].
    symmetry. unfold ready. rewrite filter_twice.
    apply filter_none. intros e He.
    destruct (String.eqb (OrderEventLog.event_type e) "ready") eqn:R; [|reflexivity].
    apply String.eqb_eq in R. cbn [andb]. apply Z.eqb_neq. now apply Hnone.
Qed.

End App.

(** * The sample restaurant

    The properties above at concrete inputs, and inputs at which statements
    one might expect of the application do not hold.  The application is
    run with the sample MAC, no JWT_SECRET in the environment, integer
    literals as timestamps, and a reachable database. *)

Abbreviation sample_app fk :=
  (app sample_HS256 None fk sample_timestamp_in sample_timestamp_in None).

Lemma sample_usernames_unique :
  NoDup (map ManagerUser.username (manager_user sample_db)).
Proof.
  repeat constructor. intros [].
Qed.

Lemma sample_menu_item_ids_unique :
  NoDup (map (@MenuItem.id Z) (menu_item sample_db)).
Proof.
  repeat constructor; simpl; intuition discriminate.
Qed.

Lemma sample_order_ids_unique : NoDup (map Order.id (orders sample_db)).
Proof.
  repeat constructor; simpl; intuition discriminate.
Qed.

Lemma sample_line_items_resolve (oi : OrderItem.t) :
  In oi (order_item sample_db) ->
  exists mi, In mi (menu_item sample_db) /\ MenuItem.id mi = OrderItem.menu_item_id oi.
Proof.
  simpl. intros [<-|[<-|[<-|[<-|[]]]]]; simpl; eauto 6.
Qed.

Example sample_login :
  login sample_HS256 None "anna" "tajne" sample_db 0
  = Ok {| Token.access_token := sample_token |}.
Proof. reflexivity. Qed.

Example sample_resolve :
  get_current_user sample_HS256 None sample_token sample_db 43199 = Ok anna.
Proof. reflexivity. Qed.

Example sample_me :
  sample_app true GET_auth_me (Some sample_token) sample_db 3600
  = (mkResponse 200 (JUserMe (UserMe.mk 1 "anna" ["manager"])), sample_db).
Proof. reflexivity. Qed.

(** The first sample order has events, the handler fails on them; before
    any event is logged the order is returned. *)
Example sample_order_details :
  get_order_details 1 sample_db = Raise ConfigError
  /\ get_order_details 1 unlogged_db
     = Ok {| OrderDetailsSchema.order := order_1;
             OrderDetailsSchema.items :=
               [OrderItemSchema.mk 1 1 "Zurek" 2; OrderItemSchema.mk 2 2 "Rosol" 9];
             OrderDetailsSchema.events := [] |}.
Proof. split; reflexivity. Qed.

(** [int] reads more than the decimal numeral [str] writes. *)
Example sample_resolve_signed_sub :
  let payload := {| sub := Some " +0_1 "; role := Some "manager"; exp := Some 43200 |} in
  get_current_user sample_HS256 None
    (Signed JWT_ALGORITHM payload (sample_HS256 "supersecretjwt" payload))
    sample_db 0
  = Ok anna.
Proof. reflexivity. Qed.

(** Zurek sold 2 + 3 = 5, Rosol 9, Barszcz 2: Rosol, Zurek, Barszcz. *)
Example sample_top_menu_items :
  top_menu_items sample_timestamp_in None None sample_db
  = Ok [((2, "Rosol"), 9); ((1, "Zurek"), 5); ((3, "Barszcz"), 2)].
Proof. reflexivity. Qed.

Example sample_top_menu_items_in_range :
  top_menu_items sample_timestamp_in (Some "1500") (Some "2000") sample_db
  = Ok [((1, "Zurek"), 3); ((3, "Barszcz"), 2)].
Proof. reflexivity. Qed.

Example sample_orders_ready :
  get_orders sample_timestamp_in (Some "ready") None None sample_db = Ok [order_1]
  /\ get_orders sample_timestamp_in (Some "Ready") None None sample_db = Ok [].
Proof. split; reflexivity. Qed.

(** Witness of C1: [anna] logs in at time 0 and resolves her token an hour
    later. *)
Lemma login_then_resolve_same_id_witness :
  exists token resolved,
    login sample_HS256 None "anna" "tajne" sample_db 0
    = Ok {| Token.access_token := token |}
    /\ get_current_user sample_HS256 None token sample_db 3600 = Ok resolved
    /\ In resolved (manager_user sample_db)
    /\ ManagerUser.id resolved = 1.
Proof.
  apply (@login_then_resolve_same_id sample_HS256 None sample_db anna 0 3600).
  - simpl. auto.
  - exact sample_usernames_unique.
  - reflexivity.
Defined.

(** The claim of C2 as stated, with two open endpoints besides login, fails:
    whichever two endpoints are set aside, a request to some other endpoint
    that is not login is answered without any token. *)
Lemma more_than_two_open_routes :
  ~ (exists open1 open2 : Endpoint.t,
        forall req,
          endpoint req <> Endpoint.login ->
          endpoint req <> open1 ->
          endpoint req <> open2 ->
          status_code (fst (sample_app true req None sample_db 0)) = 401).
Proof.
  intros [open1 [open2 H]].
  pose proof (H GET_test_db ltac:(discriminate)) as H1.
  pose proof (H GET_hello_debug ltac:(discriminate)) as H2.
  pose proof (H GET_debug_secret ltac:(discriminate)) as H3.
  cbn in H1, H2, H3.
  destruct open1;
    try (specialize (H1 ltac:(discriminate)));
    try (specialize (H2 ltac:(discriminate)));
    try (specialize (H3 ltac:(discriminate)));
    destruct open2;
    try (specialize (H1 ltac:(discriminate)); discriminate H1);
    try (specialize (H2 ltac:(discriminate)); discriminate H2);
    try (specialize (H3 ltac:(discriminate)); discriminate H3).
Qed.

(** Witness of C2: listing the orders without an Authorization header. *)
Lemma protected_routes_require_user_witness :
  exists detail,
    sample_app true (GET_orders None None None) None sample_db 0
    = (mkResponse 401 (JDetail detail), sample_db).
Proof.
  apply (@protected_routes_require_user sample_HS256 None true sample_timestamp_in
           sample_timestamp_in None (GET_orders None None None) None sample_db 0
           (HTTPException 401 "Not authenticated")).
  - reflexivity.
  - reflexivity.
Defined.

(** Witness of C3: an unknown user and a wrong credential get the same
    error. *)
Lemma login_failure_is_uniform_witness :
  login sample_HS256 None "ewa" "tajne" sample_db 0
  = Raise (HTTPException 400 "Invalid credentials")
  /\ login sample_HS256 None "anna" "haslo" sample_db 0
     = Raise (HTTPException 400 "Invalid credentials").
Proof.
  split.
  - apply (@login_failure_is_uniform sample_HS256 None true sample_timestamp_in
             sample_timestamp_in None sample_db "ewa" "tajne" 0).
    left. simpl. intros u [<-|[]]. discriminate.
  - apply (@login_failure_is_uniform sample_HS256 None true sample_timestamp_in
             sample_timestamp_in None sample_db "anna" "haslo" 0).
    right. exists anna. split; [reflexivity | discriminate].
Defined.

(** Witness of C4: [anna]'s token at the second it expires. *)
Lemma expired_token_is_unauthorized_witness :
  get_current_user sample_HS256 None sample_token sample_db 43200
  = Raise (HTTPException 401 "Invalid token").
Proof.
  apply (@expired_token_is_unauthorized sample_HS256 None JWT_ALGORITHM
           {| sub := Some "1"; role := Some "manager"; exp := Some 43200 |}
           _ 43200 sample_db 43200).
  - reflexivity.
  - lia.
Defined.

(** The claim of C5 as stated fails: a create naming category 99, which
    does not exist, is not answered with a validation error.  Where foreign
    keys are enforced the answer is 500 and only the sequence has moved;
    where they are not, the row is inserted with the dangling reference. *)
Lemma create_with_unknown_category_is_not_validated :
  validate_MenuItemSchema pierogi_body <> None
  /\ (forall c, In c (menu_category sample_db) -> MenuCategory.id c <> 99)
  /\ sample_app true (POST_menu_items pierogi_body) (Some sample_token) sample_db 0
     = (mkResponse 500 Internal_Server_Error,
        with_menu_item (menu_item sample_db) 4 sample_db)
  /\ sample_app false (POST_menu_items pierogi_body) (Some sample_token) sample_db 0
     = (mkResponse 200
          (JItem (MenuItem.mk 4 99 "Pierogi" "Dumplings" 2400 None (Some true))),
        with_menu_item
          (menu_item sample_db
             ++ [MenuItem.mk 4 99 "Pierogi" "Dumplings" 2400 None (Some true)])
          4 sample_db).
Proof.
  split; [discriminate|].
  split; [simpl; intros c [<-|[]]; discriminate|].
  split; reflexivity.
Qed.

(** Witness of C5: the same create at the handler, foreign keys enforced. *)
Lemma add_menu_item_unknown_category_witness :
  fst (add_menu_item true
         (MenuItemSchema.mk None 99 "Pierogi" "Dumplings" 2400 None None) sample_db)
  = Raise IntegrityError
  /\ menu_item (snd (add_menu_item true
                       (MenuItemSchema.mk None 99 "Pierogi" "Dumplings" 2400 None None)
                       sample_db))
     = menu_item sample_db.
Proof.
  destruct (@add_menu_item_unknown_category true
              (MenuItemSchema.mk None 99 "Pierogi" "Dumplings" 2400 None None)
              sample_db eq_refl) as [H1 [_ [H2 _]]].
  - simpl. intros c [<-|[]]. discriminate.
  - split; assumption.
Defined.

(** The claim of C6 as stated fails: a body that supplies a new name_pl and
    nothing else does not change name_pl; it is answered with 422 and the
    category keeps its name. *)
Lemma partial_body_without_required_fields_is_rejected :
  MenuCategoryBody.name_pl rename_body = Some (Some "Zupy dnia")
  /\ first (filter (fun c => MenuCategory.id c =? 1) (menu_category sample_db))
     = Some zupy
  /\ MenuCategory.name_pl zupy <> "Zupy dnia"
  /\ sample_app true (PUT_menu_categories 1 rename_body) (Some sample_token) sample_db 0
     = (mkResponse 422 JValidationErrors, sample_db).
Proof.
  repeat split; try reflexivity. discriminate.
Qed.

(** Witness of C6: an update of Barszcz that supplies an image and leaves
    out id and is_available succeeds and keeps the item unavailable, the
    two other dishes staying as they were; and the partial body above. *)
Lemma partial_update_changes_supplied_fields_only_witness :
  fst (update_menu_item true 3 barszcz_upd sample_db)
  = Ok (MenuItem.mk 3 1 "Barszcz czerwony" "Red borscht" 1700 (Some "barszcz.png")
                    (Some false))
  /\ (exists rows,
        Permutation rows
          [dish_A; dish_B;
           MenuItem.mk 3 1 "Barszcz czerwony" "Red borscht" 1700 (Some "barszcz.png")
                       (Some false)]
        /\ snd (update_menu_item true 3 barszcz_upd sample_db)
           = with_menu_item rows 3 sample_db)
  /\ sample_app true (PUT_menu_categories 1 rename_body) (Some sample_token) sample_db 0
     = (mkResponse 422 JValidationErrors, sample_db).
Proof.
  pose proof (@partial_update_changes_supplied_fields_only sample_HS256 None true
                sample_timestamp_in sample_timestamp_in None) as [_ [Hitem [Hbody _]]].
  specialize (Hitem 3 barszcz_upd sample_db).
  change (first (filter (fun i => MenuItem.id i =? 3) (menu_item sample_db)))
    with (Some dish_C) in Hitem.
  cbv beta iota zeta in Hitem. destruct Hitem as [Hshape Hok].
  assert (Hfst : fst (update_menu_item true 3 barszcz_upd sample_db)
                 = Ok (MenuItem.mk 3 1 "Barszcz czerwony" "Red borscht" 1700
                                   (Some "barszcz.png") (Some false))).
  { apply Hok.
    - reflexivity.
    - reflexivity.
    - intros _. exists zupy. split; [now left | reflexivity]. }
  split; [exact Hfst|]. split.
  - destruct Hshape as [Hfail | [key [before [after [rows [Hkey [Hrows [Hperm Heq]]]]]]]].
    + rewrite Hfail in Hfst. discriminate Hfst.
    + injection Hkey as <-. exists rows. split; [|now rewrite Heq].
      rewrite Hperm. rewrite <- Permutation_middle.
      change [dish_A; dish_B;
              MenuItem.mk 3 1 "Barszcz czerwony" "Red borscht" 1700 (Some "barszcz.png")
                          (Some false)]
        with ([dish_A; dish_B]
                ++ [MenuItem.mk 3 1 "Barszcz czerwony" "Red borscht" 1700
                                (Some "barszcz.png") (Some false)]).
      rewrite <- Permutation_cons_append. apply perm_skip.
      assert (P : Permutation (dish_C :: before ++ after) (dish_C :: [dish_A; dish_B])).
      { assert (Pall : Permutation (menu_item sample_db) (before ++ dish_C :: after))
          by (rewrite Hrows; reflexivity).
        exact (Permutation_trans
                 (Permutation_trans (Permutation_middle before after dish_C)
                                    (Permutation_sym Pall))
                 (Permutation_sym (Permutation_cons_append [dish_A; dish_B] dish_C))). }
      exact (Permutation_cons_inv P).
  - apply (Hbody 1 rename_body (Some sample_token) sample_db 0 anna).
    + reflexivity.
    + right. reflexivity.
Defined.

(** Witness of C7: the first sample order has two line items and three
    events, and fetching it fails. *)
Lemma get_order_details_fails_on_logged_events_witness :
  List.length (filter (fun oi => OrderItem.order_id oi =? 1) (order_item sample_db))
  = 2%nat
  /\ List.length (filter (fun e => OrderEventLog.order_id e =? 1)
                         (order_event_log sample_db))
     = 3%nat
  /\ get_order_details 1 sample_db = Raise ConfigError
  /\ respond (fmap JOrderDetails (get_order_details 1 sample_db))
     = mkResponse 500 Internal_Server_Error.
Proof.
  split; [reflexivity|]. split; [reflexivity|].
  apply (proj1 (proj2 (get_order_details_fails_on_logged_events 1 sample_db))).
  - exists order_1. split; [simpl; auto | reflexivity].
  - exists (OrderEventLog.mk 1 1 "created" "kiosk-1" 1000 "new").
    split; [simpl; auto | reflexivity].
Defined.

(** The claim of C8 as stated fails: with status supplied as the empty
    string, orders whose status is not the empty string are returned. *)
Lemma empty_status_returns_orders_of_any_status :
  get_orders sample_timestamp_in (Some "") None None sample_db = Ok [order_1; order_2]
  /\ Order.status order_1 <> ""
  /\ Order.status order_2 <> "".
Proof.
  repeat split; try reflexivity; discriminate.
Qed.

(** Witness of C8: the ready orders created between 500 and 1500. *)
Lemma get_orders_returns_matching_orders_witness :
  exists keep,
    get_orders sample_timestamp_in (Some "ready") (Some "500") (Some "1500") sample_db
    = Ok (filter keep (orders sample_db))
    /\ keep order_1 = true
    /\ keep order_2 = false.
Proof.
  destruct (@get_orders_returns_matching_orders sample_timestamp_in (Some "ready")
              (Some "500") (Some "1500") sample_db) as [keep [E Hkeep]].
  - intros s [= <-] _. discriminate.
  - intros s [= <-] _. discriminate.
  - exists keep. split; [exact E|]. split.
    + apply Hkeep. repeat split.
      * intros s [= <-] _. reflexivity.
      * intros s lo [= <-] _ P. cbv in P. injection P as <-. simpl. lia.
      * intros s hi [= <-] _ P. cbv in P. injection P as <-. simpl. lia.
    + destruct (keep order_2) eqn:K; [|reflexivity].
      apply Hkeep in K. destruct K as [K _].
      specialize (K "ready" eq_refl ltac:(discriminate)). discriminate K.
Defined.

(** Witness of C9: the sample orders, all dates. *)
Lemma top_menu_items_returns_top_sold_witness :
  exists rows,
    top_menu_items sample_timestamp_in (Some "0") (Some "5000") sample_db = Ok rows
    /\ (List.length rows <= 10)%nat
    /\ descending rows
    /\ NoDup (map fst rows).
Proof.
  destruct (@top_menu_items_returns_top_sold sample_timestamp_in (Some "0") (Some "5000")
              sample_db sample_menu_item_ids_unique sample_order_ids_unique)
    as [rows [in_range [E [_ [Hlen [Hdesc [Hnd _]]]]]]].
  - intros s [= <-] _. discriminate.
  - intros s [= <-] _. discriminate.
  - exists rows. auto.
Defined.

(** ** The further properties at the sample restaurant *)

Lemma sample_constraints_hold (fk : bool) : constraints_hold fk sample_db = true.
Proof. destruct fk; reflexivity. Qed.

(** Witness of X2: the sample category still has its three dishes. *)
Lemma delete_category_with_items_witness :
  delete_category true 1 sample_db = (Raise IntegrityError, sample_db)
  /\ fst (delete_category false 1 sample_db) = Ok tt
  /\ menu_item (snd (delete_category false 1 sample_db)) = menu_item sample_db.
Proof.
  split.
  - apply (proj1 (@delete_category_with_items true 1 sample_db zupy dish_A
                    (sample_constraints_hold true) eq_refl (or_introl eq_refl) eq_refl)
                 eq_refl).
  - destruct (proj2 (@delete_category_with_items false 1 sample_db zupy dish_A
                       (sample_constraints_hold false) eq_refl (or_introl eq_refl) eq_refl)
                    eq_refl) as [H1 [H2 _]].
    split; assumption.
Defined.

(** Witness of X3: blocking Zurek, the first of the three dishes. *)
Lemma block_menu_item_sets_availability_witness :
  exists before after rows,
    menu_item sample_db = before ++ dish_A :: after
    /\ Permutation rows
         (before ++ MenuItem.mk 1 1 "Zurek" "Sour rye soup" 1800 None (Some false)
            :: after)
    /\ block_menu_item true 1 false sample_db
       = (Ok (Some false), with_menu_item rows 3 sample_db).
Proof.
  exact (@block_menu_item_sets_availability true 1 false sample_db
           (sample_constraints_hold true)).
Defined.

(** Witness of X4: a second category, its id drawn from the sequence. *)
Lemma add_category_then_lookup_witness :
  add_category true (MenuCategorySchema.mk None "Desery" "Desserts" None) sample_db
  = (Ok (MenuCategory.mk 2 "Desery" "Desserts" None),
     with_menu_category [zupy; MenuCategory.mk 2 "Desery" "Desserts" None] 2 sample_db)
  /\ first (filter (fun c => MenuCategory.id c =? 2)
                   (get_categories
                      (with_menu_category
                         [zupy; MenuCategory.mk 2 "Desery" "Desserts" None] 2 sample_db)))
     = Some (MenuCategory.mk 2 "Desery" "Desserts" None).
Proof.
  split; [reflexivity|].
  exact (proj1 (proj2 (proj2 (proj2 (proj2 (proj2 (proj2
           (@add_category_then_lookup true
              (MenuCategorySchema.mk None "Desery" "Desserts" None) sample_db
              _ _ eq_refl)))))))).
Defined.

(** Witness of X5: a create that asks for the id of the sample category. *)
Lemma add_category_duplicate_id_witness :
  fst (add_category true (MenuCategorySchema.mk (Some (Some 1)) "Desery" "Desserts" None)
         sample_db)
  = Raise IntegrityError.
Proof.
  apply (@add_category_duplicate_id true
           (MenuCategorySchema.mk (Some (Some 1)) "Desery" "Desserts" None)
           sample_db 1 eq_refl).
  exists zupy. split; [now left | reflexivity].
Defined.

(** Witness of X6: a new soup, blocked right away. *)
Lemma create_then_block_is_listed_witness :
  exists db2,
    block_menu_item true 4 false
      (with_menu_item
         (menu_item sample_db
            ++ [MenuItem.mk 4 1 "Krupnik" "Barley soup" 1400 None (Some true)])
         4 sample_db)
    = (Ok (Some false), db2)
    /\ In (MenuItem.mk 4 1 "Krupnik" "Barley soup" 1400 None (Some false))
          (get_menu_items db2).
Proof.
  destruct (@create_then_block_is_listed true
              (MenuItemSchema.mk None 1 "Krupnik" "Barley soup" 1400 None None)
              sample_db _ _ false eq_refl) as [db2 [H1 [H2 _]]].
  exists db2. split; [exact H1 | exact H2].
Defined.

(** Witness of X7: a create that gives is_available as null. *)
Lemma add_menu_item_then_listed_witness :
  get_menu_items
    (snd (add_menu_item true
            (MenuItemSchema.mk None 1 "Krupnik" "Barley soup" 1400 None (Some None))
            sample_db))
  = get_menu_items sample_db
      ++ [MenuItem.mk 4 1 "Krupnik" "Barley soup" 1400 None (Some true)].
Proof.
  exact (proj1 (@add_menu_item_then_listed true
                  (MenuItemSchema.mk None 1 "Krupnik" "Barley soup" 1400 None (Some None))
                  sample_db _ _ eq_refl)).
Defined.

(** Witness of X8: moving Zurek to a category that does not exist. *)
Lemma update_menu_item_unknown_category_witness :
  update_menu_item true 1
    (MenuItemSchema.mk None 99 "Zurek" "Sour rye soup" 1800 None None) sample_db
  = (Raise IntegrityError, sample_db).
Proof.
  apply (@update_menu_item_unknown_category true 1
           (MenuItemSchema.mk None 99 "Zurek" "Sour rye soup" 1800 None None)
           sample_db dish_A eq_refl eq_refl).
  simpl. intros c [<-|[]]. discriminate.
Defined.


(** Witness of X10: a token for user 7, who is not in the store. *)
Lemma get_current_user_unknown_user_witness :
  get_current_user sample_HS256 None
    (jwt_encode sample_HS256 {| sub := Some "7"; role := None; exp := None |}
                "supersecretjwt")
    sample_db 0
  = Raise (HTTPException 401 "Invalid token").
Proof.
  apply (@get_current_user_unknown_user sample_HS256 None JWT_ALGORITHM
           {| sub := Some "7"; role := None; exp := None |} _ "7" 7 sample_db 0
           eq_refl eq_refl).
  simpl. intros u [<-|[]]. discriminate.
Defined.

(** Witness of X11: the token of the sample login. *)
Lemma login_sound_witness :
  exists user,
    In user (manager_user sample_db)
    /\ ManagerUser.username user = "anna"
    /\ ManagerUser.password_hash user = "tajne"
    /\ sample_token
       = jwt_encode sample_HS256
           {| sub := Some (py_str (ManagerUser.id user));
              role := Some (ManagerUser.role user);
              exp := Some (0 + 12 * 3600) |}
           (JWT_SECRET None).
Proof.
  exact (@login_sound sample_HS256 None "anna" "tajne" sample_db 0
           {| Token.access_token := sample_token |} eq_refl).
Defined.

Lemma sample_user_ids_unique : NoDup (map ManagerUser.id (manager_user sample_db)).
Proof.
  repeat constructor. intros [].
Qed.

(** Witness of X12: [anna] logs in and asks who she is. *)
Lemma login_then_me_witness :
  exists token,
    sample_app true (POST_auth_login "anna" "tajne") None sample_db 0
    = (mkResponse 200 (JToken {| Token.access_token := token |}), sample_db)
    /\ sample_app true GET_auth_me (Some token) sample_db 3600
       = (mkResponse 200 (JUserMe (UserMe.mk 1 "anna" ["manager"])), sample_db).
Proof.
  apply (@login_then_me sample_HS256 None true sample_timestamp_in sample_timestamp_in
           None sample_db anna 0 3600).
  - simpl. auto.
  - exact sample_usernames_unique.
  - exact sample_user_ids_unique.
  - reflexivity.
Defined.

(** Witness of X13: with JWT_SECRET set to "s3cret", a token made from the
    disclosed secret resolves to [anna] a year later. *)
Lemma debug_secret_forges_tokens_witness :
  app sample_HS256 (Some "s3cret") true sample_timestamp_in sample_timestamp_in None
      GET_debug_secret None sample_db 0
  = (mkResponse 200 (JSecret (Some "s3cret")), sample_db)
  /\ exists resolved,
       get_current_user sample_HS256 (Some "s3cret")
         (jwt_encode sample_HS256
            {| sub := Some (py_str 1); role := Some "owner"; exp := None |} "s3cret")
         sample_db 31536000 = Ok resolved
       /\ ManagerUser.id resolved = 1.
Proof.
  destruct (@debug_secret_forges_tokens sample_HS256 (Some "s3cret") true
              sample_timestamp_in sample_timestamp_in None "s3cret" sample_db anna
              (Some "owner") eq_refl (or_introl eq_refl)) as [H1 H2].
  split; [apply H1 | apply H2].
Defined.

(** Witness of X14: the menu as seen with the sample token and with a token
    that claims another role. *)
Lemma response_independent_of_user_witness :
  sample_app true GET_menu_items (Some sample_token) sample_db 0
  = sample_app true GET_menu_items
      (Some (jwt_encode sample_HS256
               {| sub := Some "1"; role := Some "waiter"; exp := None |}
               "supersecretjwt"))
      sample_db 0.
Proof.
  apply (@response_independent_of_user sample_HS256 None true sample_timestamp_in
           sample_timestamp_in None GET_menu_items _ _ sample_db 0 anna anna).
  - discriminate.
  - reflexivity.
  - reflexivity.
Defined.

(** Witness of X16: dates that are no integer literals. *)
Lemma rejected_date_literal_is_a_server_error_witness :
  get_orders sample_timestamp_in None (Some "yesterday") None sample_db = Raise DataError
  /\ top_menu_items sample_timestamp_in None (Some "soon") sample_db = Raise DataError
  /\ orders_daily sample_timestamp_in (Some "today") sample_db 0 = Raise DataError.
Proof.
  destruct (@rejected_date_literal_is_a_server_error sample_timestamp_in
              sample_timestamp_in sample_db 0) as [H1 [H2 _]].
  split; [|split].
  - apply (H1 None (Some "yesterday") None). left.
    exists "yesterday". repeat split. discriminate.
  - apply (H1 None None (Some "soon")). right.
    exists "soon". repeat split. discriminate.
  - apply H2; [discriminate | reflexivity].
Defined.

(** Witness of X17: the second sample order, before any event was logged,
    is returned with its line item of Barszcz and no events. *)
Lemma get_order_details_lists_joined_rows_witness :
  fmap OrderDetailsSchema.events (get_order_details 2 unlogged_db) = Ok []
  /\ exists oi mi,
       In oi (order_item unlogged_db) /\ In mi (menu_item unlogged_db)
       /\ OrderItem.order_id oi = 2
       /\ MenuItem.id mi = OrderItem.menu_item_id oi
       /\ OrderItemSchema.mk 4 3 "Barszcz" 2
          = OrderItemSchema.mk (OrderItem.id oi) (OrderItem.menu_item_id oi)
                               (MenuItem.name_pl mi) (OrderItem.quantity oi).
Proof.
  destruct (@get_order_details_lists_joined_rows 2 unlogged_db _ eq_refl)
    as [_ [Hevents Hitems]].
  split; [reflexivity|].
  apply Hitems. simpl. auto.
Defined.

(** Witness of X18: the first entry of the sample statistics. *)
Lemma top_menu_items_lists_sold_items_only_witness :
  exists mi oi o,
    In mi (menu_item sample_db) /\ In oi (order_item sample_db)
    /\ In o (orders sample_db)
    /\ OrderItem.menu_item_id oi = MenuItem.id mi
    /\ OrderItem.order_id oi = Order.id o
    /\ (2, "Rosol") = (MenuItem.id mi, MenuItem.name_pl mi).
Proof.
  destruct (@top_menu_items_lists_sold_items_only sample_timestamp_in None None
              sample_db _ eq_refl) as [Hsold _].
  destruct (Hsold (2, "Rosol") 9) as [mi [oi [o [H1 [H2 [H3 [H4 [H5 [H6 _]]]]]]]]].
  - simpl. auto.
  - exists mi, oi, o. repeat split; assumption.
Defined.

(** Witness of X19: the day of the sample orders, on which the kitchen
    reported one order ready. *)
Lemma orders_daily_counts_ready_events_witness :
  exists terminal_stats,
    orders_daily sample_timestamp_in None sample_db 1900 = Ok terminal_stats
    /\ NoDup (map fst terminal_stats)
    /\ In ("kitchen", 1) terminal_stats.
Proof.
  destruct (@orders_daily_counts_ready_events sample_timestamp_in None sample_db 1900 0
              eq_refl) as [terminal_stats [E [Hnd [Hcount _]]]].
  exists terminal_stats. split; [exact E|]. split; [exact Hnd|].
  apply Hcount. split; [lia | reflexivity].
Defined.
